(** * HumanLoopML: model version lifecycle and feedback-driven retraining

    A shallow embedding of the Python sources

    - [src/api/main.py]                      (serving layer),
    - [src/training/retrain_with_feedback.py] (retraining pipeline),
    - [src/training/train_baseline.py]        (baseline training),
    - [src/evaluation/metrics.py]             (metrics engine),
    - [src/api/model.py]                      (model helpers),

    followed by the properties of the specification that these sources
    decide.  Python values are modelled by the inductive [pyval], the
    directories [models/], [data/feedback/] and [data/metrics/] by finite
    maps from file names to file contents, module globals by an explicit
    record, and exceptions by the [Raise] outcome of a small state-and-error
    monad that also logs the I/O the code performs. *)

From Stdlib Require Import ZArith QArith Qround Ascii String List Bool Lia.
From Stdlib Require Import Decimal DecimalString DecimalZ DecimalPos.
From stdpp Require Import base option list gmap strings fin_maps.

#[local] Open Scope string_scope.
#[local] Open Scope Z_scope.
#[local] Open Scope list_scope.

Import ListNotations.

(** ** Python strings

    A [str] is modelled as a [string] over the code points below 256. *)

Module PyStr.

(** [c.isspace()] for a code point below 256: the ASCII white space
    U+0009..U+000D, the separators U+001C..U+001F, the space, NEL (U+0085)
    and the no-break space (U+00A0). *)
Definition is_space (c : ascii) : bool :=
  let n := nat_of_ascii c in
  ((9 <=? n) && (n <=? 13) || (28 <=? n) && (n <=? 32)
   || (n =? 133) || (n =? 160))%nat.

Definition is_empty (s : string) : bool :=
  match s with EmptyString => true | String _ _ => false end.

Fixpoint lstrip (s : string) : string :=
  match s with
  | EmptyString => EmptyString
  | String c r => if is_space c then lstrip r else s
  end.

Fixpoint rstrip (s : string) : string :=
  match s with
  | EmptyString => EmptyString
  | String c r =>
      let r' := rstrip r in
      if is_space c && is_empty r' then EmptyString else String c r'
  end.

(** [s.strip()] *)
Definition strip (s : string) : string := rstrip (lstrip s).

(** [s.startswith(p)] *)
Definition startswith (p s : string) : bool := String.prefix p s.

(** [s.endswith(suf)]: some suffix of [s] is [suf]. *)
Fixpoint endswith (suf s : string) : bool :=
  String.eqb s suf
  || match s with
     | EmptyString => false
     | String _ r => endswith suf r
     end.

(** [s.replace(old, new)] for a non-empty [old]: the occurrences of [old]
    are replaced from left to right, without overlap.  [skip] counts the
    characters of an occurrence just replaced that are still to be dropped. *)
Fixpoint replace_from (old new : string) (skip : nat) (s : string) : string :=
  match s with
  | EmptyString => EmptyString
  | String c r =>
      match skip with
      | S k => replace_from old new k r
      | O =>
          if String.prefix old s
          then new ++ replace_from old new (String.length old - 1) r
          else String c (replace_from old new 0 r)
      end
  end.

Definition replace (old new s : string) : string := replace_from old new 0 s.

(** One decimal digit, as the constructor of [Decimal.uint] it stands for. *)
Definition digit_of_char (c : ascii) : option (uint -> uint) :=
  match c with
  | "0" => Some D0 | "1" => Some D1 | "2" => Some D2 | "3" => Some D3
  | "4" => Some D4 | "5" => Some D5 | "6" => Some D6 | "7" => Some D7
  | "8" => Some D8 | "9" => Some D9
  | _ => None
  end%char.

(** The digit part of an integer literal: one or more digits, where single
    underscores may stand between two digits. *)
Fixpoint parse_digits (s : string) : option uint :=
  match s with
  | EmptyString => None
  | String c r =>
      match digit_of_char c with
      | None => None
      | Some d =>
          match r with
          | EmptyString => Some (d Nil)
          | String "_"%char r' => option_map d (parse_digits r')
          | String _ _ => option_map d (parse_digits r)
          end
      end
  end.

(** The white space that [int()] skips around an integer literal: the ASCII
    white space and, of the code points above 127, NEL and the no-break
    space; unlike [strip()], it does not skip the separators
    U+001C..U+001F. *)
Definition is_int_space (c : ascii) : bool :=
  let n := nat_of_ascii c in
  ((9 <=? n) && (n <=? 13) || (n =? 32) || (n =? 133) || (n =? 160))%nat.

Fixpoint lstrip_by (P : ascii -> bool) (s : string) : string :=
  match s with
  | EmptyString => EmptyString
  | String c r => if P c then lstrip_by P r else s
  end.

Fixpoint rstrip_by (P : ascii -> bool) (s : string) : string :=
  match s with
  | EmptyString => EmptyString
  | String c r =>
      let r' := rstrip_by P r in
      if P c && is_empty r' then EmptyString else String c r'
  end.

(** [int(s)] on a [str], base 10; [None] stands for [ValueError]. *)
Definition int_of_str (s : string) : option Z :=
  match rstrip_by is_int_space (lstrip_by is_int_space s) with
  | String "-"%char r => option_map (fun d => - Z.of_uint d) (parse_digits r)
  | String "+"%char r => option_map Z.of_uint (parse_digits r)
  | t => option_map Z.of_uint (parse_digits t)
  end.

(** [str(n)] on an [int]. *)
Definition str_of_int (n : Z) : string := NilZero.string_of_int (Z.to_int n).

End PyStr.

(** ** Python values, exceptions and results *)

(** A [float]: a finite value is kept as the rational it denotes (every
    finite double is one), so that [int(x)] is exact. *)
Inductive pyfloat : Type :=
| FFinite (q : Q)
| FInf
| FNegInf
| FNaN.

#[local] Set Warnings "-register-all".

(** The values that [json.load] produces, which are also the values the
    training lists hold: [None], [bool], [int], [float], [str], [list] and
    [dict] (a dictionary is kept as its items, in insertion order). *)
Inductive pyval : Type :=
| PNone
| PBool (b : bool)
| PInt (n : Z)
| PFloat (f : pyfloat)
| PStr (s : string)
| PList (l : list pyval)
| PDict (d : list (string * pyval)).

Inductive exn : Type :=
| ValueError
| TypeError
| OverflowError
| AttributeError
| KeyError
| IndexError
| FileNotFoundError
| OSError
| UnpicklingError
| JSONDecodeError
| ExternalError                              (* raised inside a collaborator *)
| HTTPException (status : Z) (detail : string).

Inductive result (A : Type) : Type :=
| Ok (a : A)
| Raise (e : exn).
Arguments Ok {A} a.
Arguments Raise {A} e.

Definition is_ok {A} (r : result A) : bool :=
  match r with Ok _ => true | Raise _ => false end.

#[global] Instance result_ret : MRet result := fun A (a : A) => Ok a.
#[global] Instance result_bind : MBind result :=
  fun A B (f : A -> result B) (r : result A) =>
    match r with Ok a => f a | Raise e => Raise e end.

Module Py.

(** Truth value of an object, as [if x:] and [not x] test it. *)
Definition truthy (v : pyval) : bool :=
  match v with
  | PNone => false
  | PBool b => b
  | PInt n => negb (n =? 0)
  | PFloat (FFinite q) => negb (Qnum q =? 0)
  | PFloat _ => true
  | PStr s => negb (PyStr.is_empty s)
  | PList l => match l with [] => false | _ => true end
  | PDict d => match d with [] => false | _ => true end
  end.

(** [x is not None] *)
Definition is_not_None (v : pyval) : bool :=
  match v with PNone => false | _ => true end.

(** [int(x)] on a finite float: truncation toward zero. *)
Definition trunc (q : Q) : Z := Z.quot (Qnum q) (Zpos (Qden q)).

(** [int(x)] *)
Definition int (v : pyval) : result Z :=
  match v with
  | PInt n => Ok n
  | PBool b => Ok (if b then 1 else 0)
  | PFloat (FFinite q) => Ok (trunc q)
  | PFloat FNaN => Raise ValueError
  | PFloat _ => Raise OverflowError
  | PStr s => match PyStr.int_of_str s with Some n => Ok n | None => Raise ValueError end
  | PNone | PList _ | PDict _ => Raise TypeError
  end.

(** [d.get(key, default)] *)
Fixpoint dict_get (d : list (string * pyval)) (key : string) (default : pyval) : pyval :=
  match d with
  | [] => default
  | (k, v) :: r => if String.eqb k key then v else dict_get r key default
  end.

(** [max(l)] of a list of integers; [None] when the list is empty. *)
Definition max (l : list Z) : option Z :=
  match l with
  | [] => None
  | x :: r => Some (fold_left Z.max r x)
  end.

(** [range(n)] *)
Definition range (n : Z) : list Z := map Z.of_nat (seq 0 (Z.to_nat n)).

End Py.

(** ** Persisted state

    A file holds a pickled object ([joblib.dump]), plain text, or a JSON
    document ([json.dump]).  Every file of the system has one kind of reader,
    fixed by its name: [model_v*.joblib] and [vectorizer_v*.joblib] are read by
    [joblib.load], [current_version.txt] by [read()], the [.json] files by
    [json.load]; a file that its reader cannot decode makes that reader
    raise. *)

(** A fitted classifier or vectorizer: an opaque handle. *)
Inductive artifact : Type := Artifact (handle : N).

Inductive file : Type :=
| Joblib (a : artifact)
| Text (s : string)
| Json (j : pyval).

(** The three directories of the project.  A directory that does not exist
    and an empty one are not told apart by any code modelled here (every
    writer calls [os.makedirs(..., exist_ok=True)] first, every reader treats
    a missing directory as holding no file). *)
Record World : Type := {
  models_dir : gmap string file;     (* models/ *)
  feedback_dir : gmap string file;   (* data/feedback/ *)
  metrics_dir : gmap string file     (* data/metrics/ *)
}.

Definition empty_world : World :=
  {| models_dir := ∅; feedback_dir := ∅; metrics_dir := ∅ |}.

Inductive dir : Type := Models | Feedback | Metrics.

Definition get_dir (d : dir) (w : World) : gmap string file :=
  match d with
  | Models => models_dir w
  | Feedback => feedback_dir w
  | Metrics => metrics_dir w
  end.

Definition set_dir (d : dir) (m : gmap string file) (w : World) : World :=
  match d with
  | Models => {| models_dir := m; feedback_dir := feedback_dir w; metrics_dir := metrics_dir w |}
  | Feedback => {| models_dir := models_dir w; feedback_dir := m; metrics_dir := metrics_dir w |}
  | Metrics => {| models_dir := models_dir w; feedback_dir := feedback_dir w; metrics_dir := m |}
  end.

(** What the code does to the outside, in the order it does it. *)
Inductive event : Type :=
| EvLoadModel                                   (* [load_model()] is entered *)
| EvJoblibLoad (d : dir) (name : string)
| EvJoblibDump (d : dir) (name : string)
| EvJsonDump (d : dir) (name : string)
| EvWriteText (d : dir) (name : string)
| EvLoadDataset
| EvFit (train_texts train_labels : list pyval) (vectorizer : option artifact)
| EvInfer (text : string).

Definition is_write (e : event) : bool :=
  match e with
  | EvJoblibDump _ _ | EvJsonDump _ _ | EvWriteText _ _ => true
  | _ => false
  end.

(** ** The monad: state, exceptions and the log of events *)

Definition M (S A : Type) : Type := S -> result A * S * list event.

#[global] Instance M_ret {S} : MRet (M S) :=
  fun A (a : A) s => (Ok a, s, []).

#[global] Instance M_bind {S} : MBind (M S) :=
  fun A B (f : A -> M S B) (m : M S A) s =>
    match m s with
    | (Ok a, s1, t1) =>
        match f a s1 with
        | (r, s2, t2) => (r, s2, t1 ++ t2)
        end
    | (Raise e, s1, t1) => (Raise e, s1, t1)
    end.

Definition raise {S A} (e : exn) : M S A := fun s => (Raise e, s, []).

Definition emit {S} (e : event) : M S unit := fun s => (Ok tt, s, [e]).

Definition get {S} : M S S := fun s => (Ok s, s, []).

Definition put {S} (s : S) : M S unit := fun _ => (Ok tt, s, []).

Definition lift_result {S A} (r : result A) : M S A := fun s => (r, s, []).

(** [try: m except Exception as e: h e] *)
Definition try_except {S A} (m : M S A) (h : exn -> M S A) : M S A :=
  fun s =>
    match m s with
    | (Ok a, s1, t1) => (Ok a, s1, t1)
    | (Raise e, s1, t1) =>
        match h e s1 with
        | (r, s2, t2) => (r, s2, t1 ++ t2)
        end
    end.

Definition outcome {S A} (x : result A * S * list event) : result A := x.1.1.
Definition final {S A} (x : result A * S * list event) : S := x.1.2.
Definition trace {S A} (x : result A * S * list event) : list event := x.2.

(** ** External collaborators

    The data source, the scikit-learn capabilities, the clock and the disk's
    readiness to take a write are not part of the repository: the code is
    modelled relative to an environment that answers for them. *)

Record Corpus : Type := {
  train_texts : list string;
  train_labels : list Z;
  test_texts : list string;
  test_labels : list Z
}.

Inductive average : Type := Macro | Weighted.

Record Env : Type := {
  (* whether writing this file succeeds; a failed write raises [OSError] *)
  writable : dir -> string -> bool;
  (* what a failed write leaves of this file: [None] when [open] itself
     fails and the file stays as it was; [Some s] when the failure comes
     after [open(path, 'w')] has truncated the file, [s] being what was
     written until then *)
  partial_write : dir -> string -> option string;
  (* [datetime.utcnow().isoformat()] *)
  utcnow : string;
  (* [datasets.load_dataset("ag_news")] *)
  load_dataset : result Corpus;
  (* [np.array(l)] for a list [l] with an element that is neither an [int]
     of 64 bits nor a [str] (the element kinds for which the result is
     written out below) *)
  np_array_other : list pyval -> result (list pyval);
  (* [TfidfVectorizer(...)] and its [fit_transform(train_texts)]: a new
     vectorizer *)
  fit_vectorizer : list pyval -> result artifact;
  (* [vectorizer.transform(train_texts)] (for a vectorizer that is reused)
     and [LogisticRegression(...).fit(X_train, train_labels)]: a classifier *)
  fit_classifier : artifact -> list pyval -> list pyval -> result artifact;
  (* [model.predict(vectorizer.transform(texts))]: a class label per text,
     of the kind of the labels the classifier was fit on *)
  predict : artifact -> artifact -> list string -> result (list pyval);
  (* the class ids that the scores of scikit-learn take predictions for that
     are neither all [int] nor all [str] (a float [1.0] counts as the id 1),
     or the error they raise for them *)
  class_ids_other : list pyval -> result (list Z);
  (* [vectorizer.transform], [model.predict], [model.predict_proba]: the
     predicted class id and its probability *)
  infer : artifact -> artifact -> string -> result (Z * pyfloat);
  (* [sklearn.metrics.accuracy_score] and [f1_score(..., average=...)]:
     floating-point scores, kept opaque *)
  accuracy_score : list Z -> list Z -> result pyfloat;
  f1_score : average -> list Z -> list Z -> result pyfloat
}.

(** ** File operations *)

Section Files.
Context {S : Type} (world : S -> World) (with_world : World -> S -> S).

(** [os.path.exists(path)] *)
Definition exists_file (d : dir) (name : string) : M S bool :=
  s ← get; mret (bool_decide (is_Some (get_dir d (world s) !! name))).

(** [joblib.load(path)] *)
Definition joblib_load (d : dir) (name : string) : M S artifact :=
  emit (EvJoblibLoad d name);;
  s ← get;
  match get_dir d (world s) !! name with
  | None => raise FileNotFoundError
  | Some (Joblib a) => mret a
  | Some _ => raise UnpicklingError
  end.

(** [with open(path) as f: json.load(f)] *)
Definition json_load (d : dir) (name : string) : M S pyval :=
  s ← get;
  match get_dir d (world s) !! name with
  | None => raise FileNotFoundError
  | Some (Json j) => mret j
  | Some _ => raise JSONDecodeError
  end.

(** [open(path, 'w')] followed by the write.  A write that the disk takes
    replaces the file.  One that fails raises: when [open] itself fails the
    file stays as it was; when the failure comes later, [open] has truncated
    the file, and what is left is the part written until then, which no
    reader decodes as what was to be written. *)
Definition write_file (env : Env) (d : dir) (name : string) (f : file) : M S unit :=
  if writable env d name
  then s ← get; put (with_world (set_dir d (<[name := f]> (get_dir d (world s))) (world s)) s)
  else
    match partial_write env d name with
    | None => raise OSError
    | Some written =>
        s ← get;
        put (with_world (set_dir d (<[name := Text written]> (get_dir d (world s))) (world s)) s);;
        raise OSError
    end.

(** [joblib.dump(obj, path)] *)
Definition joblib_dump (env : Env) (d : dir) (name : string) (a : artifact) : M S unit :=
  emit (EvJoblibDump d name);; write_file env d name (Joblib a).

(** [with open(path, 'w') as f: json.dump(obj, f)] *)
Definition json_dump (env : Env) (d : dir) (name : string) (j : pyval) : M S unit :=
  emit (EvJsonDump d name);; write_file env d name (Json j).

(** [with open(path, 'w') as f: f.write(s)] *)
Definition write_text (env : Env) (d : dir) (name : string) (s : string) : M S unit :=
  emit (EvWriteText d name);; write_file env d name (Text s).
End Files.

(** Names of the artifacts of a version: [f'model_v{version}.joblib'] and
    the like. *)
Definition model_file (version : Z) : string :=
  "model_v" ++ PyStr.str_of_int version ++ ".joblib".
Definition vectorizer_file (version : Z) : string :=
  "vectorizer_v" ++ PyStr.str_of_int version ++ ".joblib".
Definition metrics_file (version : Z) : string :=
  "metrics_v" ++ PyStr.str_of_int version ++ ".json".
Definition pointer_file : string := "current_version.txt".

(** The body of the scanning loop that both [get_current_model_version]
    functions share: the version a file name stands for, if any.
    [[
      if filename.startswith('model_v') and filename.endswith('.joblib'):
          try: version = int(filename.replace('model_v', '').replace('.joblib', ''))
          except ValueError: continue
    ]] *)
Definition version_of_filename (filename : string) : option Z :=
  if PyStr.startswith "model_v" filename && PyStr.endswith ".joblib" filename
  then PyStr.int_of_str (PyStr.replace ".joblib" "" (PyStr.replace "model_v" "" filename))
  else None.

(** [versions], over [os.listdir(models_dir)] in the order the directory
    yields its names. *)
Definition scan_versions (m : gmap string file) : list Z :=
  omap version_of_filename (map_to_list m).*1.

Definition default_label_names : list string :=
  ["World"; "Sports"; "Business"; "Sci/Tech"].

(** ** The metrics engine: [src/evaluation/metrics.py]

    Class labels are the integer ids of the corpus.  The two scikit-learn
    functions that [calculate_metrics] calls with [labels=range(n)] are
    written out as the library documents them; their integer results
    (counts) are exact, and a ratio is kept as the exact rational that the
    reported double rounds. *)

Module Metrics.

Record ClassMetrics : Type := {
  precision : Q;
  recall : Q;
  f1 : Q;
  support : Z
}.

(** The dictionary [metrics] that [calculate_metrics] returns, a field per
    key; [confusion_matrix_of] is its key ['confusion_matrix'], and
    [per_class] maps a label name to its four values. *)
Record MetricsRecord : Type := {
  accuracy : pyfloat;
  f1_macro : pyfloat;
  f1_weighted : pyfloat;
  per_class : gmap string ClassMetrics;
  confusion_matrix_of : list (list Z);
  label_names : list string
}.

(** Number of samples whose pair (true, predicted) satisfies [p]. *)
Definition count_samples (p : Z -> Z -> bool) (y_true y_pred : list Z) : Z :=
  Z.of_nat (length (filter (fun s => p s.1 s.2 = true) (zip y_true y_pred))).

(** [sklearn.metrics.confusion_matrix(y_true, y_pred, labels=labels)]:
    entry [i][j] counts the samples whose true label is [labels[i]] and whose
    predicted label is [labels[j]]; a sample with a label outside [labels]
    is left out. *)
Definition confusion_matrix (y_true y_pred labels : list Z) : result (list (list Z)) :=
  if negb (length y_true =? length y_pred)%nat then Raise ValueError
  else if bool_decide (labels = []) then Raise ValueError
  else if bool_decide (y_true = []) then Ok (map (fun _ => map (fun _ => 0) labels) labels)
  else if forallb (fun t => negb (bool_decide (t ∈ labels))) y_true then Raise ValueError
  else
    Ok (map (fun i =>
               map (fun j => count_samples (fun t p => (t =? i) && (p =? j)) y_true y_pred)
                 labels)
          labels).

(** [_prf_divide(numerator, denominator, zero_division=0)] *)
Definition prf_divide (numerator denominator : Z) : Q :=
  if denominator =? 0 then 0%Q else Qmake numerator (Z.to_pos denominator).

(** [sklearn.metrics.precision_recall_fscore_support(y_true, y_pred,
    labels=labels, zero_division=0)]: per label, from the number of samples
    it is the true label of ([true_sum], the support), the number it is
    predicted for ([pred_sum]) and the number of both ([tp_sum]): precision
    [tp_sum / pred_sum], recall [tp_sum / true_sum] and F1
    [2 * tp_sum / (true_sum + pred_sum)], each [0] where its denominator
    is. *)
Definition precision_recall_fscore_support (y_true y_pred labels : list Z)
  : result (list Q * list Q * list Q * list Z) :=
  if negb (length y_true =? length y_pred)%nat then Raise ValueError
  else
    let tp_sum i := count_samples (fun t p => (t =? i) && (p =? i)) y_true y_pred in
    let pred_sum i := count_samples (fun t p => p =? i) y_true y_pred in
    let true_sum i := count_samples (fun t p => t =? i) y_true y_pred in
    Ok (map (fun i => prf_divide (tp_sum i) (pred_sum i)) labels,
        map (fun i => prf_divide (tp_sum i) (true_sum i)) labels,
        map (fun i => prf_divide (2 * tp_sum i) (true_sum i + pred_sum i)) labels,
        map true_sum labels).

(** [a[i]] on an array *)
Definition at_index {A} (a : list A) (i : nat) : result A :=
  match a !! i with Some x => Ok x | None => Raise IndexError end.

(** The loop [for i, label in enumerate(label_names)] that fills the
    dictionary [per_class_metrics]. *)
Fixpoint fill_per_class (items : list (nat * string)) (precision recall f1 : list Q)
    (support : list Z) (per_class_metrics : gmap string ClassMetrics)
  : result (gmap string ClassMetrics) :=
  match items with
  | [] => Ok per_class_metrics
  | (i, label) :: rest =>
      p ← at_index precision i;
      r ← at_index recall i;
      f ← at_index f1 i;
      s ← at_index support i;
      fill_per_class rest precision recall f1 support
        (<[label := {| precision := p; recall := r; f1 := f; support := s |}]>
           per_class_metrics)
  end.

(** [enumerate(l)] *)
Definition enumerate {A} (l : list A) : list (nat * A) := zip (seq 0 (length l)) l.

(** [calculate_metrics(y_true, y_pred, label_names)] *)
Definition calculate_metrics (env : Env) (y_true y_pred : list Z) (label_names : list string)
  : result MetricsRecord :=
  accuracy ← accuracy_score env y_true y_pred;
  f1_macro ← f1_score env Macro y_true y_pred;
  f1_weighted ← f1_score env Weighted y_true y_pred;
  let labels := Py.range (Z.of_nat (length label_names)) in
  '(precision, recall, f1, support) ←
    precision_recall_fscore_support y_true y_pred labels;
  cm ← confusion_matrix y_true y_pred labels;
  per_class_metrics ← fill_per_class (enumerate label_names) precision recall f1 support ∅;
  mret {| accuracy := accuracy;
          f1_macro := f1_macro;
          f1_weighted := f1_weighted;
          per_class := per_class_metrics;
          confusion_matrix_of := cm;
          label_names := label_names |}.

(** The keys of a dictionary filled by assignments, in the order it keeps
    them: that of the first assignment of each key. *)
Fixpoint keys_in_order (names : list string) : list string :=
  match names with
  | [] => []
  | name :: rest => name :: filter (fun k => k <> name) (keys_in_order rest)
  end.

Definition class_to_json (c : ClassMetrics) : pyval :=
  PDict [("precision", PFloat (FFinite (precision c)));
         ("recall", PFloat (FFinite (recall c)));
         ("f1", PFloat (FFinite (f1 c)));
         ("support", PInt (support c))].

(** The JSON document that [json.dump(metrics, f, indent=2)] writes. *)
Definition to_json (m : MetricsRecord) : pyval :=
  PDict [("accuracy", PFloat (accuracy m));
         ("f1_macro", PFloat (f1_macro m));
         ("f1_weighted", PFloat (f1_weighted m));
         ("per_class",
          PDict (omap (fun label => (fun c => (label, class_to_json c)) <$> per_class m !! label)
                   (keys_in_order (label_names m))));
         ("confusion_matrix", PList (map (fun row => PList (map PInt row)) (confusion_matrix_of m)));
         ("label_names", PList (map PStr (label_names m)))].

(** [save_metrics(metrics, version, metrics_dir)] *)
Definition save_metrics (env : Env) (metrics : MetricsRecord) (version : Z) : M World unit :=
  json_dump id (fun w _ => w) env Metrics (metrics_file version) (to_json metrics).

(** [load_metrics(version, metrics_dir)] *)
Definition load_metrics (version : Z) : M World (option pyval) :=
  present ← exists_file id Metrics (metrics_file version);
  if present : bool
  then (j ← json_load id Metrics (metrics_file version); mret (Some j))
  else mret None.

End Metrics.

(** ** The serving layer: [src/api/main.py] *)

Module Api.

(** The module globals, next to the disk the process works on. *)
Record State : Type := {
  disk : World;
  current_model : option artifact;
  current_vectorizer : option artifact;
  current_version : option Z;
  label_names : pyval
}.

Definition initial (w : World) : State :=
  {| disk := w; current_model := None; current_vectorizer := None;
     current_version := None; label_names := PNone |}.

Definition with_disk (w : World) (s : State) : State :=
  {| disk := w; current_model := current_model s;
     current_vectorizer := current_vectorizer s;
     current_version := current_version s; label_names := label_names s |}.

Definition set_current_model (a : artifact) : M State unit :=
  fun s => (Ok tt, {| disk := disk s; current_model := Some a;
                      current_vectorizer := current_vectorizer s;
                      current_version := current_version s;
                      label_names := label_names s |}, []).

Definition set_current_vectorizer (a : artifact) : M State unit :=
  fun s => (Ok tt, {| disk := disk s; current_model := current_model s;
                      current_vectorizer := Some a;
                      current_version := current_version s;
                      label_names := label_names s |}, []).

Definition set_current_version (v : Z) : M State unit :=
  fun s => (Ok tt, {| disk := disk s; current_model := current_model s;
                      current_vectorizer := current_vectorizer s;
                      current_version := Some v;
                      label_names := label_names s |}, []).

Definition set_label_names (j : pyval) : M State unit :=
  fun s => (Ok tt, {| disk := disk s; current_model := current_model s;
                      current_vectorizer := current_vectorizer s;
                      current_version := current_version s;
                      label_names := j |}, []).

Record PredictRequest : Type := { request_text : string }.

Record PredictResponse : Type := {
  prediction : string;
  confidence : pyfloat;
  model_version : string
}.

Record FeedbackRequest : Type := {
  text : string;
  model_prediction : string;
  human_label : string
}.

Record FeedbackResponse : Type := {
  message : string;
  timestamp : string
}.

(** [get_current_model_version()]: the pointer file if it exists, else the
    highest version among the model files, else [None]. *)
Definition get_current_model_version (w : World) : result (option Z) :=
  match models_dir w !! pointer_file with
  | Some (Text s) =>
      match PyStr.int_of_str (PyStr.strip s) with
      | Some n => Ok (Some n)
      | None => Raise ValueError
      end
  | Some _ => Raise ValueError
  | None => Ok (Py.max (scan_versions (models_dir w)))
  end.

(** [load_model(version=None)] *)
Definition load_model (version : option Z) : M State unit :=
  emit EvLoadModel;;
  version ← match version with
            | Some v => mret v
            | None =>
                s ← get;
                v ← lift_result (get_current_model_version (disk s));
                match v with
                | Some v => mret v
                | None => raise ValueError
                end
            end;
  present ← exists_file disk Models (model_file version);
  if negb present then raise FileNotFoundError else
  m ← joblib_load disk Models (model_file version);
  set_current_model m;;
  v ← joblib_load disk Models (vectorizer_file version);
  set_current_vectorizer v;;
  set_current_version version;;
  has_labels ← exists_file disk Models "label_names.json";
  if has_labels : bool
  then (j ← json_load disk Models "label_names.json"; set_label_names j)
  else set_label_names (PList (map PStr default_label_names)).

(** [seq[i]] on a list, with Python's negative indices. *)
Definition list_index (l : list pyval) (i : Z) : result pyval :=
  let n := Z.of_nat (length l) in
  let k := if i <? 0 then i + n else i in
  if (0 <=? k) && (k <? n)
  then match l !! Z.to_nat k with Some v => Ok v | None => Raise IndexError end
  else Raise IndexError.

Definition str_index (s : string) (i : Z) : result pyval :=
  let n := Z.of_nat (String.length s) in
  let k := if i <? 0 then i + n else i in
  if (0 <=? k) && (k <? n)
  then match String.get (Z.to_nat k) s with
       | Some c => Ok (PStr (String c EmptyString))
       | None => Raise IndexError
       end
  else Raise IndexError.

(** [get_label_name(label_id)], reading the global [label_names]. *)
Definition get_label_name (names : pyval) (label_id : Z) : result pyval :=
  let fallback := Ok (PStr ("Label_" ++ PyStr.str_of_int label_id)) in
  if Py.truthy names then
    match names with
    | PList l =>
        if label_id <? Z.of_nat (length l) then list_index l label_id else fallback
    | PStr s =>
        if label_id <? Z.of_nat (String.length s) then str_index s label_id else fallback
    | PDict d =>
        (* the keys of a JSON object are strings: an integer is none of them *)
        if label_id <? Z.of_nat (length d) then Raise KeyError else fallback
    | _ => Raise TypeError                     (* [len] of a number *)
    end
  else fallback.

(** [startup_event()] *)
Definition startup_event : M State unit :=
  try_except (load_model None) (fun e => mret tt).

(** [not s or not s.strip()] *)
Definition blank (s : string) : bool :=
  PyStr.is_empty s || PyStr.is_empty (PyStr.strip s).

(** [predict(request)] *)
Definition predict (env : Env) (request : PredictRequest) : M State PredictResponse :=
  s ← get;
  (match current_model s, current_vectorizer s with
   | Some _, Some _ => mret tt
   | _, _ =>
       try_except (load_model None)
         (fun e => raise (HTTPException 500 "Model not available"))
   end);;
  if blank (request_text request)
  then raise (HTTPException 400 "Text cannot be empty")
  else
    try_except
      (s ← get;
       match current_vectorizer s, current_model s with
       | Some v, Some m =>
           emit (EvInfer (request_text request));;
           '(prediction_id, confidence) ← lift_result (infer env m v (request_text request));
           prediction_name ← lift_result (get_label_name (label_names s) prediction_id);
           match prediction_name with
           | PStr name =>
               mret {| prediction := name;
                       confidence := confidence;
                       model_version :=
                         "v" ++ match current_version s with
                                | Some n => PyStr.str_of_int n
                                | None => "None"
                                end |}
           | _ => raise ValueError             (* [prediction: str] is validated *)
           end
       | _, _ => raise AttributeError
       end)
      (fun e => raise (HTTPException 500 "Prediction error")).

(** [submit_feedback(request)]; it uses the disk only. *)
Definition submit_feedback (env : Env) (request : FeedbackRequest) : M World FeedbackResponse :=
  if blank (text request)
  then raise (HTTPException 400 "Text cannot be empty")
  else if PyStr.is_empty (human_label request)
  then raise (HTTPException 400 "Human label cannot be empty")
  else
    w ← get;
    version ← lift_result (get_current_model_version w);
    let version := match version with Some v => v | None => 1 end in
    let feedback_entry :=
      PDict [("text", PStr (text request));
             ("model_prediction", PStr (model_prediction request));
             ("human_label", PStr (human_label request));
             ("timestamp", PStr (utcnow env));
             ("model_version", PStr ("v" ++ PyStr.str_of_int version))] in
    present ← exists_file id Feedback "feedback.json";
    feedback_data ← (if present : bool then json_load id Feedback "feedback.json"
                     else mret (PList []));
    match feedback_data with
    | PList l =>
        json_dump id (fun w _ => w) env Feedback "feedback.json" (PList (l ++ [feedback_entry]));;
        mret {| message := "Feedback received successfully";
                timestamp := utcnow env |}
    | _ => raise AttributeError                (* no [append] on the loaded value *)
    end.

(** [v == name] for a [str] [name]: only a [str] equals one. *)
Definition equals_str (name : string) (v : pyval) : bool :=
  match v with PStr s => String.eqb s name | _ => false end.

(** [s.index(sub)] on a [str]: the lowest position at which [sub] occurs,
    counted from [i]; [None] stands for [ValueError]. *)
Fixpoint str_find (sub s : string) (i : Z) : option Z :=
  if String.prefix sub s then Some i
  else match s with
       | EmptyString => None
       | String _ r => str_find sub r (i + 1)
       end.

(** [get_label_id(label_name)], reading the global [label_names]; the
    result [None] is Python's [None]. *)
Definition get_label_id (names : pyval) (label_name : string) : result (option Z) :=
  if Py.truthy names then
    match names with
    | PList l =>
        match list_find (fun v => equals_str label_name v = true) l with
        | Some (i, _) => Ok (Some (Z.of_nat i))
        | None => Ok None                      (* [ValueError] is passed over *)
        end
    | PStr s => Ok (str_find label_name s 0)
    | _ => Raise AttributeError                (* no [index] on a dict or a number *)
    end
  else Ok None.

(** [get_metrics(version)]; it uses the disk only. *)
Definition get_metrics (version : option Z) : M World pyval :=
  version ← match version with
            | Some v => mret v
            | None =>
                w ← get;
                v ← lift_result (get_current_model_version w);
                match v with
                | Some v => mret v
                | None => raise (HTTPException 404 "No model found")
                end
            end;
  present ← exists_file id Metrics (metrics_file version);
  if negb present
  then raise (HTTPException 404
                ("Metrics for v" ++ PyStr.str_of_int version ++ " not found"))
  else
    metrics ← json_load id Metrics (metrics_file version);
    mret (PDict [("version", PStr ("v" ++ PyStr.str_of_int version));
                 ("metrics", metrics)]).

(** [get_model_version()]; it uses the disk only. *)
Definition get_model_version : M World pyval :=
  w ← get;
  version ← lift_result (get_current_model_version w);
  match version with
  | None => raise (HTTPException 404 "No model found")
  | Some v =>
      mret (PDict [("version", PStr ("v" ++ PyStr.str_of_int v));
                   ("version_number", PInt v)])
  end.

(** [health_check()] *)
Definition health_check : M State pyval :=
  s ← get;
  mret (PDict [("status", PStr "healthy");
               ("model_loaded", PBool (bool_decide (is_Some (current_model s))));
               ("current_version",
                match current_version s with
                | Some v =>
                    if Py.truthy (PInt v) then PStr ("v" ++ PyStr.str_of_int v) else PNone
                | None => PNone
                end)]).

End Api.

(** ** Model management helpers: [src/api/model.py] *)

Module Model.

(** [load_model_and_vectorizer(version, models_dir)] *)
Definition load_model_and_vectorizer (version : Z) : M World (artifact * artifact) :=
  present ← exists_file id Models (model_file version);
  if negb present then raise FileNotFoundError
  else
    model ← joblib_load id Models (model_file version);
    vectorizer ← joblib_load id Models (vectorizer_file version);
    mret (model, vectorizer).

(** [load_label_names(models_dir)] *)
Definition load_label_names : M World pyval :=
  present ← exists_file id Models "label_names.json";
  if present : bool
  then json_load id Models "label_names.json"
  else mret (PList (map PStr default_label_names)).

End Model.

(** ** numpy arrays and the labels of scikit-learn

    An array is kept as the list of its elements.  [np.array] gives all
    elements one dtype; it is written out for the element kinds that the
    system produces itself, the integer class ids of the corpus and the
    strings of the serving layer, and left to the environment for lists with
    an element of another kind. *)

Module Np.

(** An [int] that fits the dtype [int64]. *)
Definition int64 (v : pyval) : bool :=
  match v with
  | PInt n => (- 2 ^ 63 <=? n) && (n <? 2 ^ 63)
  | _ => false
  end.

Definition is_str (v : pyval) : bool :=
  match v with PStr _ => true | _ => false end.

Definition is_nul (c : ascii) : bool := (nat_of_ascii c =? 0)%nat.

(** What an element becomes in an array of strings (dtype [<U]): an [int]
    its [str(n)]; a [str] itself, without trailing NUL characters, which
    such an array does not keep. *)
Definition str_ (v : pyval) : pyval :=
  match v with
  | PInt n => PStr (PyStr.str_of_int n)
  | PStr s => PStr (PyStr.rstrip_by is_nul s)
  | _ => v
  end.

(** The elements of [np.array(l)] for a list of 64-bit ints and strs: ints
    alone stay as they are (dtype [int64]); with a [str] in the list every
    element becomes a string. *)
Definition unify (l : list pyval) : list pyval :=
  if forallb int64 l then l else map str_ l.

(** [np.array(l)] on a list *)
Definition array (env : Env) (l : list pyval) : result (list pyval) :=
  if forallb (fun v => int64 v || is_str v) l then Ok (unify l)
  else np_array_other env l.

End Np.

(** The class ids of labels that are all [int]. *)
Definition class_ids (labels : list pyval) : option (list Z) :=
  mapM (fun v => match v with PInt n => Some n | _ => None end) labels.

(** Predictions as [accuracy_score], [f1_score] and [calculate_metrics] take
    them next to the integer labels of the test split: integers are the
    class ids; strings are refused, since the label handling of scikit-learn
    raises [ValueError] for a mix of numbers and strings (the model raises
    at the first score that is computed). *)
Definition label_ids (env : Env) (pred : list pyval) : result (list Z) :=
  match class_ids pred with
  | Some ids => Ok ids
  | None =>
      if forallb Np.is_str pred then Raise ValueError
      else class_ids_other env pred
  end.

(** ** The retraining pipeline: [src/training/retrain_with_feedback.py] *)

Module Retrain.

(** [load_original_data()] *)
Definition load_original_data (env : Env) : M World (Corpus * list string) :=
  emit EvLoadDataset;;
  c ← lift_result (load_dataset env);
  mret (c, default_label_names).

(** The loop of [load_feedback] over the entries of the file: an entry is
    kept when its text is truthy and its human label is not [None]; an entry
    without a [get] method raises. *)
Fixpoint feedback_samples_of (entries : list pyval) : result (list (pyval * pyval)) :=
  match entries with
  | [] => Ok []
  | PDict d :: rest =>
      let text := Py.dict_get d "text" (PStr "") in
      let human_label := Py.dict_get d "human_label" PNone in
      match feedback_samples_of rest with
      | Ok samples =>
          if Py.truthy text && Py.is_not_None human_label
          then Ok ((text, human_label) :: samples)
          else Ok samples
      | Raise e => Raise e
      end
  | _ :: _ => Raise AttributeError
  end.

(** [for entry in feedback_data], by the kind of value the file holds. *)
Definition iterate_feedback (feedback_data : pyval) : result (list (pyval * pyval)) :=
  match feedback_data with
  | PList l => feedback_samples_of l
  | PDict [] | PStr EmptyString => Ok []
  | PDict _ | PStr _ => Raise AttributeError   (* the items are [str] *)
  | _ => Raise TypeError                       (* not iterable *)
  end.

(** [load_feedback(feedback_path)] *)
Definition load_feedback : M World (list (pyval * pyval)) :=
  present ← exists_file id Feedback "feedback.json";
  if negb present then mret []
  else
    feedback_data ← json_load id Feedback "feedback.json";
    lift_result (iterate_feedback feedback_data).

(** [get_current_model_version(models_dir)]: the highest version among the
    model files, [0] when there is none. *)
Definition get_current_model_version (w : World) : Z :=
  match Py.max (scan_versions (models_dir w)) with
  | Some v => v
  | None => 0
  end.

(** The inner loop [for _ in range(n)]: one text and one label appended per
    round. *)
Definition append_repeated {T L} (n : Z) (text : T) (label : L)
    (acc : list T * list L) : list T * list L :=
  Nat.iter (Z.to_nat n) (fun '(texts, labels) => (texts ++ [text], labels ++ [label])) acc.

(** [combine_datasets(original_texts, original_labels, feedback_samples,
    feedback_weight)].  [int(feedback_weight)] is evaluated by the loop and,
    whatever the samples, by the summary the function prints; the two lists
    are then turned into arrays, the texts first. *)
Definition combine_datasets (env : Env) (original_texts original_labels : list pyval)
    (feedback_samples : list (pyval * pyval)) (feedback_weight : pyval)
  : result (list pyval * list pyval) :=
  match Py.int feedback_weight with
  | Raise e => Raise e
  | Ok n =>
      let '(combined_texts, combined_labels) :=
        fold_left (fun acc '(text, label) => append_repeated n text label acc)
          feedback_samples (original_texts, original_labels) in
      texts ← Np.array env combined_texts;
      labels ← Np.array env combined_labels;
      mret (texts, labels)
  end.

(** [retrain_model(train_texts, train_labels, test_texts, test_labels,
    label_names, vectorizer)]: a vectorizer that is handed over is reused,
    else one is fit; the classifier is fit on the training rows and scored
    on the test split.  What the function only prints (the feature matrix
    shape, the confusion matrix) is left out. *)
Definition retrain_model (env : Env) (train_texts train_labels : list pyval)
    (test_texts : list string) (test_labels : list Z) (label_names : list string)
    (vectorizer : option artifact)
  : M World (artifact * artifact * Metrics.MetricsRecord) :=
  emit (EvFit train_texts train_labels vectorizer);;
  vectorizer ← match vectorizer with
               | None => lift_result (fit_vectorizer env train_texts)
               | Some v => mret v
               end;
  model ← lift_result (fit_classifier env vectorizer train_texts train_labels);
  test_pred ← lift_result (predict env model vectorizer test_texts);
  test_pred ← lift_result (label_ids env test_pred);
  lift_result (accuracy_score env test_labels test_pred);;
  lift_result (f1_score env Macro test_labels test_pred);;
  metrics ← lift_result (Metrics.calculate_metrics env test_labels test_pred label_names);
  mret (model, vectorizer, metrics).

(** [x[key]] with a [str] key. *)
Definition subscript (x : pyval) (key : string) : result pyval :=
  match x with
  | PDict d =>
      match Py.dict_get d key PNone, bool_decide (key ∈ d.*1) with
      | v, true => Ok v
      | _, false => Raise KeyError
      end
  | _ => Raise TypeError
  end.

(** [metrics[key] - baseline_metrics[key]], where [metrics[key]] is a
    [float]. *)
Definition improvement (baseline_metrics : pyval) (key : string) : result unit :=
  y ← subscript baseline_metrics key;
  match y with
  | PInt _ | PFloat _ | PBool _ => Ok tt
  | _ => Raise TypeError
  end.

(** The report printed after the commit: the new scores and, when the
    metrics of version 1 are stored, their difference to them. *)
Definition report (metrics : Metrics.MetricsRecord) (current_version : Z) : M World unit :=
  if 1 <=? current_version then
    baseline_metrics ← Metrics.load_metrics 1;
    match baseline_metrics with
    | Some b =>
        if Py.truthy b then
          lift_result (improvement b "accuracy");;
          lift_result (improvement b "f1_macro");;
          mret tt
        else mret tt
    | None => mret tt
    end
  else mret tt.

(** [main(feedback_weight)] *)
Definition main (env : Env) (feedback_weight : pyval) : M World unit :=
  w ← get;
  let current_version := get_current_model_version w in
  if current_version =? 0 then mret tt         (* "No baseline model found" *)
  else
    let next_version := current_version + 1 in
    '(corpus, label_names) ← load_original_data env;
    feedback_samples ← load_feedback;
    '(combined_texts, combined_labels) ←
      lift_result (combine_datasets env (map PStr (train_texts corpus))
                     (map PInt (train_labels corpus))
                     feedback_samples feedback_weight);
    has_vectorizer ← exists_file id Models (vectorizer_file current_version);
    vectorizer ← (if has_vectorizer : bool
                  then (v ← joblib_load id Models (vectorizer_file current_version);
                        mret (Some v))
                  else mret None);
    '(model, vectorizer, metrics) ←
      retrain_model env combined_texts combined_labels
        (test_texts corpus) (test_labels corpus) label_names vectorizer;
    joblib_dump id (fun w _ => w) env Models (model_file next_version) model;;
    joblib_dump id (fun w _ => w) env Models (vectorizer_file next_version) vectorizer;;
    Metrics.save_metrics env metrics next_version;;
    write_text id (fun w _ => w) env Models pointer_file (PyStr.str_of_int next_version);;
    report metrics current_version.

End Retrain.

(** ** Comparing versions: [compare_models] of [src/evaluation/metrics.py] *)

(** [d[key] = v] on a dictionary kept as its items: the value of a key that
    is there is replaced in place, a new key goes to the end. *)
Fixpoint dict_set (d : list (string * pyval)) (key : string) (v : pyval)
  : list (string * pyval) :=
  match d with
  | [] => [(key, v)]
  | (k, x) :: r =>
      if String.eqb k key then (k, v) :: r else (k, x) :: dict_set r key v
  end.

(** The loop [for version in versions] of [compare_models], from the
    dictionary [comparison] built so far. *)
Fixpoint compare_loop (versions : list Z) (comparison : list (string * pyval))
  : M World (list (string * pyval)) :=
  match versions with
  | [] => mret comparison
  | version :: rest =>
      metrics ← Metrics.load_metrics version;
      match metrics with
      | Some m =>
          if Py.truthy m then
            accuracy ← lift_result (Retrain.subscript m "accuracy");
            f1_macro ← lift_result (Retrain.subscript m "f1_macro");
            f1_weighted ← lift_result (Retrain.subscript m "f1_weighted");
            compare_loop rest
              (dict_set comparison ("v" ++ PyStr.str_of_int version)
                 (PDict [("accuracy", accuracy);
                         ("f1_macro", f1_macro);
                         ("f1_weighted", f1_weighted)]))
          else compare_loop rest comparison
      | None => compare_loop rest comparison
      end
  end.

(** [compare_models(versions, metrics_dir)] *)
Definition compare_models (versions : list Z) : M World (list (string * pyval)) :=
  compare_loop versions [].

(** ** Baseline training: [src/training/train_baseline.py] *)

Module Baseline.

(** [save_model(model, vectorizer, version=1)] *)
Definition save_model (env : Env) (model vectorizer : artifact) (version : Z)
  : M World (string * string) :=
  joblib_dump id (fun w _ => w) env Models (model_file version) model;;
  joblib_dump id (fun w _ => w) env Models (vectorizer_file version) vectorizer;;
  mret (model_file version, vectorizer_file version).

(** [load_ag_news()] *)
Definition load_ag_news (env : Env) : M World (Corpus * list string) :=
  emit EvLoadDataset;;
  c ← lift_result (load_dataset env);
  mret (c, default_label_names).

(** [classification_report(y_true, y_pred, target_names=target_names)], for
    what it raises: without [labels], the classes that occur in the true or
    the predicted labels must be as many as the names. *)
Definition classification_report (y_true y_pred : list Z) (target_names : list string)
  : result unit :=
  if (length (remove_dups (y_true ++ y_pred)) =? length target_names)%nat
  then Ok tt
  else Raise ValueError.

(** [train_baseline_model(train_texts, train_labels, test_texts,
    test_labels, label_names)]; the confusion matrix that it only prints is
    left out, and of the classification report that it prints what makes it
    raise is kept. *)
Definition train_baseline_model (env : Env) (corpus : Corpus) (label_names : list string)
  : M World (artifact * artifact * Metrics.MetricsRecord) :=
  let texts := map PStr (train_texts corpus) in
  let labels := map PInt (train_labels corpus) in
  emit (EvFit texts labels None);;
  vectorizer ← lift_result (fit_vectorizer env texts);
  model ← lift_result (fit_classifier env vectorizer texts labels);
  train_pred ← lift_result (predict env model vectorizer (train_texts corpus));
  test_pred ← lift_result (predict env model vectorizer (test_texts corpus));
  train_pred ← lift_result (label_ids env train_pred);
  lift_result (accuracy_score env (train_labels corpus) train_pred);;
  test_pred ← lift_result (label_ids env test_pred);
  lift_result (accuracy_score env (test_labels corpus) test_pred);;
  lift_result (f1_score env Macro (train_labels corpus) train_pred);;
  lift_result (f1_score env Macro (test_labels corpus) test_pred);;
  metrics ← lift_result (Metrics.calculate_metrics env (test_labels corpus) test_pred
                           label_names);
  lift_result (classification_report (test_labels corpus) test_pred label_names);;
  mret (model, vectorizer, metrics).

(** [main()] *)
Definition main (env : Env) : M World unit :=
  '(corpus, label_names) ← load_ag_news env;
  '(model, vectorizer, metrics) ← train_baseline_model env corpus label_names;
  save_model env model vectorizer 1;;
  Metrics.save_metrics env metrics 1;;
  json_dump id (fun w _ => w) env Models "label_names.json" (PList (map PStr label_names)).

End Baseline.

(** ** Definitions used by the statements *)

Section Repeated.
Context {T L : Type}.

(** The rows that [k] repetitions of every feedback sample add. *)
Definition repeated_texts (k : nat) (samples : list (T * L)) : list T :=
  flat_map (fun s => repeat s.1 k) samples.
Definition repeated_labels (k : nat) (samples : list (T * L)) : list L :=
  flat_map (fun s => repeat s.2 k) samples.
End Repeated.

(** A text as the corpus and the serving layer hold it: a [str] that does
    not end in a NUL character. *)
Definition is_text (v : pyval) : bool :=
  match v with
  | PStr s => String.eqb (PyStr.rstrip_by Np.is_nul s) s
  | _ => false
  end.

(** A label: an integer class id of 64 bits, or a string. *)
Definition is_label (v : pyval) : bool := Np.int64 v || Np.is_str v.

(** A weight that denotes the integer [w]: the [int] itself, or the [float]
    of that value (the command line parses the weight as a [float]). *)
Definition integer_weight (w : Z) (v : pyval) : Prop :=
  v = PInt w \/ v = PFloat (FFinite (inject_Z w)).

(** Character-wise facts about strings. *)
Fixpoint all_chars (P : ascii -> bool) (s : string) : bool :=
  match s with
  | EmptyString => true
  | String c r => P c && all_chars P r
  end.

Definition is_digit (c : ascii) : bool :=
  match PyStr.digit_of_char c with Some _ => true | None => false end.

Definition differs (c0 : ascii) (c : ascii) : bool := negb (Ascii.eqb c0 c).

(** The stages of [Retrain.main] that come before the commit (resolve the
    baseline, load the corpus and the feedback, combine, load the vectorizer,
    fit and evaluate): the text of [main] up to the first [joblib.dump].
    [None] is the early return of a run without baseline. *)
Definition stages_before_commit (env : Env) (feedback_weight : pyval)
  : M World (option (Z * (artifact * artifact * Metrics.MetricsRecord))) :=
  w ← get;
  let current_version := Retrain.get_current_model_version w in
  if current_version =? 0 then mret None
  else
    '(corpus, label_names) ← Retrain.load_original_data env;
    feedback_samples ← Retrain.load_feedback;
    '(combined_texts, combined_labels) ←
      lift_result (Retrain.combine_datasets env (map PStr (train_texts corpus))
                     (map PInt (train_labels corpus))
                     feedback_samples feedback_weight);
    has_vectorizer ← exists_file id Models (vectorizer_file current_version);
    vectorizer ← (if has_vectorizer : bool
                  then (v ← joblib_load id Models (vectorizer_file current_version);
                        mret (Some v))
                  else mret None);
    fitted ← Retrain.retrain_model env combined_texts combined_labels
               (test_texts corpus) (test_labels corpus) label_names vectorizer;
    mret (Some (current_version, fitted)).

(** The commit of [Retrain.main]: the text of [main] from the first
    [joblib.dump] to the write of [current_version.txt]. *)
Definition commit (env : Env) (next_version : Z) (model vectorizer : artifact)
    (metrics : Metrics.MetricsRecord) : M World unit :=
  joblib_dump id (fun w _ => w) env Models (model_file next_version) model;;
  joblib_dump id (fun w _ => w) env Models (vectorizer_file next_version) vectorizer;;
  Metrics.save_metrics env metrics next_version;;
  write_text id (fun w _ => w) env Models pointer_file (PyStr.str_of_int next_version).

(** The events of a complete commit of version [v], in order: register the
    classifier and the vectorizer, persist the metrics, promote. *)
Definition commit_events (v : Z) : list event :=
  [EvJoblibDump Models (model_file v);
   EvJoblibDump Models (vectorizer_file v);
   EvJsonDump Metrics (metrics_file v);
   EvWriteText Models pointer_file].

Definition writes (t : list event) : list event :=
  filter (fun e => is_write e = true) t.

(** The disk after a complete commit of version [v]. *)
Definition committed (w : World) (v : Z) (model vectorizer : artifact)
    (metrics : Metrics.MetricsRecord) : World :=
  {| models_dir :=
       <[pointer_file := Text (PyStr.str_of_int v)]>
         (<[vectorizer_file v := Joblib vectorizer]>
            (<[model_file v := Joblib model]> (models_dir w)));
     feedback_dir := feedback_dir w;
     metrics_dir := <[metrics_file v := Json (Metrics.to_json metrics)]> (metrics_dir w) |}.

(** The disk after the registration of version [v] alone: the classifier and
    the vectorizer are stored, the metrics and the pointer are as they
    were. *)
Definition registered (w : World) (v : Z) (model vectorizer : artifact) : World :=
  {| models_dir :=
       <[vectorizer_file v := Joblib vectorizer]>
         (<[model_file v := Joblib model]> (models_dir w));
     feedback_dir := feedback_dir w;
     metrics_dir := metrics_dir w |}.

(** The events of a commit that stops at the metrics. *)
Definition unpersisted_events (v : Z) : list event :=
  [EvJoblibDump Models (model_file v);
   EvJoblibDump Models (vectorizer_file v);
   EvJsonDump Metrics (metrics_file v)].

(** ** An example environment and example disks, for the scenarios *)

Definition example_corpus : Corpus :=
  {| train_texts := ["t1"; "t2"; "t3"; "t4"]; train_labels := [0; 1; 2; 3];
     test_texts := ["u1"; "u2"; "u3"; "u4"]; test_labels := [0; 1; 2; 3] |}.

(** The share of the samples that are predicted right, as
    [accuracy_score] returns it ([nan] without samples). *)
Definition exact_accuracy (y_true y_pred : list Z) : pyfloat :=
  match length y_true with
  | O => FNaN
  | S n => FFinite (Qmake (Metrics.count_samples Z.eqb y_true y_pred) (Pos.of_succ_nat n))
  end.

(** The average of the F1 scores of the classes that occur, over the classes
    or weighted by their support, as [f1_score] returns it. *)
Definition exact_f1 (avg : average) (y_true y_pred : list Z) : pyfloat :=
  let labels := remove_dups (y_true ++ y_pred) in
  let tp i := Metrics.count_samples (fun t p => (t =? i) && (p =? i)) y_true y_pred in
  let pred_sum i := Metrics.count_samples (fun _ p => p =? i) y_true y_pred in
  let true_sum i := Metrics.count_samples (fun t _ => t =? i) y_true y_pred in
  let f i := Metrics.prf_divide (2 * tp i) (true_sum i + pred_sum i) in
  match avg with
  | Macro =>
      FFinite (fold_right Qplus 0%Q (map f labels) / inject_Z (Z.of_nat (length labels)))
  | Weighted =>
      FFinite (fold_right Qplus 0%Q (map (fun i => f i * inject_Z (true_sum i))%Q labels)
               / inject_Z (Z.of_nat (length y_true)))
  end.

(** Every collaborator answers, every write succeeds.  A classifier that is
    fit on integer labels (artifact 10) predicts class 1 for every text; one
    that is fit on labels with a string among them (artifact 12) predicts the
    string ["1"]. *)
Definition example_env : Env :=
  {| writable := fun _ _ => true;
     partial_write := fun _ _ => None;
     utcnow := "2024-01-01T00:00:00";
     load_dataset := Ok example_corpus;
     np_array_other := fun l => Ok l;
     fit_vectorizer := fun _ => Ok (Artifact 11);
     fit_classifier := fun _ _ labels =>
       Ok (Artifact (if existsb Np.is_str labels then 12 else 10));
     predict := fun model _ texts =>
       Ok (map (fun _ => match model with
                         | Artifact handle => if N.eqb handle 12 then PStr "1" else PInt 1
                         end) texts);
     class_ids_other := fun _ => Raise ValueError;
     infer := fun _ _ _ => Ok (1, FFinite (1 # 2));
     accuracy_score := fun y_true y_pred => Ok (exact_accuracy y_true y_pred);
     f1_score := fun avg y_true y_pred => Ok (exact_f1 avg y_true y_pred) |}.

(** The same, but nothing can be written to [data/metrics/]. *)
Definition example_env_no_metrics : Env :=
  {| writable := fun d _ => match d with Metrics => false | _ => true end;
     partial_write := partial_write example_env;
     utcnow := utcnow example_env;
     load_dataset := load_dataset example_env;
     np_array_other := np_array_other example_env;
     fit_vectorizer := fit_vectorizer example_env;
     fit_classifier := fit_classifier example_env;
     predict := predict example_env;
     class_ids_other := class_ids_other example_env;
     infer := infer example_env;
     accuracy_score := accuracy_score example_env;
     f1_score := f1_score example_env |}.

(** The disk after a baseline training: version 1, no pointer file. *)
Definition baseline_disk : World :=
  {| models_dir := {[ "model_v1.joblib" := Joblib (Artifact 1);
                      "vectorizer_v1.joblib" := Joblib (Artifact 2) ]};
     feedback_dir := ∅;
     metrics_dir := ∅ |}.

(** Versions 1 and 2 are registered and the pointer was set back to 1. *)
Definition rolled_back_disk : World :=
  {| models_dir := {[ "model_v1.joblib" := Joblib (Artifact 1);
                      "vectorizer_v1.joblib" := Joblib (Artifact 2);
                      "model_v2.joblib" := Joblib (Artifact 3);
                      "vectorizer_v2.joblib" := Joblib (Artifact 4);
                      "current_version.txt" := Text "1" ]};
     feedback_dir := ∅;
     metrics_dir := ∅ |}.

(** Version 1 is registered, and a vectorizer of a version 2 is left on the
    disk without its classifier. *)
Definition stale_vectorizer_disk : World :=
  {| models_dir := {[ "model_v1.joblib" := Joblib (Artifact 1);
                      "vectorizer_v1.joblib" := Joblib (Artifact 2);
                      "vectorizer_v2.joblib" := Joblib (Artifact 9) ]};
     feedback_dir := ∅;
     metrics_dir := ∅ |}.

(** No file of the directory is named like a classifier artifact. *)
Definition no_model_file (m : gmap string file) : Prop :=
  forall name, is_Some (m !! name) -> version_of_filename name = None.

(** [v] is the highest version a file of the directory stands for. *)
Definition highest_version (m : gmap string file) (v : Z) : Prop :=
  (exists name, is_Some (m !! name) /\ version_of_filename name = Some v)
  /\ (forall name u, is_Some (m !! name) -> version_of_filename name = Some u -> u <= v).

(** What [load_feedback] keeps of one dictionary of the feedback file: the
    pair of its text and its human label, as they are. *)
Definition sample_of_entry (entry : pyval) : option (pyval * pyval) :=
  match entry with
  | PDict d =>
      let text := Py.dict_get d "text" (PStr "") in
      let human_label := Py.dict_get d "human_label" PNone in
      if Py.truthy text && Py.is_not_None human_label
      then Some (text, human_label)
      else None
  | _ => None
  end.

Definition is_dict (v : pyval) : bool :=
  match v with PDict _ => true | _ => false end.

(** The conversion that the specification describes for stage 3 of the
    retraining: the id of a human label is its index in the label schema, and
    a label that the schema does not hold has none ([UnknownLabel]). *)
Fixpoint spec_label_id (label_schema : list string) (human_label : string) : option Z :=
  match label_schema with
  | [] => None
  | name :: rest =>
      if String.eqb name human_label then Some 0
      else option_map Z.succ (spec_label_id rest human_label)
  end.

(** A baseline and one stored correction whose label is no label of the
    schema. *)
Definition unknown_label_disk : World :=
  {| models_dir := models_dir baseline_disk;
     feedback_dir :=
       {[ "feedback.json" :=
            Json (PList [PDict [("text", PStr "text A");
                                ("model_prediction", PStr "World");
                                ("human_label", PStr "Politics");
                                ("timestamp", PStr "2024-01-01T00:00:00");
                                ("model_version", PStr "v1")]]) ]};
     metrics_dir := ∅ |}.

(** The same baseline, and one stored correction whose label is a label of
    the schema, as [submit_feedback] stores it. *)
Definition sports_label_disk : World :=
  {| models_dir := models_dir baseline_disk;
     feedback_dir :=
       {[ "feedback.json" :=
            Json (PList [PDict [("text", PStr "great match");
                                ("model_prediction", PStr "World");
                                ("human_label", PStr "Sports");
                                ("timestamp", PStr "2024-01-01T00:00:00");
                                ("model_version", PStr "v1")]]) ]};
     metrics_dir := ∅ |}.

(** An entry of the feedback file as [submit_feedback] writes it: a
    dictionary whose text is a [str] that is not empty and whose human label
    is a [str]. *)
Definition api_entry (entry : pyval) : bool :=
  match entry with
  | PDict d =>
      Np.is_str (Py.dict_get d "text" (PStr ""))
      && Py.truthy (Py.dict_get d "text" (PStr ""))
      && Np.is_str (Py.dict_get d "human_label" PNone)
  | _ => false
  end.

(** A classifier predicts classes it was fit on: one that is fit on labels
    that are all strings predicts a string for every text. *)
Definition predicts_strings (env : Env) : Prop :=
  forall vectorizer texts labels model,
    fit_classifier env vectorizer texts labels = Ok model ->
    labels <> [] -> forallb Np.is_str labels = true ->
    forall vectorizer' xs predictions,
      predict env model vectorizer' xs = Ok predictions ->
      length predictions = length xs /\ forallb Np.is_str predictions = true.

(** Every write succeeds but the one of the feedback file, which fails after
    the file was opened, with nothing written. *)
Definition example_env_torn_feedback : Env :=
  {| writable := fun d _ => match d with Feedback => false | _ => true end;
     partial_write := fun d _ => match d with Feedback => Some "" | _ => None end;
     utcnow := utcnow example_env;
     load_dataset := load_dataset example_env;
     np_array_other := np_array_other example_env;
     fit_vectorizer := fit_vectorizer example_env;
     fit_classifier := fit_classifier example_env;
     predict := predict example_env;
     class_ids_other := class_ids_other example_env;
     infer := infer example_env;
     accuracy_score := accuracy_score example_env;
     f1_score := f1_score example_env |}.

(** Sum of a row of the confusion matrix. *)
Definition row_sum (row : list Z) : Z := fold_right Z.add 0 row.

(** [1] if the sample satisfies [p], else [0]. *)
Definition indicator (p : Z -> Z -> bool) (s : Z * Z) : Z :=
  if p s.1 s.2 then 1 else 0.

(** A class id of a schema of [n] labels. *)
Definition in_schema (n : nat) (p : Z) : bool := (0 <=? p) && (p <? Z.of_nat n).

(** ** Definitions used by the further properties *)

(** The key of a version in the dictionary of [compare_models], and the
    entry of a version whose metrics are the record [m]. *)
Definition comparison_key (version : Z) : string := "v" ++ PyStr.str_of_int version.

Definition scores_of (m : Metrics.MetricsRecord) : pyval :=
  PDict [("accuracy", PFloat (Metrics.accuracy m));
         ("f1_macro", PFloat (Metrics.f1_macro m));
         ("f1_weighted", PFloat (Metrics.f1_weighted m))].

(** The dictionary that [submit_feedback] appends for a request, under the
    version it resolved. *)
Definition feedback_entry (env : Env) (request : Api.FeedbackRequest) (version : Z) : pyval :=
  PDict [("text", PStr (Api.text request));
         ("model_prediction", PStr (Api.model_prediction request));
         ("human_label", PStr (Api.human_label request));
         ("timestamp", PStr (utcnow env));
         ("model_version", PStr ("v" ++ PyStr.str_of_int version))].

(** The feedback store with one more file content. *)
Definition with_feedback (w : World) (entries : list pyval) : World :=
  {| models_dir := models_dir w;
     feedback_dir := <["feedback.json" := Json (PList entries)]> (feedback_dir w);
     metrics_dir := metrics_dir w |}.

(** The disk after a write of the feedback file that failed after the file
    was opened: the file holds what was written until then. *)
Definition with_torn_feedback (w : World) (written : string) : World :=
  {| models_dir := models_dir w;
     feedback_dir := <["feedback.json" := Text written]> (feedback_dir w);
     metrics_dir := metrics_dir w |}.

(** The globals after [load_model] loaded version [n]. *)
Definition loaded (w : World) (n : Z) (model vectorizer : artifact) (names : pyval)
  : Api.State :=
  {| Api.disk := w; Api.current_model := Some model;
     Api.current_vectorizer := Some vectorizer;
     Api.current_version := Some n; Api.label_names := names |}.

(** The label names that [load_model] and [load_label_names] read from a
    models directory without a damaged [label_names.json]. *)
Definition label_names_of (m : gmap string file) : pyval :=
  match m !! "label_names.json" with
  | Some (Json j) => j
  | _ => PList (map PStr default_label_names)
  end.

(** The disk after a complete baseline training. *)
Definition baseline_trained (w : World) (model vectorizer : artifact)
    (metrics : Metrics.MetricsRecord) : World :=
  {| models_dir :=
       <["label_names.json" := Json (PList (map PStr default_label_names))]>
         (<[vectorizer_file 1 := Joblib vectorizer]>
            (<[model_file 1 := Joblib model]> (models_dir w)));
     feedback_dir := feedback_dir w;
     metrics_dir := <[metrics_file 1 := Json (Metrics.to_json metrics)]> (metrics_dir w) |}.

(** The writes of a complete baseline training, in order. *)
Definition baseline_events : list event :=
  [EvJoblibDump Models (model_file 1);
   EvJoblibDump Models (vectorizer_file 1);
   EvJsonDump Metrics (metrics_file 1);
   EvJsonDump Models "label_names.json"].

(** * Properties *)

(** ** Python strings *)

Example strip_ex : PyStr.strip "  a b	" = "a b".
Proof. reflexivity. Qed.
Example replace_ex : PyStr.replace "ab" "" "xabaabby" = "xaby".
Proof. reflexivity. Qed.
Example int_ex1 : PyStr.int_of_str " 1_000 " = Some 1000.
Proof. reflexivity. Qed.
Example int_ex2 : PyStr.int_of_str "-007" = Some (-7).
Proof. reflexivity. Qed.
Example int_ex3 : PyStr.int_of_str "1__0" = None.
Proof. reflexivity. Qed.
Example int_ex4 : PyStr.int_of_str "- 3" = None.
Proof. reflexivity. Qed.
Example str_ex : PyStr.str_of_int (-120) = "-120" /\ PyStr.str_of_int 0 = "0".
Proof. split; reflexivity. Qed.

Lemma all_chars_app P s t : all_chars P (s ++ t) = all_chars P s && all_chars P t.
Proof. induction s as [|c r IH]; simpl; [done|]. by rewrite IH, andb_assoc. Qed.

Lemma all_chars_impl (P Q : ascii -> bool) s :
  (forall c, P c = true -> Q c = true) -> all_chars P s = true -> all_chars Q s = true.
Proof.
  intros HPQ. induction s as [|c r IH]; simpl; [done|].
  intros [Hc Hr]%andb_true_iff. rewrite (HPQ _ Hc). by apply IH.
Qed.

Lemma string_of_uint_digits d : all_chars is_digit (NilEmpty.string_of_uint d) = true.
Proof. induction d; simpl; auto. Qed.

Lemma parse_digits_string_of_uint d :
  d <> Nil -> PyStr.parse_digits (NilEmpty.string_of_uint d) = Some d.
Proof.
  induction d as [|d IH|d IH|d IH|d IH|d IH|d IH|d IH|d IH|d IH|d IH]; intros Hd;
    [done|..];
    (destruct d; [reflexivity|..];
     (specialize (IH ltac:(discriminate)); simpl in *; by rewrite IH)).
Qed.

Lemma rstrip_no_space s :
  all_chars (fun c => negb (PyStr.is_space c)) s = true -> PyStr.rstrip s = s.
Proof.
  induction s as [|c r IH]; simpl; [done|].
  intros [Hc Hr]%andb_true_iff. rewrite (IH Hr).
  apply negb_true_iff in Hc. by rewrite Hc.
Qed.

Lemma lstrip_no_space s :
  all_chars (fun c => negb (PyStr.is_space c)) s = true -> PyStr.lstrip s = s.
Proof.
  destruct s as [|c r]; simpl; [done|].
  intros [Hc Hr]%andb_true_iff. apply negb_true_iff in Hc. by rewrite Hc.
Qed.

Lemma strip_no_space s :
  all_chars (fun c => negb (PyStr.is_space c)) s = true -> PyStr.strip s = s.
Proof. intros H. unfold PyStr.strip. by rewrite lstrip_no_space, rstrip_no_space. Qed.

Lemma digit_not_space c : is_digit c = true -> negb (PyStr.is_space c) = true.
Proof.
  destruct c as [[|] [|] [|] [|] [|] [|] [|] [|]]; vm_compute; congruence.
Qed.

Lemma strip_by_none P s :
  all_chars (fun c => negb (P c)) s = true ->
  PyStr.rstrip_by P (PyStr.lstrip_by P s) = s.
Proof.
  intros H.
  assert (Hl : PyStr.lstrip_by P s = s).
  { destruct s as [|c r]; simpl in *; [done|].
    apply andb_true_iff in H as [Hc _]. apply negb_true_iff in Hc. by rewrite Hc. }
  rewrite Hl. clear Hl. induction s as [|c r IH]; simpl in *; [done|].
  apply andb_true_iff in H as [Hc Hr]. rewrite (IH Hr).
  apply negb_true_iff in Hc. by rewrite Hc.
Qed.

Lemma digit_not_int_space c : is_digit c = true -> negb (PyStr.is_int_space c) = true.
Proof.
  destruct c as [[|] [|] [|] [|] [|] [|] [|] [|]]; vm_compute; congruence.
Qed.

Lemma int_of_str_digits d :
  d <> Nil -> PyStr.int_of_str (NilEmpty.string_of_uint d) = Some (Z.of_uint d).
Proof.
  intros Hd. unfold PyStr.int_of_str.
  rewrite strip_by_none
    by (eapply all_chars_impl; [apply digit_not_int_space | apply string_of_uint_digits]).
  pose proof (parse_digits_string_of_uint d Hd) as Hp.
  destruct d; [done|..]; cbn [NilEmpty.string_of_uint] in *; by rewrite Hp.
Qed.

Lemma int_of_str_neg_digits d :
  d <> Nil ->
  PyStr.int_of_str (String "-" (NilEmpty.string_of_uint d)) = Some (- Z.of_uint d).
Proof.
  intros Hd. unfold PyStr.int_of_str.
  rewrite strip_by_none.
  - by rewrite (parse_digits_string_of_uint d Hd).
  - simpl. eapply all_chars_impl; [apply digit_not_int_space | apply string_of_uint_digits].
Qed.

Lemma str_of_int_cases n :
  exists d, d <> Nil /\
    ((PyStr.str_of_int n = NilEmpty.string_of_uint d /\ n = Z.of_uint d)
     \/ (PyStr.str_of_int n = String "-" (NilEmpty.string_of_uint d) /\ n = - Z.of_uint d)).
Proof.
  pose proof (DecimalZ.of_to n) as Hn.
  unfold PyStr.str_of_int. destruct n as [|p|p]; simpl in *.
  - exists (D0 Nil). split; [done|]. by left.
  - exists (Pos.to_uint p). split; [apply Unsigned.to_uint_nonnil|]. left.
    split; [|done].
    unfold NilZero.string_of_uint.
    pose proof (Unsigned.to_uint_nonnil p). by destruct (Pos.to_uint p).
  - exists (Pos.to_uint p). split; [apply Unsigned.to_uint_nonnil|]. right.
    split; [|done].
    unfold NilZero.string_of_uint.
    pose proof (Unsigned.to_uint_nonnil p). by destruct (Pos.to_uint p).
Qed.

Lemma int_of_str_of_int n : PyStr.int_of_str (PyStr.str_of_int n) = Some n.
Proof.
  destruct (str_of_int_cases n) as (d & Hd & [[-> ->] | [-> ->]]).
  - by apply int_of_str_digits.
  - by apply int_of_str_neg_digits.
Qed.
Lemma endswith_app suf s : PyStr.endswith suf (s ++ suf) = true.
Proof.
  induction s as [|c r IH].
  - change (String.append "" suf) with suf.
    destruct suf; cbn [PyStr.endswith]; by rewrite String.eqb_refl.
  - change (String.append (String c r) suf) with (String c (String.append r suf)).
    cbn [PyStr.endswith]. rewrite IH. apply orb_true_r.
Qed.

Lemma prefix_head_differs c0 old c r :
  differs c0 c = true -> String.prefix (String c0 old) (String c r) = false.
Proof.
  unfold differs. intros H%negb_true_iff%Ascii.eqb_neq. simpl.
  by destruct (ascii_dec c0 c).
Qed.

Lemma replace_from_skip_app c0 old new s t :
  all_chars (differs c0) s = true ->
  PyStr.replace_from (String c0 old) new 0 (s ++ t)
  = (s ++ PyStr.replace_from (String c0 old) new 0 t)%string.
Proof.
  induction s as [|c r IH]; [done|].
  intros [Hc Hr]%andb_true_iff.
  change (String.append (String c r) t) with (String c (String.append r t)).
  cbn [PyStr.replace_from]. rewrite (prefix_head_differs _ _ _ _ Hc).
  by rewrite (IH Hr).
Qed.

Lemma append_empty_r s : (s ++ "")%string = s.
Proof. induction s as [|c r IH]; [done|]. change (String.append (String c r) "") with (String c (String.append r "")). by rewrite IH. Qed.

Lemma replace_absent c0 old new s :
  all_chars (differs c0) s = true -> PyStr.replace (String c0 old) new s = s.
Proof.
  intros H. unfold PyStr.replace.
  pose proof (replace_from_skip_app c0 old new s "" H) as E.
  rewrite append_empty_r in E. rewrite E. cbn. apply append_empty_r.
Qed.

Lemma digit_or_minus_differs c0 c :
  is_digit c0 = false -> c0 <> "-"%char ->
  (is_digit c || Ascii.eqb c "-")%bool = true -> differs c0 c = true.
Proof.
  intros Hd Hm Hc. unfold differs. apply negb_true_iff, Ascii.eqb_neq. intros ->.
  rewrite Hd in Hc. simpl in Hc. apply Ascii.eqb_eq in Hc. done.
Qed.

Lemma str_of_int_chars n :
  all_chars (fun c => is_digit c || Ascii.eqb c "-") (PyStr.str_of_int n) = true.
Proof.
  destruct (str_of_int_cases n) as (d & Hd & [[-> _] | [-> _]]).
  - eapply all_chars_impl; [|apply string_of_uint_digits].
    intros c ->. done.
  - cbn. eapply all_chars_impl; [|apply string_of_uint_digits].
    intros c ->. done.
Qed.

Lemma str_of_int_differs c0 n :
  is_digit c0 = false -> c0 <> "-"%char ->
  all_chars (differs c0) (PyStr.str_of_int n) = true.
Proof.
  intros Hd Hm. eapply all_chars_impl; [|apply str_of_int_chars].
  intros c. by apply digit_or_minus_differs.
Qed.

Lemma startswith_app p s : PyStr.startswith p (p ++ s) = true.
Proof.
  unfold PyStr.startswith. induction p as [|c r IH].
  - by destruct s.
  - change (String.append (String c r) s) with (String c (String.append r s)).
    cbn [String.prefix]. destruct (ascii_dec c c); [exact IH | done].
Qed.

Lemma append_assoc s t u : ((s ++ t) ++ u)%string = (s ++ t ++ u)%string.
Proof.
  induction s as [|c r IH]; [done|].
  change (String c (String.append (String.append r t) u)
          = String c (String.append r (String.append t u))).
  by rewrite IH.
Qed.

Lemma replace_from_skip old new r s :
  PyStr.replace_from old new (String.length r) (r ++ s) = PyStr.replace_from old new 0 s.
Proof.
  induction r as [|c r IH]; [by destruct s|].
  change (String.append (String c r) s) with (String c (String.append r s)).
  exact IH.
Qed.

Lemma replace_from_occurrence c0 old new s :
  PyStr.replace_from (String c0 old) new 0 (String c0 old ++ s)
  = (new ++ PyStr.replace_from (String c0 old) new 0 s)%string.
Proof.
  pose proof (startswith_app (String c0 old) s) as Hp. unfold PyStr.startswith in Hp.
  change (String.append (String c0 old) s) with (String c0 (String.append old s)) in *.
  cbn [PyStr.replace_from]. rewrite Hp.
  cbn [String.length]. rewrite Nat.sub_1_r. cbn [Nat.pred].
  by rewrite replace_from_skip.
Qed.

Lemma version_of_model_file n : version_of_filename (model_file n) = Some n.
Proof.
  unfold version_of_filename, model_file.
  rewrite startswith_app.
  rewrite <- (append_assoc "model_v" (PyStr.str_of_int n) ".joblib") at 1.
  rewrite endswith_app. cbn [andb].
  unfold PyStr.replace at 2.
  rewrite (replace_from_occurrence "m" "odel_v" "").
  change (String.append "" ?x) with x.
  rewrite replace_from_skip_app by (by apply str_of_int_differs).
  pose proof (replace_absent "m" "odel_v" "" ".joblib" eq_refl) as Habs.
  unfold PyStr.replace in *. rewrite Habs.
  rewrite replace_from_skip_app by (by apply str_of_int_differs).
  rewrite <- (append_empty_r ".joblib") at 2.
  rewrite (replace_from_occurrence "." "joblib" "").
  change (PyStr.replace_from ".joblib" "" 0 "") with "".
  change (String.append "" "") with "".
  rewrite append_empty_r. apply int_of_str_of_int.
Qed.

Lemma version_of_vectorizer_file v : version_of_filename (vectorizer_file v) = None.
Proof.
  unfold version_of_filename, vectorizer_file, PyStr.startswith.
  change ("vectorizer_v" ++ ?x)%string with (String "v" ("ectorizer_v" ++ x)%string).
  by rewrite (prefix_head_differs "m" "odel_v" "v").
Qed.

(** ** Combining the datasets *)

Section CombineFacts.
Context {T L : Type}.
Implicit Types (texts : list T) (labels : list L) (samples : list (T * L)).

Lemma append_repeated_eq n (text : T) (label : L) texts labels :
  Retrain.append_repeated n text label (texts, labels)
  = (texts ++ repeat text (Z.to_nat n), labels ++ repeat label (Z.to_nat n)).
Proof.
  unfold Retrain.append_repeated.
  induction (Z.to_nat n) as [|k IH]; simpl.
  - by rewrite !app_nil_r.
  - rewrite IH. by rewrite <- !app_assoc, <- !repeat_cons.
Qed.

Lemma fold_append_repeated n samples texts labels :
  fold_left (fun acc '(text, label) => Retrain.append_repeated n text label acc)
    samples (texts, labels)
  = (texts ++ repeated_texts (Z.to_nat n) samples,
     labels ++ repeated_labels (Z.to_nat n) samples).
Proof.
  revert texts labels.
  induction samples as [|[t l] rest IH]; intros texts labels; simpl.
  - by rewrite !app_nil_r.
  - rewrite append_repeated_eq, IH. by rewrite <- !app_assoc.
Qed.

Lemma length_repeated_texts k samples :
  length (repeated_texts k samples) = (k * length samples)%nat.
Proof.
  induction samples as [|s rest IH]; simpl; [lia|].
  rewrite length_app, repeat_length, IH. lia.
Qed.

Lemma length_repeated_labels k samples :
  length (repeated_labels k samples) = (k * length samples)%nat.
Proof.
  induction samples as [|s rest IH]; simpl; [lia|].
  rewrite length_app, repeat_length, IH. lia.
Qed.

Lemma repeated_texts_0 samples : repeated_texts 0 samples = [].
Proof. induction samples as [|s rest IH]; simpl; auto. Qed.

Lemma repeated_labels_0 samples : repeated_labels 0 samples = [].
Proof. induction samples as [|s rest IH]; simpl; auto. Qed.

End CombineFacts.

Lemma combine_datasets_int env texts labels samples weight n :
  Py.int weight = Ok n ->
  Retrain.combine_datasets env texts labels samples weight
  = (a ← Np.array env (texts ++ repeated_texts (Z.to_nat n) samples);
     b ← Np.array env (labels ++ repeated_labels (Z.to_nat n) samples);
     mret (a, b)).
Proof.
  intros Hn. unfold Retrain.combine_datasets. rewrite Hn.
  by rewrite fold_append_repeated.
Qed.

Lemma combine_datasets_raises env texts labels samples weight e :
  Py.int weight = Raise e ->
  Retrain.combine_datasets env texts labels samples weight = Raise e.
Proof. intros Hn. unfold Retrain.combine_datasets. by rewrite Hn. Qed.

(** *** [np.array] on texts and labels *)

Lemma array_labels env l : forallb is_label l = true -> Np.array env l = Ok (Np.unify l).
Proof. intros H. unfold Np.array. unfold is_label in H. by rewrite H. Qed.

Lemma length_unify l : length (Np.unify l) = length l.
Proof. unfold Np.unify. destruct (forallb Np.int64 l); [done|]. by rewrite length_map. Qed.

Lemma unify_int64 l : forallb Np.int64 l = true -> Np.unify l = l.
Proof. intros H. unfold Np.unify. by rewrite H. Qed.

Lemma is_text_label v : is_text v = true -> is_label v = true.
Proof. by destruct v. Qed.

Lemma map_str_texts l : forallb is_text l = true -> map Np.str_ l = l.
Proof.
  induction l as [|v l IH]; [done|]. cbn [forallb map].
  intros [Hv Hl]%andb_true_iff. rewrite (IH Hl). f_equal.
  destruct v; try done. cbn in *. apply String.eqb_eq in Hv. by rewrite Hv.
Qed.

Lemma unify_texts l : forallb is_text l = true -> Np.unify l = l.
Proof.
  intros H. unfold Np.unify. destruct (forallb Np.int64 l); [done|]. by apply map_str_texts.
Qed.

Lemma array_texts env l : forallb is_text l = true -> Np.array env l = Ok l.
Proof.
  intros H. rewrite array_labels, unify_texts; [done|done|].
  apply forallb_forall. intros v Hv. apply is_text_label.
  by apply (proj1 (forallb_forall _ _) H).
Qed.

Lemma forallb_repeated_texts (P : pyval -> bool) k (samples : list (pyval * pyval)) :
  forallb P samples.*1 = true -> forallb P (repeated_texts k samples) = true.
Proof.
  induction samples as [|[t l] rest IH]; [done|].
  intros H. change (forallb P (t :: rest.*1) = true) in H. cbn [forallb] in H.
  apply andb_true_iff in H as [Hv Hrest].
  change (repeated_texts k ((t, l) :: rest)) with (repeat t k ++ repeated_texts k rest).
  rewrite forallb_app, (IH Hrest), andb_true_r.
  clear -Hv. induction k as [|k IHk]; [done|]. cbn. by rewrite Hv.
Qed.

Lemma forallb_repeated_labels (P : pyval -> bool) k (samples : list (pyval * pyval)) :
  forallb P samples.*2 = true -> forallb P (repeated_labels k samples) = true.
Proof.
  induction samples as [|[t l] rest IH]; [done|].
  intros H. change (forallb P (l :: rest.*2) = true) in H. cbn [forallb] in H.
  apply andb_true_iff in H as [Hv Hrest].
  change (repeated_labels k ((t, l) :: rest)) with (repeat l k ++ repeated_labels k rest).
  rewrite forallb_app, (IH Hrest), andb_true_r.
  clear -Hv. induction k as [|k IHk]; [done|]. cbn. by rewrite Hv.
Qed.

(** On texts and labels of these kinds [combine_datasets] returns: the texts
    as they are, the labels as [np.array] unifies them. *)
Lemma combine_datasets_returns env texts labels (samples : list (pyval * pyval)) weight n :
  Py.int weight = Ok n ->
  forallb is_text (texts ++ samples.*1) = true ->
  forallb is_label (labels ++ samples.*2) = true ->
  Retrain.combine_datasets env texts labels samples weight
  = Ok (texts ++ repeated_texts (Z.to_nat n) samples,
        Np.unify (labels ++ repeated_labels (Z.to_nat n) samples)).
Proof.
  intros Hn Ht Hl. rewrite (combine_datasets_int _ _ _ _ _ _ Hn).
  rewrite forallb_app in Ht. apply andb_true_iff in Ht as [Ht1 Ht2].
  rewrite forallb_app in Hl. apply andb_true_iff in Hl as [Hl1 Hl2].
  rewrite (array_texts env (texts ++ repeated_texts (Z.to_nat n) samples))
    by (rewrite forallb_app, Ht1; by apply forallb_repeated_texts).
  rewrite (array_labels env (labels ++ repeated_labels (Z.to_nat n) samples))
    by (rewrite forallb_app, Hl1; by apply forallb_repeated_labels).
  done.
Qed.

Lemma trunc_inject_Z w : Py.trunc (inject_Z w) = w.
Proof. unfold Py.trunc, inject_Z; simpl. apply Z.quot_1_r. Qed.

Lemma int_integer_weight w v : integer_weight w v -> Py.int v = Ok w.
Proof. intros [-> | ->]; simpl; [done|]. by rewrite trunc_inject_Z. Qed.

Lemma trunc_nonneg_floor q : (0 <= q)%Q -> Py.trunc q = Qfloor q.
Proof.
  destruct q as [n d]. unfold Qle, Py.trunc, Qfloor; simpl. intros H.
  apply Z.quot_div_nonneg; lia.
Qed.

Lemma trunc_below_one q : (q < 1)%Q -> Z.to_nat (Py.trunc q) = 0%nat.
Proof.
  destruct q as [n d]. unfold Qlt, Py.trunc; simpl. intros H.
  destruct (Z.le_gt_cases 0 n) as [Hn | Hn].
  - rewrite Z.quot_small by lia. done.
  - assert (Z.quot n (Z.pos d) <= 0); [|lia].
    rewrite <- (Z.opp_involutive n), Z.quot_opp_l by lia.
    assert (0 <= Z.quot (- n) (Z.pos d)) by (apply Z.quot_pos; lia). lia.
Qed.

(** C6. For texts that are strings, labels that are integer class ids or
    strings, and a non-negative integer weight [w], [combine_datasets]
    returns the original rows followed by every feedback pair repeated [w]
    times, in order: the texts are this concatenation, and so are the labels
    when all of them are integer ids; both arrays have
    [len(original) + w * len(feedback_samples)] elements, and those of the
    original data alone when [w = 0]. *)
Theorem combine_datasets_concat_size (env : Env)
    (original_texts original_labels : list pyval)
    (feedback_samples : list (pyval * pyval)) (w : Z) (feedback_weight : pyval)
    (Hw : 0 <= w) (Hweight : integer_weight w feedback_weight)
    (Htexts : forallb is_text (original_texts ++ feedback_samples.*1) = true)
    (Hlabels : forallb is_label (original_labels ++ feedback_samples.*2) = true) :
  exists texts labels,
    Retrain.combine_datasets env original_texts original_labels feedback_samples
      feedback_weight
    = Ok (texts, labels)
    /\ texts = original_texts ++ flat_map (fun s => repeat s.1 (Z.to_nat w)) feedback_samples
    /\ (forallb Np.int64 (original_labels ++ feedback_samples.*2) = true ->
        labels
        = original_labels ++ flat_map (fun s => repeat s.2 (Z.to_nat w)) feedback_samples)
    /\ Z.of_nat (length texts)
       = Z.of_nat (length original_texts) + w * Z.of_nat (length feedback_samples)
    /\ Z.of_nat (length labels)
       = Z.of_nat (length original_labels) + w * Z.of_nat (length feedback_samples)
    /\ (w = 0 ->
        texts = original_texts
        /\ length labels = length original_labels
        /\ (forallb Np.int64 original_labels = true -> labels = original_labels)).
Proof.
  eexists _, _.
  split; [by apply combine_datasets_returns; [apply int_integer_weight|..]|].
  split; [reflexivity|].
  rewrite length_unify, !length_app, length_repeated_texts, length_repeated_labels.
  split.
  { intros Hint. apply unify_int64.
    rewrite forallb_app in Hint. apply andb_true_iff in Hint as [H1 H2].
    rewrite forallb_app, H1. by apply forallb_repeated_labels. }
  split; [lia|]. split; [lia|].
  intros ->. change (Z.to_nat 0) with 0%nat.
  rewrite repeated_texts_0, repeated_labels_0, !app_nil_r.
  split; [done|]. split; [lia|]. apply unify_int64.
Qed.

(** The scenario of the specification: two feedback records, weight 3 and a
    corpus of four rows give ten rows. *)
Lemma combine_datasets_concat_size_witness :
  0 <= 3 /\ integer_weight 3 (PFloat (FFinite 3))
  /\ exists texts labels,
      Retrain.combine_datasets example_env [PStr "a"; PStr "b"; PStr "c"; PStr "d"]
        [PInt 0; PInt 1; PInt 2; PInt 3]
        [(PStr "text A", PStr "Sports"); (PStr "text B", PStr "World")]
        (PFloat (FFinite 3))
      = Ok (texts, labels)
      /\ Z.of_nat (length texts) = 4 + 3 * 2
      /\ Z.of_nat (length labels) = 4 + 3 * 2.
Proof.
  assert (H0 : 0 <= 3) by lia.
  assert (H1 : integer_weight 3 (PFloat (FFinite 3))) by (right; reflexivity).
  split; [exact H0|]. split; [exact H1|].
  destruct (combine_datasets_concat_size example_env
              [PStr "a"; PStr "b"; PStr "c"; PStr "d"]
              [PInt 0; PInt 1; PInt 2; PInt 3]
              [(PStr "text A", PStr "Sports"); (PStr "text B", PStr "World")]
              3 (PFloat (FFinite 3)) H0 H1 eq_refl eq_refl)
    as (texts & labels & Heq & _ & _ & Ht & Hl & _).
  exists texts, labels. split; [exact Heq|]. split; [exact Ht | exact Hl].
Defined.

(** C6, as stated, fails on the scenario of the specification: the combined
    labels are not the original labels followed by the feedback labels,
    since [np.array] turns the integer ids into strings next to the label
    names; the ten rows are there. *)
Lemma combine_datasets_concat_counterexample :
  exists texts labels,
    Retrain.combine_datasets example_env [PStr "a"; PStr "b"; PStr "c"; PStr "d"]
      [PInt 0; PInt 1; PInt 2; PInt 3]
      [(PStr "text A", PStr "Sports"); (PStr "text B", PStr "World")]
      (PInt 3)
    = Ok (texts, labels)
    /\ length labels = 10%nat
    /\ labels = [PStr "0"; PStr "1"; PStr "2"; PStr "3";
                 PStr "Sports"; PStr "Sports"; PStr "Sports";
                 PStr "World"; PStr "World"; PStr "World"]
    /\ labels
       <> [PInt 0; PInt 1; PInt 2; PInt 3]
          ++ flat_map (fun s : pyval * pyval => repeat s.2 3)
               [(PStr "text A", PStr "Sports"); (PStr "text B", PStr "World")].
Proof.
  eexists _, _. split; [vm_compute; reflexivity|].
  split; [reflexivity|]. split; [reflexivity|]. discriminate.
Qed.

(** C10. [int(feedback_weight)] truncates: for a finite weight [q >= 0]
    the arrays are made from the original rows followed by [floor(q)] copies
    of every feedback pair, and for any [q < 1] from the original rows
    alone. *)
Theorem feedback_weight_truncated (env : Env)
    (original_texts original_labels : list pyval)
    (feedback_samples : list (pyval * pyval)) (q : Q) (Hq : (0 <= q)%Q)
    (Htexts : forallb is_text (original_texts ++ feedback_samples.*1) = true)
    (Hlabels : forallb is_label (original_labels ++ feedback_samples.*2) = true) :
  let copies := Z.to_nat (Qfloor q) in
  Py.int (PFloat (FFinite q)) = Ok (Qfloor q)
  /\ Retrain.combine_datasets env original_texts original_labels feedback_samples
       (PFloat (FFinite q))
     = Ok (original_texts ++ flat_map (fun s => repeat s.1 copies) feedback_samples,
           Np.unify
             (original_labels ++ flat_map (fun s => repeat s.2 copies) feedback_samples))
  /\ length (Np.unify
               (original_labels ++ flat_map (fun s => repeat s.2 copies) feedback_samples))
     = (length original_labels + copies * length feedback_samples)%nat
  /\ length (original_texts ++ flat_map (fun s => repeat s.1 copies) feedback_samples)
     = (length original_texts + copies * length feedback_samples)%nat
  /\ ((q < 1)%Q ->
      copies = 0%nat
      /\ Retrain.combine_datasets env original_texts original_labels feedback_samples
           (PFloat (FFinite q))
         = Ok (original_texts, Np.unify original_labels)
      /\ length (Np.unify original_labels) = length original_labels).
Proof.
  intros copies.
  assert (Hint : Py.int (PFloat (FFinite q)) = Ok (Qfloor q)).
  { simpl. by rewrite trunc_nonneg_floor. }
  assert (Hrun := combine_datasets_returns env _ _ _ _ _ Hint Htexts Hlabels).
  fold copies in Hrun.
  split; [exact Hint|]. split; [exact Hrun|].
  split.
  { rewrite length_unify, length_app. f_equal. apply length_repeated_labels. }
  split.
  { rewrite length_app. f_equal. apply length_repeated_texts. }
  intros Hlt.
  assert (H0 : copies = 0%nat).
  { unfold copies. rewrite <- trunc_nonneg_floor by done. by apply trunc_below_one. }
  split; [exact H0|]. split; [|apply length_unify].
  rewrite Hrun, H0.
  change (flat_map (fun s : pyval * pyval => repeat s.1 0) feedback_samples)
    with (repeated_texts 0 feedback_samples).
  change (flat_map (fun s : pyval * pyval => repeat s.2 0) feedback_samples)
    with (repeated_labels 0 feedback_samples).
  by rewrite repeated_texts_0, repeated_labels_0, !app_nil_r.
Qed.

(** A weight of 0.5 adds no feedback row. *)
Lemma feedback_weight_truncated_witness :
  (0 <= 1 # 2)%Q
  /\ Py.int (PFloat (FFinite (1 # 2))) = Ok 0
  /\ Retrain.combine_datasets example_env [PStr "a"] [PInt 0]
       [(PStr "text A", PStr "Sports")] (PFloat (FFinite (1 # 2)))
     = Ok ([PStr "a"], [PInt 0]).
Proof.
  assert (H0 : (0 <= 1 # 2)%Q) by (unfold Qle; simpl; lia).
  split; [exact H0|].
  destruct (feedback_weight_truncated example_env [PStr "a"] [PInt 0]
              [(PStr "text A", PStr "Sports")] (1 # 2) H0 eq_refl eq_refl)
    as (Hint & _ & _ & _ & Hlt).
  split; [exact Hint|].
  destruct Hlt as (_ & Hrun & _); [unfold Qlt; simpl; lia|]. exact Hrun.
Defined.

(** ** Running the retraining pipeline *)

Ltac unfold_monad :=
  unfold mbind, mret, M_bind, M_ret, raise, emit, get, put, lift_result, try_except,
    outcome, final, trace in *.

Ltac unfold_io :=
  unfold Retrain.load_original_data, Retrain.load_feedback, Retrain.retrain_model,
    Metrics.save_metrics, Metrics.load_metrics,
    joblib_dump, json_dump, write_text, write_file, joblib_load, json_load,
    exists_file in *.

Ltac run_cases := repeat (case_match; simplify_eq/=; try done).

(** [main] is its stages before the commit, the commit, and the report. *)
Lemma main_stages env fw w :
  Retrain.main env fw w
  = (prepared ← stages_before_commit env fw;
     match prepared with
     | None => mret tt
     | Some (current_version, (model, vectorizer, metrics)) =>
         commit env (current_version + 1) model vectorizer metrics;;
         Retrain.report metrics current_version
     end) w.
Proof.
  unfold Retrain.main, stages_before_commit, commit. unfold_io. unfold_monad. cbn.
  run_cases.
Qed.

(** The stages before the commit only read. *)
Lemma stages_before_commit_read_only env fw w :
  final (stages_before_commit env fw w) = w
  /\ writes (trace (stages_before_commit env fw w)) = [].
Proof.
  unfold stages_before_commit. unfold_io. unfold_monad. cbn.
  run_cases.
Qed.

Lemma stages_before_commit_version env fw w cur fitted :
  outcome (stages_before_commit env fw w) = Ok (Some (cur, fitted)) ->
  cur = Retrain.get_current_model_version w /\ cur <> 0.
Proof.
  unfold stages_before_commit. unfold_io. unfold_monad. cbn.
  run_cases; intros; simplify_eq; split; try done; by apply Z.eqb_neq.
Qed.

Lemma stages_before_commit_no_baseline env fw w :
  Retrain.get_current_model_version w = 0 ->
  stages_before_commit env fw w = (Ok None, w, []).
Proof.
  intros H. unfold stages_before_commit. unfold_monad. cbn. by rewrite H.
Qed.

Lemma stages_before_commit_baseline env fw w :
  outcome (stages_before_commit env fw w) = Ok None ->
  Retrain.get_current_model_version w = 0.
Proof.
  unfold stages_before_commit. unfold_io. unfold_monad. cbn.
  run_cases; intros; simplify_eq; by apply Z.eqb_eq.
Qed.

(** The report only reads, and logs nothing. *)
Lemma report_read_only metrics cur w :
  final (Retrain.report metrics cur w) = w /\ trace (Retrain.report metrics cur w) = [].
Proof.
  unfold Retrain.report. unfold_io. unfold_monad. cbn.
  run_cases.
Qed.

Lemma model_file_not_pointer v : model_file v <> pointer_file.
Proof. unfold model_file, pointer_file. discriminate. Qed.

Lemma vectorizer_file_not_pointer v : vectorizer_file v <> pointer_file.
Proof. unfold vectorizer_file, pointer_file. discriminate. Qed.

Lemma model_file_not_vectorizer v v' : model_file v <> vectorizer_file v'.
Proof. unfold model_file, vectorizer_file. discriminate. Qed.

(** A commit whose four writes succeed. *)
Lemma commit_complete env v model vectorizer metrics w :
  writable env Models (model_file v) = true ->
  writable env Models (vectorizer_file v) = true ->
  writable env Metrics (metrics_file v) = true ->
  writable env Models pointer_file = true ->
  commit env v model vectorizer metrics w
  = (Ok tt, committed w v model vectorizer metrics, commit_events v).
Proof.
  intros H1 H2 H3 H4. unfold commit. unfold_io. unfold_monad. cbn.
  by rewrite H1, H2, H3, H4.
Qed.

Lemma commit_succeeds_inv env v model vectorizer metrics w :
  outcome (commit env v model vectorizer metrics w) = Ok tt ->
  writable env Models (model_file v) = true
  /\ writable env Models (vectorizer_file v) = true
  /\ writable env Metrics (metrics_file v) = true
  /\ writable env Models pointer_file = true.
Proof.
  unfold commit. unfold_io. unfold_monad. cbn. run_cases.
Qed.

(** The writes of a commit come in the order register, persist, promote. *)
Lemma commit_trace_prefix env v model vectorizer metrics w :
  trace (commit env v model vectorizer metrics w) `prefix_of` commit_events v.
Proof.
  unfold commit, commit_events. unfold_io. unfold_monad. cbn.
  run_cases; eexists; reflexivity.
Qed.

(** A commit whose metrics cannot be persisted does not promote. *)
Lemma commit_metrics_failure env v model vectorizer metrics w :
  writable env Metrics (metrics_file v) = false ->
  is_ok (outcome (commit env v model vectorizer metrics w)) = false
  /\ models_dir (final (commit env v model vectorizer metrics w)) !! pointer_file
     = models_dir w !! pointer_file
  /\ EvWriteText Models pointer_file ∉ trace (commit env v model vectorizer metrics w).
Proof.
  intros H. unfold commit. unfold_io. unfold_monad. cbn. rewrite H.
  pose proof (model_file_not_pointer v). pose proof (vectorizer_file_not_pointer v).
  run_cases; (split; [done|]); (split; [by rewrite ?lookup_insert_ne by done|]);
    intros Hin; repeat (apply elem_of_cons in Hin as [Hin | Hin]; [discriminate|]);
    by apply elem_of_nil in Hin.
Qed.

(** ** Resolving versions *)

Lemma fold_left_max_spec l x :
  let v := fold_left Z.max l x in
  (v = x \/ v ∈ l) /\ x <= v /\ (forall u, u ∈ l -> u <= v).
Proof.
  revert x. induction l as [|y r IH]; intros x; simpl.
  - split; [by left|]. split; [lia|]. intros u Hu. by apply elem_of_nil in Hu.
  - destruct (IH (Z.max x y)) as (Hin & Hle & Hall).
    split; [|split].
    + destruct Hin as [-> | Hin]; [|right; by apply elem_of_cons; right].
      destruct (Z.max_spec x y) as [[_ ->] | [_ ->]]; [right; by apply elem_of_cons; left | by left].
    + lia.
    + intros u [-> | Hu]%elem_of_cons; [lia | by apply Hall].
Qed.

Lemma max_Some l v :
  Py.max l = Some v <-> v ∈ l /\ (forall u, u ∈ l -> u <= v).
Proof.
  destruct l as [|x r]; simpl.
  - split; [done|]. intros [H _]. by apply elem_of_nil in H.
  - destruct (fold_left_max_spec r x) as (Hin & Hle & Hall). split.
    + intros [= <-]. split.
      * destruct Hin as [-> | Hin]; apply elem_of_cons; auto.
      * intros u [-> | Hu]%elem_of_cons; auto.
    + intros [Hv Hmax]. f_equal. apply Z.le_antisymm.
      * apply Hmax. destruct Hin as [-> | Hin]; apply elem_of_cons; auto.
      * apply elem_of_cons in Hv as [-> | Hv]; auto.
Qed.

Lemma max_None l : Py.max l = None <-> l = [].
Proof. by destruct l. Qed.

Lemma elem_of_scan_versions (m : gmap string file) v :
  v ∈ scan_versions m
  <-> exists name, is_Some (m !! name) /\ version_of_filename name = Some v.
Proof.
  unfold scan_versions. rewrite list_elem_of_omap. split.
  - intros (name & Hin & Hv). exists name. split; [|done].
    apply list_elem_of_fmap in Hin as ([name' f] & -> & Hin).
    apply elem_of_map_to_list in Hin. by exists f.
  - intros (name & [f Hf] & Hv). exists name. split; [|done].
    apply list_elem_of_fmap. exists (name, f). split; [done|].
    by apply elem_of_map_to_list.
Qed.

(** The classifier file of the version after the highest one does not
    exist. *)
Lemma next_model_file_fresh w :
  models_dir w !! model_file (Retrain.get_current_model_version w + 1) = None.
Proof.
  destruct (models_dir w !! model_file _) as [f|] eqn:Hf; [|done]. exfalso.
  assert (Hin : Retrain.get_current_model_version w + 1 ∈ scan_versions (models_dir w)).
  { apply elem_of_scan_versions. eexists. split; [by eexists|].
    apply version_of_model_file. }
  unfold Retrain.get_current_model_version in *.
  destruct (Py.max (scan_versions (models_dir w))) as [v|] eqn:Hmax.
  - apply max_Some in Hmax as [_ Hmax]. specialize (Hmax _ Hin). lia.
  - apply max_None in Hmax. rewrite Hmax in Hin. by apply elem_of_nil in Hin.
Qed.

Lemma bind_run {S A B} (m : M S A) (f : A -> M S B) (s : S) :
  (m ≫= f) s
  = match m s with
    | (Ok a, s1, t1) => match f a s1 with (r, s2, t2) => (r, s2, t1 ++ t2) end
    | (Raise e, s1, t1) => (Raise e, s1, t1)
    end.
Proof. reflexivity. Qed.

(** The three ways a run of [main] can go. *)
Lemma main_run env fw w :
  match outcome (stages_before_commit env fw w) with
  | Raise e =>
      Retrain.main env fw w = (Raise e, w, trace (stages_before_commit env fw w))
  | Ok None =>
      Retrain.get_current_model_version w = 0
      /\ Retrain.main env fw w = (Ok tt, w, [])
  | Ok (Some (cur, (model, vectorizer, metrics))) =>
      let c := commit env (cur + 1) model vectorizer metrics w in
      cur = Retrain.get_current_model_version w /\ cur <> 0
      /\ trace (Retrain.main env fw w) = trace (stages_before_commit env fw w) ++ trace c
      /\ final (Retrain.main env fw w) = final c
      /\ (is_ok (outcome (Retrain.main env fw w)) = true -> outcome c = Ok tt)
      /\ (forall e, outcome c = Raise e -> outcome (Retrain.main env fw w) = Raise e)
  end.
Proof.
  rewrite main_stages.
  pose proof (stages_before_commit_read_only env fw w) as [Hfinal _].
  pose proof (stages_before_commit_version env fw w) as Hversion.
  pose proof (stages_before_commit_baseline env fw w) as Hnone.
  pose proof (stages_before_commit_no_baseline env fw w) as Hzero.
  rewrite bind_run.
  destruct (stages_before_commit env fw w) as [[r s] t]. unfold outcome, final, trace in *.
  simpl in *. subst s.
  destruct r as [[[cur [[model vectorizer] metrics]]|]|e]; [| |reflexivity].
  - destruct (Hversion _ _ eq_refl) as [-> Hne].
    rewrite bind_run.
    destruct (commit env _ model vectorizer metrics w) as [[rc sc] tc] eqn:Hc. simpl.
    destruct rc as [[]|e].
    + pose proof (report_read_only metrics (Retrain.get_current_model_version w) sc)
        as [Hrf Hrt].
      destruct (Retrain.report _ _ sc) as [[rr sr] tr]. unfold final, trace in *.
      simpl in *. subst. rewrite app_nil_r. by repeat split.
    + unfold outcome. simpl. repeat split; auto; first [done | by intros e' [= ->]].
  - specialize (Hnone eq_refl). split; [done|].
    specialize (Hzero Hnone). simplify_eq. done.
Qed.

(** A run whose data source fails: the disk is as it was. *)
Example retraining_without_corpus :
  let env := {| writable := writable example_env;
                partial_write := partial_write example_env;
                utcnow := utcnow example_env;
                load_dataset := Raise ExternalError;
                np_array_other := np_array_other example_env;
                fit_vectorizer := fit_vectorizer example_env;
                fit_classifier := fit_classifier example_env;
                predict := predict example_env;
                class_ids_other := class_ids_other example_env;
                infer := infer example_env;
                accuracy_score := accuracy_score example_env;
                f1_score := f1_score example_env |} in
  Retrain.main env (PFloat (FFinite 1)) baseline_disk
  = (Raise ExternalError, baseline_disk, [EvLoadDataset]).
Proof. vm_compute. reflexivity. Qed.

Lemma scan_versions_max_Some m v :
  Py.max (scan_versions m) = Some v <-> highest_version m v.
Proof.
  rewrite max_Some. unfold highest_version. rewrite elem_of_scan_versions.
  split; intros [Hin Hmax]; (split; [done|]).
  - intros name u Hsome Hu. apply Hmax. apply elem_of_scan_versions. eauto.
  - intros u (name & Hsome & Hu)%elem_of_scan_versions. eauto.
Qed.

Lemma scan_versions_max_None m :
  Py.max (scan_versions m) = None <-> no_model_file m.
Proof.
  rewrite max_None. unfold no_model_file. split.
  - intros Hnil name Hsome.
    destruct (version_of_filename name) as [v|] eqn:Hv; [|done].
    assert (Hin : v ∈ scan_versions m) by (apply elem_of_scan_versions; eauto).
    rewrite Hnil in Hin. by apply elem_of_nil in Hin.
  - intros Hnone. apply elem_of_nil_inv. intros v (name & Hsome & Hv)%elem_of_scan_versions.
    rewrite (Hnone _ Hsome) in Hv. done.
Qed.

Lemma str_of_int_no_space n :
  all_chars (fun c => negb (PyStr.is_space c)) (PyStr.str_of_int n) = true.
Proof.
  eapply all_chars_impl; [|apply str_of_int_chars].
  intros c [Hd | Hm%Ascii.eqb_eq]%orb_true_iff; [by apply digit_not_space | by subst].
Qed.

(** The serving layer's resolver reads back what [str(version)] wrote. *)
Lemma api_version_of_pointer w v :
  models_dir w !! pointer_file = Some (Text (PyStr.str_of_int v)) ->
  Api.get_current_model_version w = Ok (Some v).
Proof.
  intros H. unfold Api.get_current_model_version. rewrite H.
  by rewrite strip_no_space, int_of_str_of_int by apply str_of_int_no_space.
Qed.

Lemma api_version_without_pointer w :
  models_dir w !! pointer_file = None ->
  Api.get_current_model_version w = Ok (Py.max (scan_versions (models_dir w))).
Proof. intros H. unfold Api.get_current_model_version. by rewrite H. Qed.

(** Every write of a run of [main] is one of the commit of the next
    version. *)
Lemma main_writes_in_commit env fw w ev :
  ev ∈ trace (Retrain.main env fw w) -> is_write ev = true ->
  ev ∈ commit_events (Retrain.get_current_model_version w + 1).
Proof.
  intros Hin Hwrite.
  pose proof (main_run env fw w) as Hrun.
  pose proof (stages_before_commit_read_only env fw w) as [_ Hnw].
  assert (Hbefore : ev ∉ trace (stages_before_commit env fw w)).
  { intros Hb. assert (Hw : ev ∈ writes (trace (stages_before_commit env fw w))).
    { unfold writes. apply list_elem_of_filter. by split. }
    rewrite Hnw in Hw. by apply elem_of_nil in Hw. }
  destruct (outcome (stages_before_commit env fw w))
    as [[[cur [[model vectorizer] metrics]]|]|e].
  - destruct Hrun as (-> & _ & Htrace & _). rewrite Htrace in Hin.
    apply elem_of_app in Hin as [Hin | Hin]; [done|].
    destruct (commit_trace_prefix env (Retrain.get_current_model_version w + 1)
                model vectorizer metrics w) as [rest ->].
    apply elem_of_app. by left.
  - destruct Hrun as [_ Hrun]. rewrite Hrun in Hin. by apply elem_of_nil in Hin.
  - rewrite Hrun in Hin. done.
Qed.

(** C4. Registration takes no look at what is stored: [save_model] writes
    the two artifacts of the version it is given, whatever the directory
    holds under these names, and leaves every other file alone; it raises
    nothing when the two writes succeed.  Retraining dumps artifacts under
    the names of the version after the highest one only, and no classifier
    file of that version exists. *)
Theorem registration_overwrites_without_check (env : Env) (model vectorizer : artifact)
    (version : Z) (w : World)
    (Hmodel : writable env Models (model_file version) = true)
    (Hvectorizer : writable env Models (vectorizer_file version) = true) :
  let r := Baseline.save_model env model vectorizer version w in
  outcome r = Ok (model_file version, vectorizer_file version)
  /\ models_dir (final r) !! model_file version = Some (Joblib model)
  /\ models_dir (final r) !! vectorizer_file version = Some (Joblib vectorizer)
  /\ (forall name, name <> model_file version -> name <> vectorizer_file version ->
      models_dir (final r) !! name = models_dir w !! name)
  /\ (forall fw name,
      EvJoblibDump Models name ∈ trace (Retrain.main env fw w) ->
      name = model_file (Retrain.get_current_model_version w + 1)
      \/ name = vectorizer_file (Retrain.get_current_model_version w + 1))
  /\ models_dir w !! model_file (Retrain.get_current_model_version w + 1) = None.
Proof.
  intros r. unfold r, Baseline.save_model. unfold_io. unfold_monad. cbn.
  rewrite Hmodel, Hvectorizer. cbn.
  pose proof (model_file_not_vectorizer version version) as Hne.
  split; [done|]. split; [by rewrite lookup_insert_ne, lookup_insert_eq by done|].
  split; [by rewrite lookup_insert_eq|].
  split; [intros name H1 H2; by rewrite !lookup_insert_ne by done|].
  split; [|apply next_model_file_fresh].
  intros fw name Hin.
  apply main_writes_in_commit in Hin; [|done].
  unfold commit_events in Hin.
  repeat (apply elem_of_cons in Hin as [Hin | Hin]; [simplify_eq; auto|]).
  by apply elem_of_nil in Hin.
Qed.

(** Registering version 1 a second time replaces its artifacts. *)
Lemma registration_overwrites_without_check_witness :
  writable example_env Models (model_file 1) = true
  /\ writable example_env Models (vectorizer_file 1) = true
  /\ models_dir baseline_disk !! model_file 1 = Some (Joblib (Artifact 1))
  /\ outcome (Baseline.save_model example_env (Artifact 7) (Artifact 8) 1 baseline_disk)
     = Ok (model_file 1, vectorizer_file 1)
  /\ models_dir (final (Baseline.save_model example_env (Artifact 7) (Artifact 8) 1
                          baseline_disk)) !! model_file 1
     = Some (Joblib (Artifact 7)).
Proof.
  assert (H1 : writable example_env Models (model_file 1) = true) by reflexivity.
  assert (H2 : writable example_env Models (vectorizer_file 1) = true) by reflexivity.
  split; [exact H1|]. split; [exact H2|]. split; [reflexivity|].
  destruct (registration_overwrites_without_check example_env (Artifact 7) (Artifact 8) 1
              baseline_disk H1 H2) as (Hok & Hm & _).
  split; [exact Hok | exact Hm].
Defined.

(** C4, as stated, fails: version 1 has registered artifacts, registering it
    again succeeds and the classifier that was stored is gone.  In a
    retraining run that registers version 2, a vectorizer stored under that
    version is replaced in the same way. *)
Lemma registration_conflict_counterexample :
  models_dir baseline_disk !! model_file 1 = Some (Joblib (Artifact 1))
  /\ models_dir baseline_disk !! vectorizer_file 1 = Some (Joblib (Artifact 2))
  /\ is_ok (outcome (Baseline.save_model example_env (Artifact 7) (Artifact 8) 1
                       baseline_disk)) = true
  /\ models_dir (final (Baseline.save_model example_env (Artifact 7) (Artifact 8) 1
                          baseline_disk)) !! model_file 1
     = Some (Joblib (Artifact 7))
  /\ models_dir (final (Baseline.save_model example_env (Artifact 7) (Artifact 8) 1
                          baseline_disk)) !! vectorizer_file 1
     = Some (Joblib (Artifact 8))
  /\ models_dir stale_vectorizer_disk !! vectorizer_file 2 = Some (Joblib (Artifact 9))
  /\ outcome (Retrain.main example_env (PFloat (FFinite 1)) stale_vectorizer_disk) = Ok tt
  /\ models_dir (final (Retrain.main example_env (PFloat (FFinite 1)) stale_vectorizer_disk))
       !! vectorizer_file 2
     = Some (Joblib (Artifact 2)).
Proof. repeat split; vm_compute; reflexivity. Qed.

Lemma pointer_is_no_model_file : version_of_filename pointer_file = None.
Proof. reflexivity. Qed.

(** After a baseline training that succeeds on an empty disk, the serving
    layer resolves version 1. *)
Lemma baseline_main_registers_version_1 env :
  is_ok (outcome (Baseline.main env empty_world)) = true ->
  Api.get_current_model_version (final (Baseline.main env empty_world)) = Ok (Some 1)
  /\ exists model vectorizer,
      models_dir (final (Baseline.main env empty_world)) !! model_file 1
      = Some (Joblib model)
      /\ models_dir (final (Baseline.main env empty_world)) !! vectorizer_file 1
         = Some (Joblib vectorizer).
Proof.
  unfold Baseline.main, Baseline.load_ag_news, Baseline.train_baseline_model,
    Baseline.save_model.
  unfold_io. unfold_monad. cbn.
  run_cases; intros _; (split; [reflexivity|]); eexists _, _; split; reflexivity.
Qed.

Lemma retrain_version_cases w :
  (no_model_file (models_dir w) /\ Retrain.get_current_model_version w = 0)
  \/ highest_version (models_dir w) (Retrain.get_current_model_version w).
Proof.
  unfold Retrain.get_current_model_version.
  destruct (Py.max (scan_versions (models_dir w))) as [v|] eqn:Hmax.
  - right. by apply scan_versions_max_Some.
  - left. split; [by apply scan_versions_max_None | done].
Qed.

Lemma max_ext l1 l2 : (forall v : Z, v ∈ l1 <-> v ∈ l2) -> Py.max l1 = Py.max l2.
Proof.
  intros Hext.
  destruct (Py.max l1) as [a|] eqn:H1, (Py.max l2) as [b|] eqn:H2; [| | |done].
  - apply max_Some in H1 as [Ha Hmaxa]. apply max_Some in H2 as [Hb Hmaxb].
    f_equal. apply Z.le_antisymm; [apply Hmaxb | apply Hmaxa]; by apply Hext.
  - apply max_Some in H1 as [Ha _]. apply max_None in H2. subst.
    apply Hext in Ha. by apply elem_of_nil in Ha.
  - apply max_Some in H2 as [Hb _]. apply max_None in H1. subst.
    apply Hext in Hb. by apply elem_of_nil in Hb.
Qed.

(** The pointer file is not a classifier file: its presence and content
    change nothing in the versions that the scan finds. *)
Lemma scan_versions_pointer (m : gmap string file) f v :
  v ∈ scan_versions (<[pointer_file := f]> m)
  <-> v ∈ scan_versions (delete pointer_file m).
Proof.
  rewrite !elem_of_scan_versions.
  split; intros (name & Hsome & Hv); exists name; (split; [|done]);
    (destruct (decide (name = pointer_file)) as [-> | Hne];
     [by rewrite pointer_is_no_model_file in Hv|]).
  - by rewrite lookup_delete_ne, <- (lookup_insert_ne m pointer_file name f).
  - by rewrite lookup_insert_ne, <- (lookup_delete_ne m pointer_file name).
Qed.

(** C8. The serving layer's [get_current_model_version] returns the version
    the pointer file holds when that file exists; without pointer file it
    returns the highest version among the classifier files, and [None] when
    there is none; on an empty disk it returns [None], and after a baseline
    training on an empty disk it returns 1.  The retraining pipeline's
    [get_current_model_version] does not read the pointer file: it returns
    the highest version among the classifier files, and 0 when there is
    none. *)
Theorem resolve_current_version :
  (forall w v,
      models_dir w !! pointer_file = Some (Text (PyStr.str_of_int v)) ->
      Api.get_current_model_version w = Ok (Some v))
  /\ (forall w,
      models_dir w !! pointer_file = None ->
      (exists v, Api.get_current_model_version w = Ok (Some v)
                 /\ highest_version (models_dir w) v)
      \/ (Api.get_current_model_version w = Ok None /\ no_model_file (models_dir w)))
  /\ Api.get_current_model_version empty_world = Ok None
  /\ (forall env,
      is_ok (outcome (Baseline.main env empty_world)) = true ->
      Api.get_current_model_version (final (Baseline.main env empty_world)) = Ok (Some 1))
  /\ (forall w,
      (no_model_file (models_dir w) /\ Retrain.get_current_model_version w = 0)
      \/ highest_version (models_dir w) (Retrain.get_current_model_version w))
  /\ (forall w f,
      Retrain.get_current_model_version
        {| models_dir := <[pointer_file := f]> (models_dir w);
           feedback_dir := feedback_dir w; metrics_dir := metrics_dir w |}
      = Retrain.get_current_model_version
          {| models_dir := delete pointer_file (models_dir w);
             feedback_dir := feedback_dir w; metrics_dir := metrics_dir w |}).
Proof.
  split; [exact api_version_of_pointer|].
  split.
  { intros w Hnone. rewrite (api_version_without_pointer w Hnone).
    destruct (Py.max (scan_versions (models_dir w))) as [v|] eqn:Hmax.
    - left. exists v. split; [done|]. by apply scan_versions_max_Some.
    - right. split; [done|]. by apply scan_versions_max_None. }
  split; [reflexivity|].
  split.
  { intros env Hok. by apply baseline_main_registers_version_1. }
  split; [exact retrain_version_cases|].
  intros w f. unfold Retrain.get_current_model_version. cbn [models_dir].
  by rewrite (max_ext _ _ (scan_versions_pointer (models_dir w) f)).
Qed.

(** The pointer says 1: the serving layer resolves 1.  A baseline training
    on an empty disk: the serving layer resolves 1. *)
Lemma resolve_current_version_witness :
  models_dir rolled_back_disk !! pointer_file = Some (Text (PyStr.str_of_int 1))
  /\ Api.get_current_model_version rolled_back_disk = Ok (Some 1)
  /\ is_ok (outcome (Baseline.main example_env empty_world)) = true
  /\ Api.get_current_model_version (final (Baseline.main example_env empty_world))
     = Ok (Some 1).
Proof.
  assert (H : models_dir rolled_back_disk !! pointer_file = Some (Text (PyStr.str_of_int 1)))
    by reflexivity.
  assert (Hok : is_ok (outcome (Baseline.main example_env empty_world)) = true)
    by (vm_compute; reflexivity).
  destruct resolve_current_version as (Hpointer & _ & _ & Hbaseline & _).
  split; [exact H|]. split; [exact (Hpointer rolled_back_disk 1 H)|].
  split; [exact Hok|]. exact (Hbaseline example_env Hok).
Defined.

(** C8, as stated, fails for the resolver of the retraining pipeline: the
    pointer is set to 1 and it returns 2; nothing is registered and it
    returns 0. *)
Lemma resolve_current_version_counterexample :
  models_dir rolled_back_disk !! pointer_file = Some (Text "1")
  /\ Api.get_current_model_version rolled_back_disk = Ok (Some 1)
  /\ Retrain.get_current_model_version rolled_back_disk = 2
  /\ Retrain.get_current_model_version empty_world = 0.
Proof. repeat split; vm_compute; reflexivity. Qed.

(** ** The commit of a retraining run *)

Lemma committed_highest_version w v model vectorizer metrics :
  (forall name u, is_Some (models_dir w !! name) -> version_of_filename name = Some u -> u <= v) ->
  highest_version (models_dir (committed w v model vectorizer metrics)) v.
Proof.
  intros Hle. split.
  - exists (model_file v). split; [|apply version_of_model_file]. cbn.
    rewrite lookup_insert_ne by (intros H; symmetry in H; by apply model_file_not_pointer in H).
    rewrite lookup_insert_ne by apply not_eq_sym, model_file_not_vectorizer.
    rewrite lookup_insert_eq. by eexists.
  - intros name u Hname Hu. cbn in Hname.
    destruct (decide (name = pointer_file)) as [->|H1].
    { by rewrite pointer_is_no_model_file in Hu. }
    rewrite lookup_insert_ne in Hname by done.
    destruct (decide (name = vectorizer_file v)) as [->|H2].
    { by rewrite version_of_vectorizer_file in Hu. }
    rewrite lookup_insert_ne in Hname by done.
    destruct (decide (name = model_file v)) as [->|H3].
    { rewrite version_of_model_file in Hu. injection Hu as ->. lia. }
    rewrite lookup_insert_ne in Hname by done. by eapply Hle.
Qed.

(** A commit whose metrics cannot be persisted: the two artifacts are
    registered, the run stops at the metrics. *)
Lemma commit_unpersisted env v model vectorizer metrics w :
  writable env Models (model_file v) = true ->
  writable env Models (vectorizer_file v) = true ->
  writable env Metrics (metrics_file v) = false ->
  let c := commit env v model vectorizer metrics w in
  outcome c = Raise OSError
  /\ trace c = unpersisted_events v
  /\ models_dir (final c) = models_dir (registered w v model vectorizer)
  /\ feedback_dir (final c) = feedback_dir w
  /\ metrics_dir (final c)
     = match partial_write env Metrics (metrics_file v) with
       | None => metrics_dir w
       | Some written => <[metrics_file v := Text written]> (metrics_dir w)
       end.
Proof.
  intros H1 H2 H3. unfold commit. unfold_io. unfold_monad. cbn.
  rewrite H1, H2, H3. by destruct (partial_write env Metrics (metrics_file v)).
Qed.

Lemma registered_highest_version w v model vectorizer :
  (forall name u, is_Some (models_dir w !! name) -> version_of_filename name = Some u -> u <= v) ->
  highest_version (models_dir (registered w v model vectorizer)) v.
Proof.
  intros Hle. split.
  - exists (model_file v). split; [|apply version_of_model_file]. cbn.
    rewrite lookup_insert_ne by apply not_eq_sym, model_file_not_vectorizer.
    rewrite lookup_insert_eq. by eexists.
  - intros name u Hname Hu. cbn in Hname.
    destruct (decide (name = vectorizer_file v)) as [->|H2].
    { by rewrite version_of_vectorizer_file in Hu. }
    rewrite lookup_insert_ne in Hname by done.
    destruct (decide (name = model_file v)) as [->|H3].
    { rewrite version_of_model_file in Hu. injection Hu as ->. lia. }
    rewrite lookup_insert_ne in Hname by done. by eapply Hle.
Qed.

(** The versions of the registry are at most the one the retraining
    pipeline resolves, which the serving layer resolves too when there is
    no pointer file. *)
Lemma resolved_version_bounds w :
  Retrain.get_current_model_version w <> 0 ->
  (forall name u, is_Some (models_dir w !! name) -> version_of_filename name = Some u ->
                  u <= Retrain.get_current_model_version w)
  /\ (models_dir w !! pointer_file = None ->
      Api.get_current_model_version w = Ok (Some (Retrain.get_current_model_version w))).
Proof.
  intros Hne. destruct (retrain_version_cases w) as [[_ Hzero]|Hhigh]; [done|].
  split; [apply Hhigh|].
  intros Hp. rewrite (api_version_without_pointer _ Hp).
  apply scan_versions_max_Some in Hhigh. by rewrite Hhigh.
Qed.

(** C5. The commit is the last stage of a run of [main]: the stages before
    it write nothing, and the only writes of a run are, in this order, the
    registration of the classifier and of the vectorizer, the write of the
    metrics, and the write of the pointer file. A run that fails in a stage
    before the commit, or finds no baseline, leaves the disk as it was.
    When the stages have produced a classifier and the four files can be
    written, the run leaves exactly the four files of the next version on
    the disk, and both resolvers answer the next version; a run that
    succeeds has done so. When the metrics cannot be persisted the run
    fails and the pointer file is neither written nor changed, but nothing
    is undone: the two artifacts registered before stay in the registry, so
    the resolver of the retraining pipeline answers the next version, and
    so does the resolver of the serving layer when there is no pointer
    file. *)
Theorem retraining_commit_last_and_ordered (env : Env) (feedback_weight : pyval) (w : World) :
  let run := Retrain.main env feedback_weight w in
  let before := stages_before_commit env feedback_weight w in
  let current_version := Retrain.get_current_model_version w in
  let next_version := current_version + 1 in
  (exists c, trace run = trace before ++ c
             /\ writes (trace before) = []
             /\ c `prefix_of` commit_events next_version)
  /\ (forall e, outcome before = Raise e -> run = (Raise e, w, trace before))
  /\ (current_version = 0 -> run = (Ok tt, w, []))
  /\ (forall model vectorizer metrics,
      outcome before = Ok (Some (current_version, (model, vectorizer, metrics))) ->
      (writable env Models (model_file next_version) = true ->
       writable env Models (vectorizer_file next_version) = true ->
       writable env Metrics (metrics_file next_version) = true ->
       writable env Models pointer_file = true ->
       final run = committed w next_version model vectorizer metrics
       /\ trace run = trace before ++ commit_events next_version
       /\ outcome run
          = outcome (Retrain.report metrics current_version
                       (committed w next_version model vectorizer metrics))
       /\ Retrain.get_current_model_version (final run) = next_version
       /\ Api.get_current_model_version (final run) = Ok (Some next_version))
      /\ (writable env Models (model_file next_version) = true ->
          writable env Models (vectorizer_file next_version) = true ->
          writable env Metrics (metrics_file next_version) = false ->
          outcome run = Raise OSError
          /\ trace run = trace before ++ unpersisted_events next_version
          /\ models_dir (final run)
             = models_dir (registered w next_version model vectorizer)
          /\ metrics_dir (final run)
             = match partial_write env Metrics (metrics_file next_version) with
               | None => metrics_dir w
               | Some written =>
                   <[metrics_file next_version := Text written]> (metrics_dir w)
               end
          /\ Retrain.get_current_model_version (final run) = next_version
          /\ (models_dir w !! pointer_file = None ->
              Api.get_current_model_version w = Ok (Some current_version)
              /\ Api.get_current_model_version (final run) = Ok (Some next_version))))
  /\ (current_version <> 0 -> is_ok (outcome run) = true ->
      exists model vectorizer metrics,
        outcome before = Ok (Some (current_version, (model, vectorizer, metrics)))
        /\ final run = committed w next_version model vectorizer metrics
        /\ trace run = trace before ++ commit_events next_version)
  /\ (writable env Metrics (metrics_file next_version) = false ->
      models_dir (final run) !! pointer_file = models_dir w !! pointer_file
      /\ EvWriteText Models pointer_file ∉ trace run).
Proof.
  intros run before current_version next_version.
  pose proof (main_run env feedback_weight w) as Hrun.
  pose proof (stages_before_commit_read_only env feedback_weight w) as [Hro Hnw].
  fold before in Hrun, Hro, Hnw. fold run in Hrun.
  assert (Hnot : EvWriteText Models pointer_file ∉ trace before).
  { intros Hin.
    assert (Hw : EvWriteText Models pointer_file ∈ writes (trace before)).
    { unfold writes. apply list_elem_of_filter. by split. }
    rewrite Hnw in Hw. by apply elem_of_nil in Hw. }
  destruct (outcome before) as [[[cur [[model vectorizer] metrics]]|]|e] eqn:Hbefore.
  - destruct Hrun as (-> & Hne & Htrace & Hfinal & Hok & Hraise).
    fold current_version next_version in Hne, Htrace, Hfinal, Hok, Hraise.
    destruct (resolved_version_bounds w Hne) as [Hle Hapi].
    fold current_version in Hle, Hapi.
    set (c := commit env next_version model vectorizer metrics w) in *.
    assert (Hcomplete : forall model' vectorizer' metrics',
              commit env next_version model' vectorizer' metrics' w
              = (Ok tt, committed w next_version model' vectorizer' metrics',
                 commit_events next_version) ->
              Retrain.get_current_model_version
                (committed w next_version model' vectorizer' metrics') = next_version
              /\ Api.get_current_model_version
                   (committed w next_version model' vectorizer' metrics')
                 = Ok (Some next_version)).
    { intros model' vectorizer' metrics' _. split.
      - assert (Hhigh : highest_version
                          (models_dir (committed w next_version model' vectorizer' metrics'))
                          next_version).
        { apply committed_highest_version. intros name u Hname Hu.
          specialize (Hle name u Hname Hu). subst next_version. lia. }
        apply scan_versions_max_Some in Hhigh.
        unfold Retrain.get_current_model_version at 1. by rewrite Hhigh.
      - apply api_version_of_pointer. cbn. by rewrite lookup_insert_eq. }
    split_and!.
    + exists (trace c). split; [done|]. split; [done|]. apply commit_trace_prefix.
    + done.
    + done.
    + intros model' vectorizer' metrics' [= <- <- <-]. split.
      * intros H1 H2 H3 H4.
        pose proof (commit_complete env next_version model vectorizer metrics w H1 H2 H3 H4)
          as Hc.
        destruct (Hcomplete _ _ _ Hc) as [Hr Ha].
        fold c in Hc. rewrite Hfinal, Htrace, Hc. cbn [final trace fst snd].
        split; [done|]. split; [done|]. split; [|done].
        subst run. rewrite main_stages, bind_run.
        destruct (stages_before_commit env feedback_weight w) as [[r s] t] eqn:Hs.
        subst before. cbn in Hbefore, Hro. subst r s. rewrite bind_run.
        fold current_version next_version. fold c. rewrite Hc.
        by destruct (Retrain.report metrics current_version _) as [[rr sr] tr].
      * intros H1 H2 H3.
        destruct (commit_unpersisted env next_version model vectorizer metrics w H1 H2 H3)
          as (Hout & Htr & Hmodels & _ & Hmetrics).
        fold c in Hout, Htr, Hmodels, Hmetrics.
        rewrite Hfinal, Htrace, Htr, Hmodels, Hmetrics.
        assert (Hhigh : highest_version
                          (models_dir (registered w next_version model vectorizer))
                          next_version).
        { apply registered_highest_version. intros name u Hname Hu.
          specialize (Hle name u Hname Hu). subst next_version. lia. }
        apply scan_versions_max_Some in Hhigh.
        split; [by apply Hraise|]. split; [done|]. split; [done|]. split; [done|].
        split.
        -- unfold Retrain.get_current_model_version at 1. by rewrite Hmodels, Hhigh.
        -- intros Hp. split; [by apply Hapi|].
           rewrite api_version_without_pointer; rewrite Hmodels.
           ++ by rewrite Hhigh.
           ++ cbn. rewrite !lookup_insert_ne; [done| |].
              ** intros H. by apply model_file_not_pointer in H.
              ** intros H. by apply vectorizer_file_not_pointer in H.
    + intros _ Hsuccess. exists model, vectorizer, metrics. split; [done|].
      specialize (Hok Hsuccess).
      apply commit_succeeds_inv in Hok as (H1 & H2 & H3 & H4).
      rewrite Hfinal, Htrace. unfold c. by rewrite commit_complete.
    + intros Hfail. rewrite Hfinal, Htrace.
      destruct (commit_metrics_failure env next_version model vectorizer metrics w Hfail)
        as (_ & Hpointer & Hnotc).
      split; [done|]. by intros [Hin | Hin]%elem_of_app.
  - destruct Hrun as [Hzero Hrun]. rewrite Hrun.
    assert (Hb : before = (Ok None, w, []))
      by (by apply stages_before_commit_no_baseline).
    rewrite Hb. unfold trace, final. simpl.
    split_and!; try done.
    + exists []. split; [done|]. split; [done|]. apply prefix_nil.
    + intros _. split; [done|]. apply not_elem_of_nil.
  - rewrite Hrun. unfold trace, final, outcome. simpl.
    split_and!; try done.
    + exists []. split; [by rewrite app_nil_r|]. split; [done|]. apply prefix_nil.
    + by intros e' [= <-].
    + intros Hzero.
      assert (Hb : before = (Ok None, w, []))
        by (by apply stages_before_commit_no_baseline).
      rewrite Hb in Hbefore. done.
Qed.

(** The two commits on the disk of a baseline training. With an environment
    whose metrics directory cannot be written, the run stops at the metrics:
    the classifier and the vectorizer of version 2 are registered and both
    resolvers answer 2. With one where every write succeeds the disk is the
    one of the complete commit. *)
Lemma retraining_commit_last_and_ordered_witness :
  let weight := PFloat (FFinite 1) in
  let failed := Retrain.main example_env_no_metrics weight baseline_disk in
  let run := Retrain.main example_env weight baseline_disk in
  exists model vectorizer metrics,
    outcome (stages_before_commit example_env_no_metrics weight baseline_disk)
    = Ok (Some (1, (model, vectorizer, metrics)))
    /\ outcome (stages_before_commit example_env weight baseline_disk)
       = Ok (Some (1, (model, vectorizer, metrics)))
    /\ writable example_env_no_metrics Metrics (metrics_file 2) = false
    /\ models_dir baseline_disk !! pointer_file = None
    /\ (outcome failed = Raise OSError
        /\ models_dir (final failed) = models_dir (registered baseline_disk 2 model vectorizer)
        /\ metrics_dir (final failed) = metrics_dir baseline_disk
        /\ Retrain.get_current_model_version (final failed) = 2
        /\ Api.get_current_model_version (final failed) = Ok (Some 2))
    /\ (final run = committed baseline_disk 2 model vectorizer metrics
        /\ Retrain.get_current_model_version (final run) = 2
        /\ Api.get_current_model_version (final run) = Ok (Some 2)).
Proof.
  intros weight failed run.
  assert (Hs : exists model vectorizer metrics,
             outcome (stages_before_commit example_env_no_metrics weight baseline_disk)
             = Ok (Some (1, (model, vectorizer, metrics))))
    by (eexists _, _, _; vm_compute; reflexivity).
  destruct Hs as (model & vectorizer & metrics & Hs). exists model, vectorizer, metrics.
  assert (Hs' : outcome (stages_before_commit example_env weight baseline_disk)
                = Ok (Some (1, (model, vectorizer, metrics)))) by exact Hs.
  assert (Hp : models_dir baseline_disk !! pointer_file = None) by reflexivity.
  split; [exact Hs|]. split; [exact Hs'|]. split; [reflexivity|]. split; [exact Hp|].
  split.
  - destruct (retraining_commit_last_and_ordered example_env_no_metrics weight baseline_disk)
      as (_ & _ & _ & Hcommit & _).
    destruct (Hcommit model vectorizer metrics Hs) as [_ Hfail].
    destruct (Hfail eq_refl eq_refl eq_refl) as (Hout & _ & Hmodels & Hmetrics & Hr & Ha).
    split; [exact Hout|]. split; [exact Hmodels|]. split; [exact Hmetrics|].
    split; [exact Hr|]. exact (proj2 (Ha Hp)).
  - destruct (retraining_commit_last_and_ordered example_env weight baseline_disk)
      as (_ & _ & _ & Hcommit & _).
    destruct (Hcommit model vectorizer metrics Hs') as [Hcomplete _].
    destruct (Hcomplete eq_refl eq_refl eq_refl eq_refl) as (Hfinal & _ & _ & Hr & Ha).
    split; [exact Hfinal|]. split; [exact Hr|exact Ha].
Defined.

(** C5, as stated, fails: a run whose metrics cannot be persisted ends in an
    error and writes no pointer file, and yet the new version has taken the
    place of the prior one. On the disk of a baseline training, where the
    serving layer resolved version 1, the classifier and the vectorizer of
    version 2 stay registered without metrics, both resolvers answer 2, and
    a serving process that starts afterwards loads the classifier of
    version 2. *)
Lemma retraining_unpersisted_version_counterexample :
  let run := Retrain.main example_env_no_metrics (PFloat (FFinite 1)) baseline_disk in
  let served := final (Api.load_model None (Api.initial (final run))) in
  outcome run = Raise OSError
  /\ metrics_dir (final run) !! metrics_file 2 = None
  /\ models_dir (final run) !! pointer_file = None
  /\ models_dir baseline_disk !! model_file 2 = None
  /\ models_dir (final run) !! model_file 2 = Some (Joblib (Artifact 10))
  /\ models_dir (final run) !! vectorizer_file 2 = Some (Joblib (Artifact 2))
  /\ Api.get_current_model_version baseline_disk = Ok (Some 1)
  /\ Api.get_current_model_version (final run) = Ok (Some 2)
  /\ Retrain.get_current_model_version baseline_disk = 1
  /\ Retrain.get_current_model_version (final run) = 2
  /\ Api.current_version served = Some 2
  /\ Api.current_model served = Some (Artifact 10).
Proof. vm_compute. repeat split; reflexivity. Qed.

(** ** The serving layer *)

(** Every call of [load_model] is logged first. *)
Lemma load_model_logged version s :
  exists t, trace (Api.load_model version s) = EvLoadModel :: t
            /\ forall text, EvInfer text ∉ t.
Proof.
  unfold Api.load_model. unfold_io. unfold_monad.
  unfold Api.set_current_model, Api.set_current_vectorizer, Api.set_current_version,
    Api.set_label_names.
  cbn. run_cases; eexists; (split; [reflexivity|]); intros text Hin;
    repeat (apply elem_of_cons in Hin as [Hin | Hin]; [discriminate|]);
    by apply elem_of_nil in Hin.
Qed.

Lemma try_except_run {S A} (m : M S A) (h : exn -> M S A) (s : S) :
  try_except m h s
  = match m s with
    | (Ok a, s1, t1) => (Ok a, s1, t1)
    | (Raise e, s1, t1) => match h e s1 with (r, s2, t2) => (r, s2, t1 ++ t2) end
    end.
Proof. reflexivity. Qed.

(** C2. On a blank text [predict] never runs the classifier.  When a
    classifier and a vectorizer are loaded it fails with status 400 at once,
    without touching anything.  When one of them is not loaded it calls
    [load_model] first: the request then fails with status 400 if the load
    succeeds and with status 500 ("Model not available") if it fails. *)
Theorem predict_blank_text (env : Env) (request : Api.PredictRequest) (s : Api.State)
    (Hblank : Api.blank (Api.request_text request) = true) :
  let r := Api.predict env request s in
  let loaded := Api.load_model None s in
  (forall text, EvInfer text ∉ trace r)
  /\ (is_Some (Api.current_model s) -> is_Some (Api.current_vectorizer s) ->
      r = (Raise (HTTPException 400 "Text cannot be empty"), s, []))
  /\ (Api.current_model s = None \/ Api.current_vectorizer s = None ->
      trace r = trace loaded
      /\ final r = final loaded
      /\ head (trace r) = Some EvLoadModel
      /\ outcome r = if is_ok (outcome loaded)
                     then Raise (HTTPException 400 "Text cannot be empty")
                     else Raise (HTTPException 500 "Model not available")).
Proof.
  intros r loaded.
  destruct (load_model_logged None s) as (t & Ht & Hinfer). fold loaded in Ht.
  assert (Hload : Api.current_model s = None \/ Api.current_vectorizer s = None ->
                  r = (if is_ok (outcome loaded)
                       then Raise (HTTPException 400 "Text cannot be empty")
                       else Raise (HTTPException 500 "Model not available"),
                       final loaded, trace loaded)).
  { intros Hnone. unfold r, Api.predict.
    rewrite bind_run. unfold get at 1. cbn iota beta.
    rewrite bind_run, Hblank.
    assert (Hmatch : match Api.current_model s, Api.current_vectorizer s with
                     | Some _, Some _ => mret tt
                     | _, _ => try_except (Api.load_model None)
                                 (fun _ => raise (HTTPException 500 "Model not available"))
                     end
                     = try_except (Api.load_model None)
                         (fun _ => raise (HTTPException 500 "Model not available"))).
    { destruct Hnone as [-> | ->]; [done|]. by destruct (Api.current_model s). }
    rewrite Hmatch, try_except_run. fold loaded.
    destruct loaded as [[[[]|e] s1] t1]; unfold outcome, final, trace; cbn;
      by rewrite ?app_nil_r. }
  split; [|split].
  - intros text.
    destruct (Api.current_model s) as [m|] eqn:Hm;
      [destruct (Api.current_vectorizer s) as [v|] eqn:Hv|].
    + unfold r, Api.predict. rewrite bind_run. unfold get at 1. cbn iota beta.
      rewrite bind_run, Hblank, Hm, Hv. cbn. apply not_elem_of_nil.
    + rewrite Hload by auto. unfold trace at 1. cbn. rewrite Ht.
      intros [Hin | Hin]%elem_of_cons; [done | by apply (Hinfer text)].
    + rewrite Hload by auto. unfold trace at 1. cbn. rewrite Ht.
      intros [Hin | Hin]%elem_of_cons; [done | by apply (Hinfer text)].
  - intros [m Hm] [v Hv]. unfold r, Api.predict.
    rewrite bind_run. unfold get at 1. cbn iota beta.
    by rewrite bind_run, Hblank, Hm, Hv.
  - intros Hnone. rewrite (Hload Hnone). unfold trace at 1 3, final at 1, outcome at 1. cbn.
    by rewrite Ht.
Qed.

(** A blank text with a registered but not yet loaded model: the model is
    loaded, then the request is refused. *)
Lemma predict_blank_text_witness :
  Api.blank (Api.request_text {| Api.request_text := "  " |}) = true
  /\ head (trace (Api.predict example_env {| Api.request_text := "  " |}
                   (Api.initial baseline_disk)))
     = Some EvLoadModel
  /\ outcome (Api.predict example_env {| Api.request_text := "  " |}
                (Api.initial baseline_disk))
     = Raise (HTTPException 400 "Text cannot be empty").
Proof.
  assert (H : Api.blank (Api.request_text {| Api.request_text := "  " |}) = true)
    by reflexivity.
  split; [exact H|].
  destruct (predict_blank_text example_env {| Api.request_text := "  " |}
              (Api.initial baseline_disk) H) as (_ & _ & Hload).
  destruct (Hload (or_introl eq_refl)) as (_ & _ & Hhead & Hout).
  split; [exact Hhead | exact Hout].
Defined.

(** C2, as stated, fails.  A server started on an empty registry has
    nothing loaded; with an empty text [predict] attempts the load first and
    the request fails with "Model not available" (status 500), not with the
    empty-input error.  With a model registered since, the artifacts are read
    from disk before the request is refused. *)
Lemma predict_blank_text_counterexample :
  Api.blank "" = true
  /\ final (Api.startup_event (Api.initial empty_world)) = Api.initial empty_world
  /\ Api.predict example_env {| Api.request_text := "" |} (Api.initial empty_world)
     = (Raise (HTTPException 500 "Model not available"), Api.initial empty_world,
        [EvLoadModel])
  /\ outcome (Api.predict example_env {| Api.request_text := "" |} (Api.initial baseline_disk))
     = Raise (HTTPException 400 "Text cannot be empty")
  /\ trace (Api.predict example_env {| Api.request_text := "" |} (Api.initial baseline_disk))
     = [EvLoadModel; EvJoblibLoad Models "model_v1.joblib";
        EvJoblibLoad Models "vectorizer_v1.joblib"].
Proof. repeat split; vm_compute; reflexivity. Qed.

(** [submit_feedback] refuses a blank text and an empty human label, and
    then leaves the disk as it was. *)
Lemma submit_feedback_rejects env request w :
  Api.blank (Api.text request) = true \/ PyStr.is_empty (Api.human_label request) = true ->
  exists detail,
    Api.submit_feedback env request w = (Raise (HTTPException 400 detail), w, []).
Proof.
  intros H. unfold Api.submit_feedback.
  destruct (Api.blank (Api.text request)) eqn:Hb; [by eexists|].
  destruct H as [H | H]; [done|]. rewrite H. by eexists.
Qed.

(** C3 at the failing input: a human label that is a single space is
    blank after trimming, yet the submission is accepted and the record is
    stored. *)
Theorem submit_feedback_whitespace_label_stored :
  PyStr.strip " " = ""
  /\ Api.submit_feedback example_env
       {| Api.text := "hello"; Api.model_prediction := "World"; Api.human_label := " " |}
       empty_world
     = (Ok {| Api.message := "Feedback received successfully";
              Api.timestamp := "2024-01-01T00:00:00" |},
        {| models_dir := ∅;
           feedback_dir :=
             {[ "feedback.json" :=
                  Json (PList [PDict [("text", PStr "hello");
                                      ("model_prediction", PStr "World");
                                      ("human_label", PStr " ");
                                      ("timestamp", PStr "2024-01-01T00:00:00");
                                      ("model_version", PStr "v1")]]) ]};
           metrics_dir := ∅ |},
        [EvJsonDump Feedback "feedback.json"]).
Proof. split; vm_compute; reflexivity. Qed.

(** C9. When no pointer file and no classifier file exist, a valid
    submission is accepted and appended to the stored list with
    ["model_version": "v1"]. *)
Theorem feedback_without_model_records_v1 (env : Env) (request : Api.FeedbackRequest)
    (w : World) (stored : list pyval)
    (Htext : Api.blank (Api.text request) = false)
    (Hlabel : PyStr.is_empty (Api.human_label request) = false)
    (Hpointer : models_dir w !! pointer_file = None)
    (Hmodels : no_model_file (models_dir w))
    (Hstored : feedback_dir w !! "feedback.json" = Some (Json (PList stored))
               \/ (feedback_dir w !! "feedback.json" = None /\ stored = []))
    (Hwritable : writable env Feedback "feedback.json" = true) :
  let r := Api.submit_feedback env request w in
  outcome r = Ok {| Api.message := "Feedback received successfully";
                    Api.timestamp := utcnow env |}
  /\ feedback_dir (final r) !! "feedback.json"
     = Some (Json (PList (stored ++
                          [PDict [("text", PStr (Api.text request));
                                  ("model_prediction", PStr (Api.model_prediction request));
                                  ("human_label", PStr (Api.human_label request));
                                  ("timestamp", PStr (utcnow env));
                                  ("model_version", PStr "v1")]])))
  /\ models_dir (final r) = models_dir w
  /\ metrics_dir (final r) = metrics_dir w.
Proof.
  intros r. unfold r, Api.submit_feedback. rewrite Htext, Hlabel.
  assert (Hversion : Api.get_current_model_version w = Ok None).
  { rewrite (api_version_without_pointer w Hpointer). f_equal.
    by apply scan_versions_max_None. }
  unfold_io. unfold_monad. cbn. rewrite Hversion. cbn.
  destruct Hstored as [Hfile | [Hfile ->]];
    repeat (rewrite ?Hfile, ?Hwritable; cbn);
    by rewrite lookup_insert_eq.
Qed.

(** The very first submission on an empty disk. *)
Lemma feedback_without_model_records_v1_witness :
  let request := {| Api.text := "great match"; Api.model_prediction := "World";
                    Api.human_label := "Sports" |} in
  Api.blank (Api.text request) = false
  /\ PyStr.is_empty (Api.human_label request) = false
  /\ models_dir empty_world !! pointer_file = None
  /\ no_model_file (models_dir empty_world)
  /\ outcome (Api.submit_feedback example_env request empty_world)
     = Ok {| Api.message := "Feedback received successfully";
             Api.timestamp := utcnow example_env |}
  /\ feedback_dir (final (Api.submit_feedback example_env request empty_world))
       !! "feedback.json"
     = Some (Json (PList [PDict [("text", PStr "great match");
                                 ("model_prediction", PStr "World");
                                 ("human_label", PStr "Sports");
                                 ("timestamp", PStr (utcnow example_env));
                                 ("model_version", PStr "v1")]])).
Proof.
  intros request.
  assert (H1 : Api.blank (Api.text request) = false) by reflexivity.
  assert (H2 : PyStr.is_empty (Api.human_label request) = false) by reflexivity.
  assert (H3 : models_dir empty_world !! pointer_file = None) by reflexivity.
  assert (H4 : no_model_file (models_dir empty_world)).
  { intros name [f Hf]. cbn in Hf. by rewrite lookup_empty in Hf. }
  assert (H5 : feedback_dir empty_world !! "feedback.json" = Some (Json (PList []))
               \/ (feedback_dir empty_world !! "feedback.json" = None
                   /\ @nil pyval = [])) by (right; split; reflexivity).
  assert (H6 : writable example_env Feedback "feedback.json" = true) by reflexivity.
  split; [exact H1|]. split; [exact H2|]. split; [exact H3|]. split; [exact H4|].
  destruct (feedback_without_model_records_v1 example_env request empty_world [] H1 H2 H3 H4
              H5 H6) as (Hok & Hfile & _).
  split; [exact Hok | exact Hfile].
Defined.

(** ** Feedback in the retraining pipeline *)

Lemma feedback_samples_of_dicts entries :
  forallb is_dict entries = true ->
  Retrain.feedback_samples_of entries = Ok (omap sample_of_entry entries).
Proof.
  induction entries as [|entry rest IH]; [done|].
  intros [Hd Hrest]%andb_true_iff. destruct entry; try done.
  cbn [Retrain.feedback_samples_of omap list_omap]. rewrite (IH Hrest).
  unfold sample_of_entry. by destruct (_ && _).
Qed.

(** What [main] logs starts with what its stages before the commit log. *)
Lemma main_trace_before env fw w :
  exists c, trace (Retrain.main env fw w) = trace (stages_before_commit env fw w) ++ c.
Proof.
  pose proof (main_run env fw w) as Hrun.
  destruct (outcome (stages_before_commit env fw w))
    as [[[cur [[model vectorizer] metrics]]|]|e] eqn:Hbefore.
  - destruct Hrun as (_ & _ & Htrace & _). eauto.
  - destruct Hrun as [Hzero Hrun]. rewrite Hrun.
    rewrite (stages_before_commit_no_baseline env fw w Hzero). by exists [].
  - rewrite Hrun. exists []. by rewrite app_nil_r.
Qed.

Lemma load_feedback_of_dicts w entries :
  feedback_dir w !! "feedback.json" = Some (Json (PList entries)) ->
  forallb is_dict entries = true ->
  Retrain.load_feedback w = (Ok (omap sample_of_entry entries), w, []).
Proof.
  intros Hfile Hdicts. unfold Retrain.load_feedback. unfold_io. unfold_monad.
  cbn -[Retrain.feedback_samples_of].
  repeat (rewrite Hfile; cbn -[Retrain.feedback_samples_of]).
  by rewrite (feedback_samples_of_dicts entries Hdicts).
Qed.

Lemma elem_of_repeated_labels {T L : Type} (k : nat) (samples : list (T * L)) text label :
  (text, label) ∈ samples -> (0 < k)%nat -> label ∈ repeated_labels k samples.
Proof.
  intros Hin Hk. unfold repeated_labels. apply list_elem_of_In, in_flat_map.
  exists (text, label). split; [by apply list_elem_of_In|].
  destruct k; [lia|]. by left.
Qed.

(** *** Label names among the class ids *)

Lemma api_entries_samples entries :
  forallb api_entry entries = true ->
  forallb is_dict entries = true
  /\ length (omap sample_of_entry entries) = length entries
  /\ forallb Np.is_str (omap sample_of_entry entries).*1 = true
  /\ forallb Np.is_str (omap sample_of_entry entries).*2 = true.
Proof.
  induction entries as [|entry rest IH]; [done|].
  cbn [forallb]. intros [He Hrest]%andb_true_iff.
  destruct (IH Hrest) as (Hd & Hlen & Ht & Hl).
  destruct entry as [| | | | | |d]; try done.
  cbn [api_entry] in He.
  apply andb_true_iff in He as [He Hlabel]. apply andb_true_iff in He as [Htext Htruthy].
  assert (Hs : sample_of_entry (PDict d)
               = Some (Py.dict_get d "text" (PStr ""), Py.dict_get d "human_label" PNone)).
  { cbn [sample_of_entry]. rewrite Htruthy.
    by destruct (Py.dict_get d "human_label" PNone). }
  change (omap sample_of_entry (PDict d :: rest))
    with (match sample_of_entry (PDict d) with
          | Some y => y :: omap sample_of_entry rest
          | None => omap sample_of_entry rest
          end).
  rewrite Hs, !fmap_cons. cbn [is_dict andb length forallb fst snd].
  by rewrite Htext, Hlabel, Ht, Hl, Hlen.
Qed.

Lemma existsb_str_not_int64 l : existsb Np.is_str l = true -> forallb Np.int64 l = false.
Proof.
  induction l as [|v l IH]; [done|]. cbn [existsb forallb].
  intros [Hv | Hl]%orb_true_iff.
  - by destruct v.
  - rewrite (IH Hl). apply andb_false_r.
Qed.

Lemma str_of_label v : is_label v = true -> Np.is_str (Np.str_ v) = true.
Proof. by destruct v. Qed.

Lemma unify_strings l :
  forallb is_label l = true -> existsb Np.is_str l = true ->
  Np.unify l = map Np.str_ l /\ forallb Np.is_str (map Np.str_ l) = true.
Proof.
  intros Hl Hs. unfold Np.unify. rewrite (existsb_str_not_int64 l Hs). split; [done|].
  clear Hs. induction l as [|v l IH]; [done|]. cbn [forallb map] in *.
  apply andb_true_iff in Hl as [Hv Hl]. by rewrite (str_of_label v Hv), (IH Hl).
Qed.

Lemma label_ids_strings env pred :
  pred <> [] -> forallb Np.is_str pred = true -> label_ids env pred = Raise ValueError.
Proof.
  intros Hne Hs. unfold label_ids. rewrite Hs.
  destruct pred as [|v pred]; [done|]. cbn [forallb] in Hs.
  apply andb_true_iff in Hs as [Hv _]. by destruct v.
Qed.

(** A classifier that is fit on strings is never scored against the integer
    labels of the test split: [retrain_model] raises. *)
Lemma retrain_model_string_labels env texts labels test_texts test_labels names vectorizer w :
  predicts_strings env ->
  labels <> [] -> forallb Np.is_str labels = true -> test_texts <> [] ->
  let r := Retrain.retrain_model env texts labels test_texts test_labels names vectorizer w in
  is_ok (outcome r) = false
  /\ (forall v model predictions,
      (vectorizer = Some v \/ vectorizer = None /\ fit_vectorizer env texts = Ok v) ->
      fit_classifier env v texts labels = Ok model ->
      predict env model v test_texts = Ok predictions ->
      outcome r = Raise ValueError).
Proof.
  intros Hclassifier Hne Hs Htest r. subst r.
  assert (Hpred : forall v model predictions,
            fit_classifier env v texts labels = Ok model ->
            predict env model v test_texts = Ok predictions ->
            label_ids env predictions = Raise ValueError).
  { intros v model predictions Hfit Hp.
    destruct (Hclassifier v texts labels model Hfit Hne Hs v test_texts predictions Hp)
      as [Hlen Hstr].
    apply label_ids_strings; [|done]. intros ->. by destruct test_texts. }
  unfold Retrain.retrain_model. unfold_monad. cbn.
  split.
  - destruct vectorizer as [v|]; cbn; [|destruct (fit_vectorizer env texts) as [v|]; cbn];
      try done;
      (destruct (fit_classifier env v texts labels) as [model|] eqn:Hfit; cbn; [|done];
       destruct (predict env model v test_texts) as [predictions|] eqn:Hp; cbn; [|done];
       by rewrite (Hpred v model predictions Hfit Hp)).
  - intros v model predictions [-> | [-> Hv]] Hfit Hp; cbn;
      rewrite ?Hv; cbn; rewrite Hfit; cbn; rewrite Hp; cbn;
      by rewrite (Hpred v model predictions Hfit Hp).
Qed.

Lemma forallb_weaken {A} (P Q : A -> bool) l :
  (forall v, P v = true -> Q v = true) -> forallb P l = true -> forallb Q l = true.
Proof.
  intros HPQ. induction l as [|v l IH]; [done|]. cbn.
  intros [Hv Hl]%andb_true_iff. by rewrite (HPQ v Hv), (IH Hl).
Qed.

Lemma existsb_repeated_labels (P : pyval -> bool) k (samples : list (pyval * pyval)) :
  samples <> [] -> (0 < k)%nat -> forallb P samples.*2 = true ->
  existsb P (repeated_labels k samples) = true.
Proof.
  intros Hne Hk Hall. destruct samples as [|[t l] rest]; [done|].
  change (forallb P (l :: rest.*2) = true) in Hall. cbn [forallb] in Hall.
  apply andb_true_iff in Hall as [Hl _].
  change (repeated_labels k ((t, l) :: rest)) with (repeat l k ++ repeated_labels k rest).
  rewrite existsb_app. destruct k as [|k]; [lia|]. cbn. by rewrite Hl.
Qed.

(** C1. Retraining on feedback as the serving layer stores it, with label
    names for human labels: the names are not converted to class ids.  They
    reach [np.array] next to the integer ids of the corpus, which turns
    every label, the ids included, into a string; a classifier that is fit
    on strings predicts strings, the scores refuse them next to the integer
    labels of the test split, and the run aborts: it registers no version
    and leaves the disk as it was, whether the names are labels of the
    schema or not. *)
Theorem retraining_with_label_names_aborts (env : Env) (feedback_weight : pyval) (w : World)
    (corpus : Corpus) (entries : list pyval) (n : Z)
    (Hclassifier : predicts_strings env)
    (Hbaseline : Retrain.get_current_model_version w <> 0)
    (Hdata : load_dataset env = Ok corpus)
    (Hids : forallb Np.int64 (map PInt (train_labels corpus)) = true)
    (Htest : test_texts corpus <> [])
    (Hfile : feedback_dir w !! "feedback.json" = Some (Json (PList entries)))
    (Hentries : forallb api_entry entries = true)
    (Hsome : entries <> [])
    (Hweight : Py.int feedback_weight = Ok n)
    (Hn : 1 <= n) :
  let run := Retrain.main env feedback_weight w in
  let samples := omap sample_of_entry entries in
  let labels := map PInt (train_labels corpus) ++ repeated_labels (Z.to_nat n) samples in
  outcome (Retrain.load_feedback w) = Ok samples
  /\ length samples = length entries
  /\ (exists texts,
      Retrain.combine_datasets env (map PStr (train_texts corpus))
        (map PInt (train_labels corpus)) samples feedback_weight
      = Ok (texts, map Np.str_ labels))
  /\ forallb Np.is_str (map Np.str_ labels) = true
  /\ is_ok (outcome run) = false
  /\ final run = w
  /\ writes (trace run) = [].
Proof.
  intros run samples labels.
  destruct (api_entries_samples entries Hentries) as (Hdicts & Hlen & Hts & Hls).
  fold samples in Hlen, Hts, Hls.
  pose proof (load_feedback_of_dicts w entries Hfile Hdicts) as Hload. fold samples in Hload.
  assert (Hsamples : samples <> []).
  { intros Hnil. rewrite Hnil in Hlen. by destruct entries. }
  assert (Hlabels : forallb is_label labels = true).
  { unfold labels. rewrite forallb_app. apply andb_true_iff. split.
    - eapply forallb_weaken; [|exact Hids]. intros v Hv. unfold is_label. by rewrite Hv.
    - apply forallb_repeated_labels. eapply forallb_weaken; [|exact Hls].
      intros v Hv. unfold is_label. rewrite Hv. apply orb_true_r. }
  assert (Hstr : existsb Np.is_str labels = true).
  { unfold labels. rewrite existsb_app. apply orb_true_iff. right.
    apply existsb_repeated_labels; [done|lia|done]. }
  destruct (unify_strings labels Hlabels Hstr) as [Hunify Hall].
  assert (Htexts : forallb is_label
                     (map PStr (train_texts corpus) ++ repeated_texts (Z.to_nat n) samples)
                   = true).
  { rewrite forallb_app. apply andb_true_iff. split.
    - clear. induction (train_texts corpus) as [|t ts IH]; [done|]. by cbn.
    - apply forallb_repeated_texts. eapply forallb_weaken; [|exact Hts].
      intros v Hv. unfold is_label. rewrite Hv. apply orb_true_r. }
  assert (Hcombine :
    Retrain.combine_datasets env (map PStr (train_texts corpus))
      (map PInt (train_labels corpus)) samples feedback_weight
    = Ok (Np.unify (map PStr (train_texts corpus) ++ repeated_texts (Z.to_nat n) samples),
          map Np.str_ labels)).
  { rewrite (combine_datasets_int _ _ _ _ _ _ Hweight).
    rewrite (array_labels env _ Htexts). fold labels.
    by rewrite (array_labels env labels Hlabels), Hunify. }
  split; [by rewrite Hload|]. split; [done|]. split; [by eexists|]. split; [done|].
  assert (Hstages : is_ok (outcome (stages_before_commit env feedback_weight w)) = false).
  { assert (Hnonempty : map Np.str_ labels <> []).
    { intros Hnil. apply (f_equal length) in Hnil. rewrite length_map in Hnil.
      unfold labels in Hnil. rewrite length_app, length_repeated_labels in Hnil.
      destruct samples; [done|]. cbn in Hnil. lia. }
    pose proof (fun texts vectorizer w' =>
                  proj1 (retrain_model_string_labels env texts (map Np.str_ labels)
                           (test_texts corpus) (test_labels corpus) default_label_names
                           vectorizer w' Hclassifier Hnonempty Hall Htest)) as Hfit.
    apply Z.eqb_neq in Hbaseline.
    unfold stages_before_commit, Retrain.load_original_data, exists_file, joblib_load.
    rewrite bind_run. unfold get at 1. cbn iota beta zeta. rewrite Hbaseline.
    rewrite bind_run. unfold_monad. cbn -[Retrain.retrain_model Retrain.load_feedback
      Retrain.combine_datasets]. rewrite Hdata. cbn -[Retrain.retrain_model
      Retrain.load_feedback Retrain.combine_datasets].
    rewrite Hload. cbn -[Retrain.retrain_model Retrain.load_feedback
      Retrain.combine_datasets]. rewrite Hcombine.
    cbn -[Retrain.retrain_model Retrain.load_feedback Retrain.combine_datasets].
    repeat case_match; simplify_eq/=; try done;
      match goal with
      | H : Retrain.retrain_model _ ?t _ _ _ _ ?v ?w' = (Ok _, _, _) |- _ =>
          specialize (Hfit t v w'); rewrite H in Hfit; done
      end. }
  pose proof (main_run env feedback_weight w) as Hrun.
  pose proof (stages_before_commit_read_only env feedback_weight w) as [_ Hnw].
  destruct (outcome (stages_before_commit env feedback_weight w))
    as [[[cur [[model vectorizer] metrics]]|]|e] eqn:Hbefore; [done| |].
  - by apply stages_before_commit_baseline in Hbefore.
  - unfold run. rewrite Hrun. by repeat split.
Qed.

Example spec_label_id_known : spec_label_id default_label_names "Sports" = Some 1.
Proof. reflexivity. Qed.

Lemma example_env_predicts_strings : predicts_strings example_env.
Proof.
  intros vectorizer texts labels model Hfit Hne Hs vectorizer' xs predictions Hp.
  assert (Hex : existsb Np.is_str labels = true).
  { destruct labels as [|v labels]; [done|]. cbn in *.
    apply andb_true_iff in Hs as [Hv _]. by rewrite Hv. }
  cbn in Hfit. rewrite Hex in Hfit. injection Hfit as <-.
  cbn in Hp. injection Hp as <-. rewrite length_map. split; [done|].
  clear. induction xs as [|x xs IH]; [done|]. by cbn.
Qed.

(** The failing input: a registered baseline and one stored correction with
    the label "Sports", which the schema holds under the id 1.  The run
    hands the strings ["0"], ["1"], ["2"], ["3"] and ["Sports"] to the fit
    and raises [ValueError]; nothing is written. *)
Lemma retraining_with_label_names_aborts_witness :
  predicts_strings example_env
  /\ Retrain.get_current_model_version sports_label_disk <> 0
  /\ spec_label_id default_label_names "Sports" = Some 1
  /\ is_ok (outcome (Retrain.main example_env (PFloat (FFinite 1)) sports_label_disk)) = false
  /\ final (Retrain.main example_env (PFloat (FFinite 1)) sports_label_disk)
     = sports_label_disk
  /\ Retrain.main example_env (PFloat (FFinite 1)) sports_label_disk
     = (Raise ValueError, sports_label_disk,
        [EvLoadDataset;
         EvJoblibLoad Models "vectorizer_v1.joblib";
         EvFit [PStr "t1"; PStr "t2"; PStr "t3"; PStr "t4"; PStr "great match"]
               [PStr "0"; PStr "1"; PStr "2"; PStr "3"; PStr "Sports"]
               (Some (Artifact 2))]).
Proof.
  assert (H1 : Retrain.get_current_model_version sports_label_disk <> 0)
    by (vm_compute; discriminate).
  split; [exact example_env_predicts_strings|]. split; [exact H1|].
  split; [reflexivity|].
  destruct (retraining_with_label_names_aborts example_env (PFloat (FFinite 1))
              sports_label_disk example_corpus
              [PDict [("text", PStr "great match"); ("model_prediction", PStr "World");
                      ("human_label", PStr "Sports");
                      ("timestamp", PStr "2024-01-01T00:00:00");
                      ("model_version", PStr "v1")]]
              1 example_env_predicts_strings H1 eq_refl eq_refl
              ltac:(discriminate) eq_refl eq_refl ltac:(discriminate) eq_refl ltac:(lia))
    as (_ & _ & _ & _ & Hok & Hfinal & _).
  split; [exact Hok|]. split; [exact Hfinal|]. vm_compute. reflexivity.
Defined.

(** A label that the schema does not hold takes the same way: the run
    raises the same [ValueError] of the scores, not a failure about the
    label. *)
Example retraining_unknown_label_aborts :
  spec_label_id default_label_names "Politics" = None
  /\ Retrain.main example_env (PFloat (FFinite 1)) unknown_label_disk
     = (Raise ValueError, unknown_label_disk,
        [EvLoadDataset;
         EvJoblibLoad Models "vectorizer_v1.joblib";
         EvFit [PStr "t1"; PStr "t2"; PStr "t3"; PStr "t4"; PStr "text A"]
               [PStr "0"; PStr "1"; PStr "2"; PStr "3"; PStr "Politics"]
               (Some (Artifact 2))]).
Proof. split; vm_compute; reflexivity. Qed.

(** ** The metrics engine *)

Lemma count_samples_nil_l p y_pred : Metrics.count_samples p [] y_pred = 0.
Proof. reflexivity. Qed.

Lemma count_samples_cons p t ts q qs :
  Metrics.count_samples p (t :: ts) (q :: qs)
  = indicator p (t, q) + Metrics.count_samples p ts qs.
Proof.
  unfold Metrics.count_samples, indicator. cbn [zip zip_with fst snd].
  destruct (p t q) eqn:Hp.
  - rewrite filter_cons_True by done. cbn [length]. lia.
  - rewrite filter_cons_False by (cbn; congruence). lia.
Qed.

Lemma count_samples_nil_r p y_true : Metrics.count_samples p y_true [] = 0.
Proof. by destruct y_true. Qed.

Lemma count_samples_ext p q y_true y_pred :
  (forall t, forall x, x ∈ y_pred -> p t x = q t x) ->
  Metrics.count_samples p y_true y_pred = Metrics.count_samples q y_true y_pred.
Proof.
  revert y_pred. induction y_true as [|t ts IH]; intros [|x xs] Hext; try done.
  rewrite !count_samples_cons. unfold indicator. cbn [fst snd].
  rewrite (Hext t x) by (by left). f_equal. apply IH.
  intros t' x' Hx'. apply Hext. by right.
Qed.

Lemma row_sum_app r1 r2 : row_sum (r1 ++ r2) = row_sum r1 + row_sum r2.
Proof. unfold row_sum. induction r1 as [|x r IH]; cbn; lia. Qed.

Lemma row_sum_map_add {A} (f g : A -> Z) l :
  row_sum (map (fun j => f j + g j) l) = row_sum (map f l) + row_sum (map g l).
Proof. unfold row_sum. induction l as [|x r IH]; cbn; lia. Qed.

Lemma row_sum_map_zero {A} (l : list A) : row_sum (map (fun _ => 0) l) = 0.
Proof. unfold row_sum. induction l as [|x r IH]; cbn; lia. Qed.

Lemma range_of_nat n : Py.range (Z.of_nat n) = map Z.of_nat (seq 0 n).
Proof. unfold Py.range. by rewrite Nat2Z.id. Qed.

(** Over the class ids of the schema, exactly one column takes a sample
    whose predicted label is a class id, and none takes any other. *)
Lemma row_sum_indicator i n (s : Z * Z) :
  row_sum (map (fun j => indicator (fun t p => (t =? i) && (p =? j)) s)
             (map Z.of_nat (seq 0 n)))
  = indicator (fun t p => (t =? i) && in_schema n p) s.
Proof.
  unfold indicator, in_schema. destruct s as [t p]. cbn [fst snd].
  induction n as [|n IH].
  - cbn. destruct (t =? i); [|done]. change (Z.of_nat 0) with 0.
    destruct (Z.leb_spec 0 p), (Z.ltb_spec p 0); cbn; lia.
  - rewrite seq_S, !map_app, row_sum_app, IH. cbn [map row_sum fold_right "+"%nat].
    destruct (t =? i); cbn [andb]; [|lia].
    destruct (Z.leb_spec 0 p), (Z.ltb_spec p (Z.of_nat n)), (Z.eqb_spec p (Z.of_nat n)),
      (Z.ltb_spec p (Z.of_nat (S n))); cbn; lia.
Qed.

Lemma row_sum_counts i n y_true y_pred :
  row_sum (map (fun j => Metrics.count_samples (fun t p => (t =? i) && (p =? j)) y_true y_pred)
             (map Z.of_nat (seq 0 n)))
  = Metrics.count_samples (fun t p => (t =? i) && in_schema n p) y_true y_pred.
Proof.
  revert y_pred. induction y_true as [|t ts IH]; intros [|x xs].
  - cbn. apply row_sum_map_zero.
  - cbn. apply row_sum_map_zero.
  - rewrite count_samples_nil_r.
    erewrite map_ext; [apply row_sum_map_zero|]. intros j. apply count_samples_nil_r.
  - rewrite count_samples_cons, <- IH, <- row_sum_indicator, <- row_sum_map_add.
    f_equal. apply map_ext. intros j. apply count_samples_cons.
Qed.

(** With every predicted label a class id of the schema, the row of a class
    adds up to its support. *)
Lemma row_sum_support i n y_true y_pred :
  Forall (fun p => in_schema n p = true) y_pred ->
  row_sum (map (fun j => Metrics.count_samples (fun t p => (t =? i) && (p =? j)) y_true y_pred)
             (map Z.of_nat (seq 0 n)))
  = Metrics.count_samples (fun t _ => t =? i) y_true y_pred.
Proof.
  intros Hall. rewrite row_sum_counts. apply count_samples_ext.
  intros t x Hx. rewrite Forall_forall in Hall.
  rewrite (Hall x) by done. apply andb_true_r.
Qed.

Lemma confusion_matrix_Ok y_true y_pred labels cm :
  Metrics.confusion_matrix y_true y_pred labels = Ok cm ->
  cm = map (fun i =>
              map (fun j => Metrics.count_samples (fun t p => (t =? i) && (p =? j)) y_true y_pred)
                labels)
         labels.
Proof.
  unfold Metrics.confusion_matrix. intros H.
  repeat case_match; simplify_eq; try done.
  match goal with H : bool_decide (_ = []) = true |- _ => apply bool_decide_eq_true in H end.
  by subst.
Qed.

Lemma precision_recall_fscore_support_Ok y_true y_pred labels precision recall f1 support :
  Metrics.precision_recall_fscore_support y_true y_pred labels
  = Ok (precision, recall, f1, support) ->
  let tp i := Metrics.count_samples (fun t p => (t =? i) && (p =? i)) y_true y_pred in
  let pred_sum i := Metrics.count_samples (fun t p => p =? i) y_true y_pred in
  let true_sum i := Metrics.count_samples (fun t p => t =? i) y_true y_pred in
  precision = map (fun i => Metrics.prf_divide (tp i) (pred_sum i)) labels
  /\ recall = map (fun i => Metrics.prf_divide (tp i) (true_sum i)) labels
  /\ f1 = map (fun i => Metrics.prf_divide (2 * tp i) (true_sum i + pred_sum i)) labels
  /\ support = map true_sum labels.
Proof.
  unfold Metrics.precision_recall_fscore_support. intros H.
  case_match; simplify_eq. done.
Qed.

Lemma count_samples_nonneg p y_true y_pred : 0 <= Metrics.count_samples p y_true y_pred.
Proof. unfold Metrics.count_samples. lia. Qed.

Lemma count_samples_le p q y_true y_pred :
  (forall t x, p t x = true -> q t x = true) ->
  Metrics.count_samples p y_true y_pred <= Metrics.count_samples q y_true y_pred.
Proof.
  intros Himpl. revert y_pred.
  induction y_true as [|t ts IH]; intros [|x xs]; try done.
  rewrite !count_samples_cons. specialize (IH xs). unfold indicator. cbn [fst snd].
  destruct (p t x) eqn:Hp; [by rewrite (Himpl _ _ Hp); lia|].
  destruct (q t x); lia.
Qed.

Lemma prf_divide_zero_numerator d : (Metrics.prf_divide 0 d == 0)%Q.
Proof. unfold Metrics.prf_divide. by destruct (d =? 0). Qed.

(** A class without support has no true positive. *)
Lemma true_positives_of_no_support i y_true y_pred :
  Metrics.count_samples (fun t _ => t =? i) y_true y_pred = 0 ->
  Metrics.count_samples (fun t p => (t =? i) && (p =? i)) y_true y_pred = 0.
Proof.
  intros H0.
  pose proof (count_samples_nonneg (fun t p => (t =? i) && (p =? i)) y_true y_pred).
  pose proof (count_samples_le (fun t p => (t =? i) && (p =? i)) (fun t _ => t =? i)
                y_true y_pred) as Hle.
  assert (forall t x : Z, (t =? i) && (x =? i) = true -> (t =? i) = true) as Himpl
    by (by intros t x [? _]%andb_true_iff).
  specialize (Hle Himpl). lia.
Qed.

Lemma elem_of_enumerate {A} (l : list A) i x :
  (i, x) ∈ Metrics.enumerate l <-> l !! i = Some x.
Proof.
  unfold Metrics.enumerate. rewrite list_elem_of_lookup. split.
  - intros [k Hk]. apply lookup_zip_Some in Hk as [Hseq Hx].
    apply lookup_seq in Hseq as [-> _]. done.
  - intros Hx. exists i. apply lookup_zip_Some. split; [|done].
    apply lookup_seq_lt. by apply lookup_lt_Some in Hx.
Qed.

Lemma snd_enumerate {A} (l : list A) : (Metrics.enumerate l).*2 = l.
Proof. unfold Metrics.enumerate. apply snd_zip. by rewrite length_seq. Qed.

(** The dictionary that the loop over the labels fills. *)
Lemma fill_per_class_spec items precision recall f1 support acc per_class :
  Metrics.fill_per_class items precision recall f1 support acc = Ok per_class ->
  (forall label, label ∉ items.*2 -> per_class !! label = acc !! label)
  /\ (forall label, label ∈ items.*2 -> is_Some (per_class !! label))
  /\ (NoDup items.*2 ->
      forall i label, (i, label) ∈ items ->
      exists p r f s,
        precision !! i = Some p /\ recall !! i = Some r /\ f1 !! i = Some f
        /\ support !! i = Some s
        /\ per_class !! label
           = Some {| Metrics.precision := p; Metrics.recall := r;
                     Metrics.f1 := f; Metrics.support := s |}).
Proof.
  revert acc. induction items as [|[i label] rest IH]; intros acc Hfill.
  - cbn in Hfill. simplify_eq. split; [done|]. split.
    + intros label Hin. by apply elem_of_nil in Hin.
    + intros _ i label Hin. by apply elem_of_nil in Hin.
  - cbn [Metrics.fill_per_class] in Hfill. unfold Metrics.at_index in Hfill.
    destruct (precision !! i) as [p|] eqn:Hp; [|done].
    destruct (recall !! i) as [r|] eqn:Hr; [|done].
    destruct (f1 !! i) as [f|] eqn:Hf; [|done].
    destruct (support !! i) as [s|] eqn:Hs; [|done].
    cbn in Hfill. destruct (IH _ Hfill) as (Hout & Hin & Hnodup).
    cbn [fmap list_fmap snd]. split; [|split].
    + intros l Hl. apply not_elem_of_cons in Hl as [Hne Hl].
      rewrite (Hout l Hl). by rewrite lookup_insert_ne.
    + intros l [-> | Hl]%elem_of_cons; [|by apply Hin].
      destruct (decide (label ∈ rest.*2)) as [Hl | Hl]; [by apply Hin|].
      rewrite (Hout label Hl), lookup_insert_eq. by eexists.
    + intros [Hfresh Hnd]%NoDup_cons j l [Heq | Hl]%elem_of_cons.
      * simplify_eq. exists p, r, f, s. repeat (split; [done|]).
        by rewrite (Hout label Hfresh), lookup_insert_eq.
      * by apply Hnodup.
Qed.

Lemma calculate_metrics_Ok env y_true y_pred names m :
  Metrics.calculate_metrics env y_true y_pred names = Ok m ->
  let labels := map Z.of_nat (seq 0 (length names)) in
  exists precision recall f1 support,
    Metrics.precision_recall_fscore_support y_true y_pred labels
    = Ok (precision, recall, f1, support)
    /\ Metrics.confusion_matrix y_true y_pred labels = Ok (Metrics.confusion_matrix_of m)
    /\ Metrics.fill_per_class (Metrics.enumerate names) precision recall f1 support ∅
       = Ok (Metrics.per_class m)
    /\ Metrics.label_names m = names.
Proof.
  unfold Metrics.calculate_metrics. rewrite range_of_nat. intros H.
  destruct (accuracy_score env y_true y_pred) as [acc|]; [|done].
  destruct (f1_score env Macro y_true y_pred) as [fm|]; [|done].
  destruct (f1_score env Weighted y_true y_pred) as [fw|]; [|done].
  cbn in H.
  destruct (Metrics.precision_recall_fscore_support _ _ _)
    as [[[[ps rs] fs] ss]|] eqn:Hprfs; [|done].
  cbn in H.
  destruct (Metrics.confusion_matrix _ _ _) as [cm|] eqn:Hcm; [|done].
  cbn in H.
  destruct (Metrics.fill_per_class _ _ _ _ _ _) as [pc|] eqn:Hfill; [|done].
  cbn in H. unfold mret, result_ret in H. simplify_eq. cbn. by exists ps, rs, fs, ss.
Qed.

Lemma lookup_map {A B} (f : A -> B) (l : list A) (i : nat) :
  map f l !! i = f <$> (l !! i).
Proof. apply (list_lookup_fmap f l i). Qed.

(** C7. In every record that [calculate_metrics] returns, the confusion
    matrix is square of the size of the schema, its entry [i][j] counts the
    samples of true class [i] predicted as class [j], and every label of the
    schema has an entry in [per_class].  When the names of the schema are
    distinct, the entry of the label of index [i] reports as support the
    number of samples of true class [i], it reports precision, recall and F1
    zero when that support is zero, and row [i] of the matrix adds up to
    that support provided that every predicted label is a class id of the
    schema. *)
Theorem calculate_metrics_record (env : Env) (y_true y_pred : list Z) (names : list string)
    (m : Metrics.MetricsRecord)
    (Hm : Metrics.calculate_metrics env y_true y_pred names = Ok m) :
  let n := length names in
  let cm := Metrics.confusion_matrix_of m in
  Metrics.label_names m = names
  /\ length cm = n
  /\ (forall i j, (i < n)%nat -> (j < n)%nat ->
      exists row, cm !! i = Some row /\ length row = n
        /\ row !! j = Some (Metrics.count_samples
                              (fun t p => (t =? Z.of_nat i) && (p =? Z.of_nat j))
                              y_true y_pred))
  /\ (forall label, label ∈ names -> is_Some (Metrics.per_class m !! label))
  /\ (NoDup names ->
      forall i label, names !! i = Some label ->
      exists c row,
        Metrics.per_class m !! label = Some c
        /\ cm !! i = Some row
        /\ Metrics.support c
           = Metrics.count_samples (fun t _ => t =? Z.of_nat i) y_true y_pred
        /\ (Metrics.support c = 0 ->
            (Metrics.precision c == 0)%Q /\ (Metrics.recall c == 0)%Q
            /\ (Metrics.f1 c == 0)%Q)
        /\ (Forall (fun p => in_schema n p = true) y_pred ->
            row_sum row = Metrics.support c)).
Proof.
  intros n cm.
  destruct (calculate_metrics_Ok env y_true y_pred names m Hm)
    as (ps & rs & fs & ss & Hprfs & Hcm & Hfill & Hnames).
  apply confusion_matrix_Ok in Hcm.
  apply precision_recall_fscore_support_Ok in Hprfs as (Hps & Hrs & Hfs & Hss).
  destruct (fill_per_class_spec _ _ _ _ _ _ _ Hfill) as (_ & Hin & Hnodup).
  rewrite snd_enumerate in Hin, Hnodup.
  fold cm in Hcm. fold n in Hcm, Hps, Hrs, Hfs, Hss.
  assert (Hseq : forall i, (i < n)%nat ->
                 map Z.of_nat (seq 0 n) !! i = Some (Z.of_nat i)).
  { intros i Hi.
    by rewrite lookup_map, lookup_seq_lt. }
  assert (Hrow : forall i, (i < n)%nat ->
                 cm !! i
                 = Some (map (fun j => Metrics.count_samples
                                         (fun t p => (t =? Z.of_nat i) && (p =? j))
                                         y_true y_pred)
                           (map Z.of_nat (seq 0 n)))).
  { intros i Hi. by rewrite Hcm, lookup_map, (Hseq i Hi). }
  split; [done|]. split; [by rewrite Hcm, !length_map, length_seq|].
  split; [|split; [done|]].
  - intros i j Hi Hj. eexists. split; [by apply Hrow|].
    split; [by rewrite !length_map, length_seq|].
    by rewrite lookup_map, (Hseq j Hj).
  - intros Hnd i label Hlabel.
    assert (Hi : (i < n)%nat) by (by apply lookup_lt_Some in Hlabel).
    destruct (Hnodup Hnd i label) as (p & r & f & s & Hp & Hr & Hf & Hs & Hentry);
      [by apply elem_of_enumerate|].
    subst ps rs fs ss.
    rewrite lookup_map, (Hseq i Hi) in Hp. rewrite lookup_map, (Hseq i Hi) in Hr.
    rewrite lookup_map, (Hseq i Hi) in Hf. rewrite lookup_map, (Hseq i Hi) in Hs.
    cbn in Hp, Hr, Hf, Hs. simplify_eq.
    eexists _, _. split; [exact Hentry|]. split; [by apply Hrow|].
    cbn [Metrics.support Metrics.precision Metrics.recall Metrics.f1].
    split; [done|]. split.
    + intros Hzero. rewrite (true_positives_of_no_support _ _ _ Hzero).
      repeat split; apply prf_divide_zero_numerator.
    + intros Hall. by apply row_sum_support.
Qed.

(** [calculate_metrics] does return a record when the scores are computed,
    the two label lists are of one length, the schema is not empty and a
    non-empty [y_true] holds a class id of the schema. *)
Lemma fill_per_class_total items precision recall f1 support acc :
  (forall i label, (i, label) ∈ items ->
     (i < length precision)%nat /\ (i < length recall)%nat
     /\ (i < length f1)%nat /\ (i < length support)%nat) ->
  exists per_class,
    Metrics.fill_per_class items precision recall f1 support acc = Ok per_class.
Proof.
  revert acc. induction items as [|[i label] rest IH]; intros acc Hlen; [by eexists|].
  destruct (Hlen i label) as (Hp & Hr & Hf & Hs); [by left|].
  apply lookup_lt_is_Some in Hp as [p Hp]. apply lookup_lt_is_Some in Hr as [r Hr].
  apply lookup_lt_is_Some in Hf as [f Hf]. apply lookup_lt_is_Some in Hs as [s Hs].
  cbn [Metrics.fill_per_class]. unfold Metrics.at_index. rewrite Hp, Hr, Hf, Hs. cbn.
  apply IH. intros j l Hj. apply (Hlen j l). by right.
Qed.

Lemma calculate_metrics_returns env y_true y_pred names acc fm fw :
  accuracy_score env y_true y_pred = Ok acc ->
  f1_score env Macro y_true y_pred = Ok fm ->
  f1_score env Weighted y_true y_pred = Ok fw ->
  length y_true = length y_pred ->
  names <> [] ->
  (y_true = [] \/ exists t, t ∈ y_true /\ in_schema (length names) t = true) ->
  exists m, Metrics.calculate_metrics env y_true y_pred names = Ok m.
Proof.
  intros Hacc Hfm Hfw Hlen Hnames Htrue.
  unfold Metrics.calculate_metrics. rewrite Hacc, Hfm, Hfw, range_of_nat. cbn.
  unfold Metrics.precision_recall_fscore_support, Metrics.confusion_matrix.
  rewrite Hlen, Nat.eqb_refl. cbn.
  assert (Hl : map Z.of_nat (seq 0 (length names)) <> []) by (by destruct names).
  rewrite (bool_decide_eq_false_2 _ Hl).
  set (labels := map Z.of_nat (seq 0 (length names))) in *.
  assert (Hfill : forall ps rs fs (ss : list Z),
             length ps = length names -> length rs = length names ->
             length fs = length names -> length ss = length names ->
             exists pc, Metrics.fill_per_class (Metrics.enumerate names) ps rs fs ss ∅ = Ok pc).
  { intros ps rs fs ss H1 H2 H3 H4. apply fill_per_class_total.
    intros i label Hi%elem_of_enumerate%lookup_lt_Some. lia. }
  assert (Hlabels : length labels = length names)
    by (unfold labels; by rewrite length_map, length_seq).
  destruct (Hfill
    (map (fun i => Metrics.prf_divide
                     (Metrics.count_samples (fun t p => (t =? i) && (p =? i)) y_true y_pred)
                     (Metrics.count_samples (fun _ p => p =? i) y_true y_pred)) labels)
    (map (fun i => Metrics.prf_divide
                     (Metrics.count_samples (fun t p => (t =? i) && (p =? i)) y_true y_pred)
                     (Metrics.count_samples (fun t _ => t =? i) y_true y_pred)) labels)
    (map (fun i => Metrics.prf_divide
                     (2 * Metrics.count_samples (fun t p => (t =? i) && (p =? i)) y_true y_pred)
                     (Metrics.count_samples (fun t _ => t =? i) y_true y_pred
                      + Metrics.count_samples (fun _ p => p =? i) y_true y_pred)) labels)
    (map (fun i => Metrics.count_samples (fun t _ => t =? i) y_true y_pred) labels))
    as [pc Hpc]; try (by rewrite length_map).
  destruct Htrue as [-> | (t & Ht & Hschema)].
  - cbn. cbn in Hpc. rewrite Hpc. by eexists.
  - rewrite bool_decide_eq_false_2 by (intros ->; by apply elem_of_nil in Ht).
    assert (Hsome : forallb (fun t => negb (bool_decide (t ∈ labels))) y_true = false).
    { apply not_true_iff_false. intros Hall. rewrite forallb_forall in Hall.
      specialize (Hall t). rewrite <- list_elem_of_In in Hall. specialize (Hall Ht).
      apply negb_true_iff, bool_decide_eq_false in Hall. apply Hall.
      unfold in_schema in Hschema. apply andb_true_iff in Hschema as [H0 H1].
      apply Z.leb_le in H0. apply Z.ltb_lt in H1.
      unfold labels. apply list_elem_of_In, in_map_iff. exists (Z.to_nat t).
      split; [lia|]. apply in_seq. lia. }
    rewrite Hsome. cbn. rewrite Hpc. by eexists.
Qed.

(** Four samples over the schema of the corpus. *)
Lemma calculate_metrics_record_witness :
  exists m,
    Metrics.calculate_metrics example_env [0; 1; 1; 3] [0; 1; 2; 3] default_label_names = Ok m
    /\ Metrics.label_names m = default_label_names
    /\ length (Metrics.confusion_matrix_of m) = 4%nat
    /\ is_Some (Metrics.per_class m !! "Business").
Proof.
  assert (Hm : exists m, Metrics.calculate_metrics example_env [0; 1; 1; 3] [0; 1; 2; 3]
                           default_label_names = Ok m)
    by (eexists; vm_compute; reflexivity).
  destruct Hm as [m Hm]. exists m. split; [exact Hm|].
  destruct (calculate_metrics_record example_env [0; 1; 1; 3] [0; 1; 2; 3]
              default_label_names m Hm) as (Hnames & Hlen & _ & Hin & _).
  split; [exact Hnames|]. split; [exact Hlen|].
  apply Hin. apply elem_of_cons. right. apply elem_of_cons. right.
  apply elem_of_cons. left. reflexivity.
Defined.

(** C7, as stated, fails: one sample of true class 0 is predicted as class
    5, which the schema of four labels does not hold; the record reports
    support 1 for "World" while row 0 of the matrix adds up to 0. *)
Lemma calculate_metrics_row_sum_counterexample :
  exists m c row,
    Metrics.calculate_metrics example_env [0] [5] default_label_names = Ok m
    /\ Metrics.per_class m !! "World" = Some c
    /\ Metrics.confusion_matrix_of m !! 0%nat = Some row
    /\ Metrics.support c = 1
    /\ row_sum row = 0.
Proof.
  eexists _, _, _. split; [vm_compute; reflexivity|].
  split; [vm_compute; reflexivity|]. split; [vm_compute; reflexivity|].
  split; vm_compute; reflexivity.
Qed.

(** With a label name that occurs twice, the entry of the name is that of
    its last index: row 0 adds up to 1, the support reported for "A" is 0. *)
Example calculate_metrics_duplicate_names :
  exists m c row,
    Metrics.calculate_metrics example_env [0] [0] ["A"; "A"] = Ok m
    /\ Metrics.per_class m !! "A" = Some c
    /\ Metrics.confusion_matrix_of m !! 0%nat = Some row
    /\ Metrics.support c = 0
    /\ row_sum row = 1.
Proof.
  eexists _, _, _. split; [vm_compute; reflexivity|].
  split; [vm_compute; reflexivity|]. split; [vm_compute; reflexivity|].
  split; vm_compute; reflexivity.
Qed.

(** * Further properties of the code *)

(** ** Names of artifacts *)

Lemma append_inj_l p s t : (p ++ s)%string = (p ++ t)%string -> s = t.
Proof.
  induction p as [|c p IH]; [done|].
  change (String c (p ++ s)%string = String c (p ++ t)%string -> s = t).
  intros [= H]. by apply IH.
Qed.

Lemma append_sep_inj c s s' t t' :
  all_chars (differs c) s = true -> all_chars (differs c) s' = true ->
  (s ++ String c t)%string = (s' ++ String c t')%string -> s = s'.
Proof.
  revert s'. induction s as [|a s IH]; intros [|a' s'] Hs Hs'.
  - done.
  - change (String c t = String a' (s' ++ String c t')%string -> "" = String a' s').
    intros [= -> _]. cbn in Hs'. unfold differs in Hs'.
    by rewrite Ascii.eqb_refl in Hs'.
  - change (String a (s ++ String c t)%string = String c t' -> String a s = "").
    intros [= -> _]. cbn in Hs. unfold differs in Hs.
    by rewrite Ascii.eqb_refl in Hs.
  - change (String a (s ++ String c t)%string = String a' (s' ++ String c t')%string
            -> String a s = String a' s').
    intros [= -> H]. cbn in Hs, Hs'.
    apply andb_true_iff in Hs as [_ Hs]. apply andb_true_iff in Hs' as [_ Hs'].
    f_equal. by apply IH.
Qed.

Lemma str_of_int_inj n n' : PyStr.str_of_int n = PyStr.str_of_int n' -> n = n'.
Proof.
  intros H. pose proof (int_of_str_of_int n) as Hn.
  rewrite H, int_of_str_of_int in Hn. by injection Hn.
Qed.

Lemma versioned_name_inj prefix c suffix n n' :
  is_digit c = false -> c <> "-"%char ->
  (prefix ++ PyStr.str_of_int n ++ String c suffix)%string
  = (prefix ++ PyStr.str_of_int n' ++ String c suffix)%string ->
  n = n'.
Proof.
  intros Hd Hm H. apply append_inj_l in H.
  apply append_sep_inj in H; [by apply str_of_int_inj| |]; by apply str_of_int_differs.
Qed.

Lemma model_file_inj v v' : model_file v = model_file v' -> v = v'.
Proof. by apply (versioned_name_inj "model_v" "." "joblib"). Qed.

Lemma vectorizer_file_inj v v' : vectorizer_file v = vectorizer_file v' -> v = v'.
Proof. by apply (versioned_name_inj "vectorizer_v" "." "joblib"). Qed.

Lemma metrics_file_inj v v' : metrics_file v = metrics_file v' -> v = v'.
Proof. by apply (versioned_name_inj "metrics_v" "." "json"). Qed.

Lemma version_of_metrics_file v : version_of_filename (metrics_file v) = None.
Proof.
  unfold version_of_filename, metrics_file, PyStr.startswith.
  change ("metrics_v" ++ ?x)%string with (String "m" (String "e" ("trics_v" ++ x)%string)).
  assert (H : String.prefix "model_v" (String "m" (String "e"
                ("trics_v" ++ PyStr.str_of_int v ++ ".json")%string)) = false).
  { reflexivity. }
  by rewrite H.
Qed.

(** X1. The file name of a classifier of version [n] is read back as [n] by
    the scan of both [get_current_model_version] functions, and the other
    files the system writes (vectorizers, metrics, the pointer, the label
    names) are read as no version. *)
Theorem scan_reads_classifier_files_only (n : Z) :
  version_of_filename (model_file n) = Some n
  /\ version_of_filename (vectorizer_file n) = None
  /\ version_of_filename (metrics_file n) = None
  /\ version_of_filename pointer_file = None
  /\ version_of_filename "label_names.json" = None
  /\ (forall m f,
      scan_versions (<[model_file n := f]> (∅ : gmap string file)) = [n]
      /\ (no_model_file m -> no_model_file (<[vectorizer_file n := f]> m))).
Proof.
  split; [apply version_of_model_file|].
  split; [apply version_of_vectorizer_file|].
  split; [apply version_of_metrics_file|].
  split; [reflexivity|]. split; [reflexivity|].
  intros m f. split.
  - unfold scan_versions. rewrite insert_empty, map_to_list_singleton. cbn.
    by rewrite version_of_model_file.
  - intros Hm name [g Hg]. destruct (decide (name = vectorizer_file n)) as [->|Hne].
    + apply version_of_vectorizer_file.
    + rewrite lookup_insert_ne in Hg by done. apply Hm. by eexists.
Qed.

(** ** What a retraining run leaves as it was *)

Lemma commit_frame env v model vectorizer metrics w :
  let c := commit env v model vectorizer metrics w in
  feedback_dir (final c) = feedback_dir w
  /\ (forall name, name <> model_file v -> name <> vectorizer_file v ->
      name <> pointer_file -> models_dir (final c) !! name = models_dir w !! name)
  /\ (forall name, name <> metrics_file v ->
      metrics_dir (final c) !! name = metrics_dir w !! name).
Proof.
  unfold commit. unfold_io. unfold_monad. cbn.
  run_cases; (split; [reflexivity|]); split; intros name; intros;
    by rewrite ?lookup_insert_ne.
Qed.

Lemma main_final env fw w :
  final (Retrain.main env fw w) = w
  \/ exists model vectorizer metrics,
      outcome (stages_before_commit env fw w)
      = Ok (Some (Retrain.get_current_model_version w, (model, vectorizer, metrics)))
      /\ final (Retrain.main env fw w)
         = final (commit env (Retrain.get_current_model_version w + 1)
                    model vectorizer metrics w).
Proof.
  pose proof (main_run env fw w) as H.
  destruct (outcome (stages_before_commit env fw w)) as [[[cur [[model vectorizer] metrics]]|]|e]
    eqn:Hs.
  - destruct H as (-> & _ & _ & Hf & _). right. by exists model, vectorizer, metrics.
  - destruct H as [_ ->]. by left.
  - rewrite H. by left.
Qed.

(** X2. A retraining run, whatever its outcome, leaves the feedback store
    as it was, and changes no file other than the classifier, the
    vectorizer and the metrics of the next version and the pointer: the
    artifacts and metrics of every other version, and the label names, are
    what they were. *)
Theorem retraining_keeps_other_versions (env : Env) (feedback_weight : pyval) (w : World) :
  let run := Retrain.main env feedback_weight w in
  let next_version := Retrain.get_current_model_version w + 1 in
  feedback_dir (final run) = feedback_dir w
  /\ (forall name, name <> model_file next_version -> name <> vectorizer_file next_version ->
      name <> pointer_file -> models_dir (final run) !! name = models_dir w !! name)
  /\ (forall name, name <> metrics_file next_version ->
      metrics_dir (final run) !! name = metrics_dir w !! name)
  /\ (forall v, v <> next_version ->
      models_dir (final run) !! model_file v = models_dir w !! model_file v
      /\ models_dir (final run) !! vectorizer_file v = models_dir w !! vectorizer_file v
      /\ metrics_dir (final run) !! metrics_file v = metrics_dir w !! metrics_file v)
  /\ models_dir (final run) !! "label_names.json" = models_dir w !! "label_names.json".
Proof.
  intros run next_version.
  assert (Hframe :
    feedback_dir (final run) = feedback_dir w
    /\ (forall name, name <> model_file next_version -> name <> vectorizer_file next_version ->
        name <> pointer_file -> models_dir (final run) !! name = models_dir w !! name)
    /\ (forall name, name <> metrics_file next_version ->
        metrics_dir (final run) !! name = metrics_dir w !! name)).
  { destruct (main_final env feedback_weight w) as [H|(model & vectorizer & metrics & _ & H)];
      subst run; rewrite H; [done|]. apply commit_frame. }
  destruct Hframe as (Hfeedback & Hmodels & Hmetrics).
  split; [done|]. split; [done|]. split; [done|]. split.
  - intros v Hv. split; [|split].
    + apply Hmodels.
      * intros H. by apply model_file_inj in H.
      * apply model_file_not_vectorizer.
      * apply model_file_not_pointer.
    + apply Hmodels.
      * intros H. symmetry in H. by apply model_file_not_vectorizer in H.
      * intros H. by apply vectorizer_file_inj in H.
      * apply vectorizer_file_not_pointer.
    + apply Hmetrics. intros H. by apply metrics_file_inj in H.
  - apply Hmodels; unfold model_file, vectorizer_file, pointer_file; discriminate.
Qed.

(** X3. A retraining run that succeeds from a registry whose highest
    version is [current_version] leaves the four committed files on the
    disk, and afterwards both resolvers, the one of the retraining pipeline
    and the one of the serving layer, answer [current_version + 1]. *)
Theorem retraining_advances_version (env : Env) (feedback_weight : pyval) (w : World)
    (Hbaseline : Retrain.get_current_model_version w <> 0)
    (Hok : is_ok (outcome (Retrain.main env feedback_weight w)) = true) :
  let run := Retrain.main env feedback_weight w in
  let next_version := Retrain.get_current_model_version w + 1 in
  Retrain.get_current_model_version (final run) = next_version
  /\ Api.get_current_model_version (final run) = Ok (Some next_version)
  /\ exists model vectorizer metrics,
      outcome (stages_before_commit env feedback_weight w)
      = Ok (Some (Retrain.get_current_model_version w, (model, vectorizer, metrics)))
      /\ final run = committed w next_version model vectorizer metrics.
Proof.
  intros run next_version.
  pose proof (main_run env feedback_weight w) as H.
  destruct (outcome (stages_before_commit env feedback_weight w))
    as [[[cur [[model vectorizer] metrics]]|]|e] eqn:Hs.
  - destruct H as (-> & _ & _ & Hf & Hc & _). specialize (Hc Hok).
    apply commit_succeeds_inv in Hc as (H1 & H2 & H3 & H4).
    rewrite (commit_complete _ _ _ _ _ _ H1 H2 H3 H4) in Hf. cbn in Hf.
    subst run. rewrite Hf.
    assert (Hhigh : highest_version
                      (models_dir (committed w next_version model vectorizer metrics))
                      next_version).
    { apply committed_highest_version. intros name u Hname Hu.
      destruct (retrain_version_cases w) as [[Hnone _]|[_ Hle]].
      - by rewrite (Hnone name Hname) in Hu.
      - specialize (Hle name u Hname Hu). subst next_version. lia. }
    subst next_version. split; [|split].
    + apply scan_versions_max_Some in Hhigh.
      unfold Retrain.get_current_model_version at 1. by rewrite Hhigh.
    + apply api_version_of_pointer. cbn. by rewrite lookup_insert_eq.
    + by exists model, vectorizer, metrics.
  - by destruct H as [H _].
  - rewrite H in Hok. done.
Qed.

Lemma retraining_advances_version_witness :
  Retrain.get_current_model_version baseline_disk <> 0
  /\ is_ok (outcome (Retrain.main example_env (PFloat (FFinite 1)) baseline_disk)) = true
  /\ Retrain.get_current_model_version
       (final (Retrain.main example_env (PFloat (FFinite 1)) baseline_disk)) = 2
  /\ Api.get_current_model_version
       (final (Retrain.main example_env (PFloat (FFinite 1)) baseline_disk)) = Ok (Some 2).
Proof.
  assert (Hb : Retrain.get_current_model_version baseline_disk <> 0) by (vm_compute; discriminate).
  assert (Hok : is_ok (outcome (Retrain.main example_env (PFloat (FFinite 1)) baseline_disk))
                = true) by (vm_compute; reflexivity).
  split; [exact Hb|]. split; [exact Hok|].
  pose proof (retraining_advances_version example_env (PFloat (FFinite 1)) baseline_disk Hb Hok)
    as (H1 & H2 & _).
  split; [exact H1|exact H2].
Defined.

(** ** The metrics store *)

Lemma save_metrics_run env m v w :
  writable env Metrics (metrics_file v) = true ->
  Metrics.save_metrics env m v w
  = (Ok tt,
     {| models_dir := models_dir w; feedback_dir := feedback_dir w;
        metrics_dir := <[metrics_file v := Json (Metrics.to_json m)]> (metrics_dir w) |},
     [EvJsonDump Metrics (metrics_file v)]).
Proof. intros H. unfold_io. unfold_monad. cbn. by rewrite H. Qed.

Lemma load_metrics_run v w :
  Metrics.load_metrics v w
  = (match metrics_dir w !! metrics_file v with
     | None => Ok None
     | Some (Json j) => Ok (Some j)
     | Some _ => Raise JSONDecodeError
     end, w, []).
Proof.
  unfold_io. unfold_monad. cbn.
  destruct (metrics_dir w !! metrics_file v) as [[a|s|j]|] eqn:H; cbn; try rewrite H;
    try reflexivity;
    rewrite bool_decide_eq_true_2 by (by eexists); cbn; by rewrite H.
Qed.

(** X4. Metrics saved for a version are read back as the JSON document of
    the record; the metrics of every other version read as before, a
    version without a metrics file reads as [None], and reading changes
    nothing. *)
Theorem save_then_load_metrics (env : Env) (m : Metrics.MetricsRecord) (v : Z) (w : World)
    (Hwritable : writable env Metrics (metrics_file v) = true) :
  let w' := final (Metrics.save_metrics env m v w) in
  outcome (Metrics.save_metrics env m v w) = Ok tt
  /\ Metrics.load_metrics v w' = (Ok (Some (Metrics.to_json m)), w', [])
  /\ (forall v', v' <> v -> Metrics.load_metrics v' w' = (outcome (Metrics.load_metrics v' w), w', []))
  /\ (forall v', metrics_dir w' !! metrics_file v' = None ->
      Metrics.load_metrics v' w' = (Ok None, w', []))
  /\ models_dir w' = models_dir w /\ feedback_dir w' = feedback_dir w.
Proof.
  intros w'. subst w'. rewrite (save_metrics_run _ _ _ _ Hwritable). cbn.
  split; [done|]. split; [|split; [|split]].
  - rewrite load_metrics_run. cbn. by rewrite lookup_insert_eq.
  - intros v' Hv'. rewrite !load_metrics_run. cbn.
    rewrite lookup_insert_ne; [done|]. intros H. by apply metrics_file_inj in H.
  - intros v' H. rewrite load_metrics_run. cbn. by rewrite H.
  - done.
Qed.

Lemma save_then_load_metrics_witness :
  exists m,
    Metrics.calculate_metrics example_env [0; 1] [0; 1] default_label_names = Ok m
    /\ writable example_env Metrics (metrics_file 3) = true
    /\ outcome (Metrics.load_metrics 3 (final (Metrics.save_metrics example_env m 3 empty_world)))
       = Ok (Some (Metrics.to_json m)).
Proof.
  assert (Hm : exists m, Metrics.calculate_metrics example_env [0; 1] [0; 1] default_label_names
                         = Ok m) by (eexists; vm_compute; reflexivity).
  destruct Hm as [m Hm]. exists m. split; [exact Hm|]. split; [reflexivity|].
  pose proof (save_then_load_metrics example_env m 3 empty_world eq_refl) as (_ & H & _).
  by rewrite H.
Defined.

Lemma get_metrics_run v w :
  Api.get_metrics (Some v) w
  = (match metrics_dir w !! metrics_file v with
     | None =>
         Raise (HTTPException 404 ("Metrics for v" ++ PyStr.str_of_int v ++ " not found"))
     | Some (Json j) =>
         Ok (PDict [("version", PStr ("v" ++ PyStr.str_of_int v)); ("metrics", j)])
     | Some _ => Raise JSONDecodeError
     end, w, []).
Proof.
  unfold Api.get_metrics. unfold_io. unfold_monad. cbn.
  destruct (metrics_dir w !! metrics_file v) as [[a|s|j]|] eqn:H; cbn; try rewrite H;
    try reflexivity;
    rewrite bool_decide_eq_true_2 by (by eexists); cbn; by rewrite H.
Qed.

Lemma get_metrics_current w :
  Api.get_metrics None w
  = match Api.get_current_model_version w with
    | Ok (Some v) => Api.get_metrics (Some v) w
    | Ok None => (Raise (HTTPException 404 "No model found"), w, [])
    | Raise e => (Raise e, w, [])
    end.
Proof.
  unfold Api.get_metrics. unfold_io. unfold_monad. cbn.
  by destruct (Api.get_current_model_version w) as [[v|]|e].
Qed.

(** X5. The metrics endpoint answers a request for a version with what
    [save_metrics] stored for it, under the version's name; a request for
    a version without stored metrics is answered with status 404, and so is
    a request for the current version when no version is registered. The
    endpoint changes nothing. *)
Theorem get_metrics_serves_saved (env : Env) (m : Metrics.MetricsRecord) (v : Z) (w : World)
    (Hwritable : writable env Metrics (metrics_file v) = true) :
  let w' := final (Metrics.save_metrics env m v w) in
  Api.get_metrics (Some v) w'
  = (Ok (PDict [("version", PStr ("v" ++ PyStr.str_of_int v));
                ("metrics", Metrics.to_json m)]), w', [])
  /\ (forall v', v' <> v -> metrics_dir w !! metrics_file v' = None ->
      Api.get_metrics (Some v') w'
      = (Raise (HTTPException 404 ("Metrics for v" ++ PyStr.str_of_int v' ++ " not found")),
         w', []))
  /\ (models_dir w !! pointer_file = None -> no_model_file (models_dir w) ->
      Api.get_metrics None w' = (Raise (HTTPException 404 "No model found"), w', []))
  /\ (models_dir w !! pointer_file = Some (Text (PyStr.str_of_int v)) ->
      Api.get_metrics None w' = Api.get_metrics (Some v) w').
Proof.
  intros w'. subst w'. rewrite (save_metrics_run _ _ _ _ Hwritable).
  unfold final. cbn [fst snd].
  split; [|split; [|split]].
  - rewrite get_metrics_run. cbn. by rewrite lookup_insert_eq.
  - intros v' Hv' Hnone. rewrite get_metrics_run. cbn.
    rewrite lookup_insert_ne by (intros H; by apply metrics_file_inj in H).
    by rewrite Hnone.
  - intros Hp Hnone. rewrite get_metrics_current.
    rewrite api_version_without_pointer by done. cbn.
    apply scan_versions_max_None in Hnone. by rewrite Hnone.
  - intros Hp. rewrite get_metrics_current.
    by rewrite (api_version_of_pointer _ v) by done.
Qed.

Lemma get_metrics_serves_saved_witness :
  exists m,
    Metrics.calculate_metrics example_env [0; 1] [0; 1] default_label_names = Ok m
    /\ writable example_env Metrics (metrics_file 1) = true
    /\ outcome (Api.get_metrics (Some 1)
                  (final (Metrics.save_metrics example_env m 1 baseline_disk)))
       = Ok (PDict [("version", PStr "v1"); ("metrics", Metrics.to_json m)])
    /\ outcome (Api.get_metrics (Some 99)
                  (final (Metrics.save_metrics example_env m 1 baseline_disk)))
       = Raise (HTTPException 404 "Metrics for v99 not found").
Proof.
  assert (Hm : exists m, Metrics.calculate_metrics example_env [0; 1] [0; 1] default_label_names
                         = Ok m) by (eexists; vm_compute; reflexivity).
  destruct Hm as [m Hm]. exists m. split; [exact Hm|]. split; [reflexivity|].
  pose proof (get_metrics_serves_saved example_env m 1 baseline_disk eq_refl) as (H1 & H2 & _).
  split; [by rewrite H1|].
  by rewrite (H2 99) by done.
Defined.

Lemma get_model_version_run w :
  Api.get_model_version w
  = (match Api.get_current_model_version w with
     | Ok (Some v) =>
         Ok (PDict [("version", PStr ("v" ++ PyStr.str_of_int v)); ("version_number", PInt v)])
     | Ok None => Raise (HTTPException 404 "No model found")
     | Raise e => Raise e
     end, w, []).
Proof.
  unfold Api.get_model_version. unfold_monad. cbn.
  by destruct (Api.get_current_model_version w) as [[v|]|e].
Qed.

(** X6. After a retraining run that succeeds, the serving layer reports the
    new version as the current one, and its metrics endpoint, asked for the
    current version, answers with the metrics that the run computed for the
    new classifier. *)
Theorem retrained_version_is_served (env : Env) (feedback_weight : pyval) (w : World)
    (Hbaseline : Retrain.get_current_model_version w <> 0)
    (Hok : is_ok (outcome (Retrain.main env feedback_weight w)) = true) :
  let w' := final (Retrain.main env feedback_weight w) in
  let next_version := Retrain.get_current_model_version w + 1 in
  Api.get_model_version w'
  = (Ok (PDict [("version", PStr ("v" ++ PyStr.str_of_int next_version));
                ("version_number", PInt next_version)]), w', [])
  /\ exists model vectorizer metrics,
      outcome (stages_before_commit env feedback_weight w)
      = Ok (Some (Retrain.get_current_model_version w, (model, vectorizer, metrics)))
      /\ Api.get_metrics None w'
         = (Ok (PDict [("version", PStr ("v" ++ PyStr.str_of_int next_version));
                       ("metrics", Metrics.to_json metrics)]), w', []).
Proof.
  intros w' next_version.
  pose proof (main_run env feedback_weight w) as H.
  destruct (outcome (stages_before_commit env feedback_weight w))
    as [[[cur [[model vectorizer] metrics]]|]|e] eqn:Hs.
  - destruct H as (-> & _ & _ & Hf & Hc & _). specialize (Hc Hok).
    apply commit_succeeds_inv in Hc as (H1 & H2 & H3 & H4).
    rewrite (commit_complete _ _ _ _ _ _ H1 H2 H3 H4) in Hf. cbn in Hf.
    subst w' next_version. rewrite Hf.
    assert (Hv : Api.get_current_model_version
                   (committed w (Retrain.get_current_model_version w + 1)
                      model vectorizer metrics)
                 = Ok (Some (Retrain.get_current_model_version w + 1))).
    { apply api_version_of_pointer. cbn. by rewrite lookup_insert_eq. }
    split.
    + rewrite get_model_version_run. by rewrite Hv.
    + exists model, vectorizer, metrics. split; [done|].
      rewrite get_metrics_current, Hv, get_metrics_run. cbn.
      by rewrite lookup_insert_eq.
  - by destruct H as [H _].
  - rewrite H in Hok. done.
Qed.

Lemma retrained_version_is_served_witness :
  Retrain.get_current_model_version baseline_disk <> 0
  /\ is_ok (outcome (Retrain.main example_env (PFloat (FFinite 1)) baseline_disk)) = true
  /\ outcome (Api.get_model_version
                (final (Retrain.main example_env (PFloat (FFinite 1)) baseline_disk)))
     = Ok (PDict [("version", PStr "v2"); ("version_number", PInt 2)]).
Proof.
  assert (Hb : Retrain.get_current_model_version baseline_disk <> 0) by (vm_compute; discriminate).
  assert (Hok : is_ok (outcome (Retrain.main example_env (PFloat (FFinite 1)) baseline_disk))
                = true) by (vm_compute; reflexivity).
  split; [exact Hb|]. split; [exact Hok|].
  pose proof (retrained_version_is_served example_env (PFloat (FFinite 1)) baseline_disk Hb Hok)
    as (H1 & _).
  by rewrite H1.
Defined.

(** ** Comparing versions *)

Lemma subscript_to_json m :
  Retrain.subscript (Metrics.to_json m) "accuracy" = Ok (PFloat (Metrics.accuracy m))
  /\ Retrain.subscript (Metrics.to_json m) "f1_macro" = Ok (PFloat (Metrics.f1_macro m))
  /\ Retrain.subscript (Metrics.to_json m) "f1_weighted" = Ok (PFloat (Metrics.f1_weighted m)).
Proof.
  unfold Retrain.subscript, Metrics.to_json. cbn.
  repeat split; rewrite bool_decide_eq_true_2; try done;
    repeat (apply elem_of_cons; first [left; reflexivity | right]).
Qed.

Lemma dict_set_fresh d key v : key ∉ d.*1 -> dict_set d key v = d ++ [(key, v)].
Proof.
  induction d as [|[k x] d IH]; [done|]. cbn. intros H.
  apply not_elem_of_cons in H as [Hne Hd].
  destruct (String.eqb_spec k key) as [->|_]; [done|]. by rewrite IH.
Qed.

Lemma comparison_key_inj v v' : comparison_key v = comparison_key v' -> v = v'.
Proof. intros H. apply append_inj_l in H. by apply str_of_int_inj. Qed.

Lemma compare_loop_saved (saved : Z -> Metrics.MetricsRecord) versions acc w :
  NoDup versions ->
  (forall v, v ∈ versions -> comparison_key v ∉ acc.*1) ->
  (forall v, v ∈ versions ->
     metrics_dir w !! metrics_file v = None
     \/ metrics_dir w !! metrics_file v = Some (Json (Metrics.to_json (saved v)))) ->
  compare_loop versions acc w
  = (Ok (acc ++ map (fun v => (comparison_key v, scores_of (saved v)))
                  (filter (fun v => is_Some (metrics_dir w !! metrics_file v)) versions)),
     w, []).
Proof.
  revert acc. induction versions as [|v rest IH]; intros acc Hnodup Hacc Hfiles.
  { cbn. by rewrite app_nil_r. }
  apply NoDup_cons in Hnodup as [Hv Hnodup].
  cbn [compare_loop]. rewrite bind_run, load_metrics_run.
  destruct (Hfiles v) as [Hfile|Hfile]; [apply elem_of_cons; by left| |]; rewrite Hfile.
  - rewrite IH; [|done| |].
    + rewrite filter_cons_False; [done|]. rewrite Hfile. by intros [? ?].
    + intros v' Hv'. apply Hacc. apply elem_of_cons. by right.
    + intros v' Hv'. apply Hfiles. apply elem_of_cons. by right.
  - destruct (subscript_to_json (saved v)) as (Ha & Hm & Hw).
    change (Py.truthy (Metrics.to_json (saved v))) with true. cbn match.
    rewrite !bind_run. unfold lift_result. rewrite Ha.
    rewrite !bind_run. rewrite Hm. rewrite !bind_run. rewrite Hw.
    rewrite dict_set_fresh by (apply Hacc, elem_of_cons; by left).
    rewrite IH; [|done| |].
    + rewrite filter_cons_True by (rewrite Hfile; by eexists).
      cbn. by rewrite <- app_assoc.
    + intros v' Hv'. rewrite fmap_app. intros Hin. apply elem_of_app in Hin as [Hin|Hin].
      * revert Hin. apply Hacc. apply elem_of_cons. by right.
      * cbn in Hin. apply list_elem_of_singleton in Hin.
        apply comparison_key_inj in Hin. by subst.
    + intros v' Hv'. apply Hfiles. apply elem_of_cons. by right.
Qed.

Lemma compare_loop_read_only versions acc w :
  final (compare_loop versions acc w) = w /\ trace (compare_loop versions acc w) = [].
Proof.
  revert acc. induction versions as [|v rest IH]; intros acc; [done|].
  cbn [compare_loop]. rewrite bind_run, load_metrics_run.
  destruct (metrics_dir w !! metrics_file v) as [[a|s|j]|]; try done.
  - destruct (Py.truthy j).
    + rewrite !bind_run. unfold lift_result.
      destruct (Retrain.subscript j "accuracy"); [|done]. rewrite !bind_run.
      destruct (Retrain.subscript j "f1_macro"); [|done]. rewrite !bind_run.
      destruct (Retrain.subscript j "f1_weighted"); [|done].
      match goal with |- context [compare_loop rest ?a w] => specialize (IH a) end.
      destruct (compare_loop rest _ w) as [[r s] t]. cbn in *. by destruct IH as [-> ->].
    + specialize (IH acc). destruct (compare_loop rest _ w) as [[r s] t]. cbn in *.
      by destruct IH as [-> ->].
  - specialize (IH acc). destruct (compare_loop rest _ w) as [[r s] t]. cbn in *.
    by destruct IH as [-> ->].
Qed.

(** X7. [compare_models] over distinct versions, on a disk where the
    metrics of a version are either absent or those that [save_metrics]
    stored: the comparison has one entry per version with stored metrics,
    in the order of the versions, named [v<version>] and holding the
    accuracy and the two F1 scores of that version; a version without
    metrics is left out without an error, and no version with metrics gives
    the empty comparison. The function only reads. *)
Theorem compare_models_saved (saved : Z -> Metrics.MetricsRecord) (versions : list Z)
    (w : World)
    (Hdistinct : NoDup versions)
    (Hfiles : forall v, v ∈ versions ->
       metrics_dir w !! metrics_file v = None
       \/ metrics_dir w !! metrics_file v = Some (Json (Metrics.to_json (saved v)))) :
  compare_models versions w
  = (Ok (map (fun v => (comparison_key v, scores_of (saved v)))
           (filter (fun v => is_Some (metrics_dir w !! metrics_file v)) versions)),
     w, [])
  /\ ((forall v, v ∈ versions -> metrics_dir w !! metrics_file v = None) ->
      compare_models versions w = (Ok [], w, [])).
Proof.
  assert (H : compare_models versions w
              = (Ok (map (fun v => (comparison_key v, scores_of (saved v)))
                       (filter (fun v => is_Some (metrics_dir w !! metrics_file v)) versions)),
                 w, [])).
  { unfold compare_models. rewrite (compare_loop_saved saved); try done.
    intros v _. apply not_elem_of_nil. }
  split; [exact H|]. intros Hnone. rewrite H.
  assert (Hfilter : filter (fun v => is_Some (metrics_dir w !! metrics_file v)) versions = []).
  { clear H Hfiles Hdistinct. induction versions as [|v rest IH]; [done|].
    rewrite filter_cons_False.
    - apply IH. intros v' Hv'. apply Hnone. apply elem_of_cons. by right.
    - rewrite Hnone by (apply elem_of_cons; by left). by intros [? ?]. }
  by rewrite Hfilter.
Qed.

Lemma compare_models_saved_witness :
  exists m,
    Metrics.calculate_metrics example_env [0; 1] [0; 1] default_label_names = Ok m
    /\ outcome (compare_models [1; 2; 3]
                  (final (Metrics.save_metrics example_env m 3
                            (final (Metrics.save_metrics example_env m 1 empty_world)))))
       = Ok [("v1", scores_of m); ("v3", scores_of m)].
Proof.
  assert (Hm : exists m, Metrics.calculate_metrics example_env [0; 1] [0; 1] default_label_names
                         = Ok m) by (eexists; vm_compute; reflexivity).
  destruct Hm as [m Hm]. exists m. split; [exact Hm|].
  set (w := final (Metrics.save_metrics example_env m 3
                     (final (Metrics.save_metrics example_env m 1 empty_world)))).
  assert (Hdistinct : NoDup [1; 2; 3]) by (apply (bool_decide_unpack _); by vm_compute).
  assert (Hfiles : forall v, v ∈ [1; 2; 3] ->
            metrics_dir w !! metrics_file v = None
            \/ metrics_dir w !! metrics_file v = Some (Json (Metrics.to_json m))).
  { intros v Hv. repeat (apply elem_of_cons in Hv as [->|Hv]); [| |by right|];
      [by right|by left|by apply elem_of_nil in Hv]. }
  pose proof (compare_models_saved (fun _ => m) [1; 2; 3] w Hdistinct Hfiles) as [H _].
  rewrite H. reflexivity.
Defined.

(** X8. [compare_models] never writes and never changes the disk, whatever
    the files of the metrics directory hold and however it ends. *)
Theorem compare_models_read_only (versions : list Z) (w : World) :
  final (compare_models versions w) = w /\ trace (compare_models versions w) = [].
Proof. apply compare_loop_read_only. Qed.

(** ** The feedback store *)

Lemma submit_feedback_cases env request w :
  let r := Api.submit_feedback env request w in
  (is_ok (outcome r) = false /\ final r = w /\ trace r = [] \/
   writable env Feedback "feedback.json" = false
   /\ trace r = [EvJsonDump Feedback "feedback.json"]
   /\ outcome r = Raise OSError
   /\ match partial_write env Feedback "feedback.json" with
      | None => final r = w
      | Some written => final r = with_torn_feedback w written
      end)
  \/ Api.blank (Api.text request) = false
     /\ PyStr.is_empty (Api.human_label request) = false
     /\ writable env Feedback "feedback.json" = true
     /\ exists stored version,
         (feedback_dir w !! "feedback.json" = Some (Json (PList stored))
          \/ feedback_dir w !! "feedback.json" = None /\ stored = [])
         /\ (Api.get_current_model_version w = Ok (Some version)
             \/ Api.get_current_model_version w = Ok None /\ version = 1)
         /\ r = (Ok {| Api.message := "Feedback received successfully";
                       Api.timestamp := utcnow env |},
                 with_feedback w (stored ++ [feedback_entry env request version]),
                 [EvJsonDump Feedback "feedback.json"]).
Proof.
  intros r. subst r. unfold Api.submit_feedback.
  destruct (Api.blank (Api.text request)) eqn:Hb; [left; left; done|].
  destruct (PyStr.is_empty (Api.human_label request)) eqn:Hl; [left; left; done|].
  unfold_io. unfold_monad. cbn.
  destruct (Api.get_current_model_version w) as [[version|]|e] eqn:Hv; cbn;
    [| |left; left; done].
  - destruct (feedback_dir w !! "feedback.json") as [[a|s|j]|] eqn:Hf; cbn;
      rewrite ?Hf; cbn; try (left; left; done).
    + destruct j; cbn; try (left; left; done).
      destruct (writable env Feedback "feedback.json"); cbn.
      * right. do 3 (split; [done|]). exists l, version.
        split; [by left|]. split; [by left|]. done.
      * left; right. by destruct (partial_write env Feedback "feedback.json").
    + destruct (writable env Feedback "feedback.json"); cbn.
      * right. do 3 (split; [done|]). exists [], version.
        split; [by right|]. split; [by left|]. done.
      * left; right. by destruct (partial_write env Feedback "feedback.json").
  - destruct (feedback_dir w !! "feedback.json") as [[a|s|j]|] eqn:Hf; cbn;
      rewrite ?Hf; cbn; try (left; left; done).
    + destruct j; cbn; try (left; left; done).
      destruct (writable env Feedback "feedback.json"); cbn.
      * right. do 3 (split; [done|]). exists l, 1.
        split; [by left|]. split; [by right|]. done.
      * left; right. by destruct (partial_write env Feedback "feedback.json").
    + destruct (writable env Feedback "feedback.json"); cbn.
      * right. do 3 (split; [done|]). exists [], 1.
        split; [by right|]. split; [by right|]. done.
      * left; right. by destruct (partial_write env Feedback "feedback.json").
Qed.

(** X9. [submit_feedback] writes nothing but the feedback file, and the file
    only as its last step. On success it has appended exactly one entry to
    the stored list, after the entries that were there and in their order;
    the entry holds the text, the prediction and the label of the request
    and the version that the serving layer resolves (1 if it resolves none).
    A request that fails before that step (a rejected one, an unreadable
    store) leaves the disk as it was. When the write itself fails, the
    request ends in [OSError] and the file is either as it was or, when the
    failure came after the file was opened, cut down to what had been
    written until then: the stored entries are lost. The models and the
    metrics are never touched, nor any other file of the feedback
    directory. *)
Theorem submit_feedback_appends_one_entry (env : Env) (request : Api.FeedbackRequest)
    (w : World) :
  let r := Api.submit_feedback env request w in
  models_dir (final r) = models_dir w
  /\ metrics_dir (final r) = metrics_dir w
  /\ (forall name, name <> "feedback.json" ->
        feedback_dir (final r) !! name = feedback_dir w !! name)
  /\ (Api.blank (Api.text request) = true -> r = (Raise (HTTPException 400 "Text cannot be empty"), w, []))
  /\ (Api.blank (Api.text request) = false -> PyStr.is_empty (Api.human_label request) = true ->
      r = (Raise (HTTPException 400 "Human label cannot be empty"), w, []))
  /\ (trace r = [] -> is_ok (outcome r) = false /\ final r = w)
  /\ (is_ok (outcome r) = false -> trace r <> [] ->
      outcome r = Raise OSError
      /\ writable env Feedback "feedback.json" = false
      /\ match partial_write env Feedback "feedback.json" with
         | None => final r = w
         | Some written => final r = with_torn_feedback w written
         end)
  /\ (is_ok (outcome r) = true ->
      exists stored version,
        (feedback_dir w !! "feedback.json" = Some (Json (PList stored))
         \/ feedback_dir w !! "feedback.json" = None /\ stored = [])
        /\ (Api.get_current_model_version w = Ok (Some version)
            \/ Api.get_current_model_version w = Ok None /\ version = 1)
        /\ final r = with_feedback w (stored ++ [feedback_entry env request version])
        /\ writes (trace r) = [EvJsonDump Feedback "feedback.json"]).
Proof.
  intros r. subst r.
  pose proof (submit_feedback_cases env request w) as H. cbn zeta in H.
  destruct H
    as [[(Hok & Hfinal & Htr)|(Hw & Htr & Hout & Hfinal)]
       |(Hb & Hl & Hw & stored & version & Hs & Hv & Hr)].
  - rewrite Hfinal, Hok, Htr. split_and!; try done.
    + unfold Api.submit_feedback. by intros ->.
    + unfold Api.submit_feedback. by intros -> ->.
  - rewrite Htr, Hout.
    assert (Hb : Api.blank (Api.text request) = false).
    { destruct (Api.blank (Api.text request)) eqn:Hb; [|done].
      unfold Api.submit_feedback in Htr. by rewrite Hb in Htr. }
    assert (Hl : PyStr.is_empty (Api.human_label request) = false).
    { destruct (PyStr.is_empty (Api.human_label request)) eqn:Hl; [|done].
      unfold Api.submit_feedback in Htr. by rewrite Hb, Hl in Htr. }
    rewrite Hb, Hl.
    destruct (partial_write env Feedback "feedback.json") as [written|];
      rewrite Hfinal; split_and!; try done.
    intros name Hname. cbn. by rewrite lookup_insert_ne.
  - rewrite Hr, Hb, Hl. cbn. split_and!; try done.
    + intros name Hname. by rewrite lookup_insert_ne.
    + intros _. by exists stored, version.
Qed.

Lemma feedback_samples_of_snoc entries samples d :
  Retrain.feedback_samples_of entries = Ok samples ->
  Retrain.feedback_samples_of (entries ++ [PDict d])
  = Ok (samples ++ match sample_of_entry (PDict d) with Some s => [s] | None => [] end).
Proof.
  revert samples. induction entries as [|entry rest IH]; intros samples.
  - intros [= <-]. cbn. by destruct (_ && _).
  - destruct entry; try done. cbn [Retrain.feedback_samples_of app].
    destruct (Retrain.feedback_samples_of rest) as [rs|e] eqn:Hrest; [|done].
    rewrite (IH rs eq_refl).
    destruct (_ && _); intros [= <-]; done.
Qed.

Lemma load_feedback_run w :
  Retrain.load_feedback w
  = (match feedback_dir w !! "feedback.json" with
     | None => Ok []
     | Some (Json j) => Retrain.iterate_feedback j
     | Some _ => Raise JSONDecodeError
     end, w, []).
Proof.
  unfold Retrain.load_feedback. unfold_io. unfold_monad.
  cbn -[Retrain.iterate_feedback].
  destruct (feedback_dir w !! "feedback.json") as [[a|s|j]|] eqn:H;
    cbn -[Retrain.iterate_feedback]; rewrite ?H; reflexivity.
Qed.

Lemma blank_not_empty s : Api.blank s = false -> PyStr.is_empty s = false.
Proof. unfold Api.blank. by destruct (PyStr.is_empty s). Qed.

(** X10. Feedback that the serving layer accepted is what the retraining
    pipeline reads: after a successful [submit_feedback], [load_feedback]
    returns the samples it returned before, followed by the pair of the
    text and the human label of the request, unchanged. *)
Theorem submitted_feedback_is_loaded (env : Env) (request : Api.FeedbackRequest) (w : World)
    (samples : list (pyval * pyval))
    (Hok : is_ok (outcome (Api.submit_feedback env request w)) = true)
    (Hbefore : outcome (Retrain.load_feedback w) = Ok samples) :
  Retrain.load_feedback (final (Api.submit_feedback env request w))
  = (Ok (samples ++ [(PStr (Api.text request), PStr (Api.human_label request))]),
     final (Api.submit_feedback env request w), []).
Proof.
  pose proof (submit_feedback_cases env request w) as H. cbn zeta in H.
  destruct H
    as [[(Hno & _)|(_ & _ & Hout & _)]|(Hb & _ & _ & stored & version & Hs & _ & Hr)].
  - by rewrite Hno in Hok.
  - by rewrite Hout in Hok.
  - rewrite Hr. unfold final. cbn [fst snd].
    rewrite load_feedback_run in Hbefore. cbn in Hbefore.
    rewrite load_feedback_run. unfold with_feedback at 1. cbn [feedback_dir].
    rewrite lookup_insert_eq. cbn [Retrain.iterate_feedback].
    assert (Hstored : Retrain.feedback_samples_of stored = Ok samples).
    { destruct Hs as [Hs|[Hs ->]]; rewrite Hs in Hbefore; [done|]. by injection Hbefore as <-. }
    unfold feedback_entry. rewrite (feedback_samples_of_snoc _ _ _ Hstored).
    unfold sample_of_entry. cbn [Py.dict_get String.eqb Ascii.eqb Bool.eqb].
    cbn. by rewrite (blank_not_empty _ Hb).
Qed.

Lemma submitted_feedback_is_loaded_witness :
  let request := {| Api.text := "great match"; Api.model_prediction := "World";
                    Api.human_label := "Sports" |} in
  is_ok (outcome (Api.submit_feedback example_env request unknown_label_disk)) = true
  /\ outcome (Retrain.load_feedback unknown_label_disk) = Ok [(PStr "text A", PStr "Politics")]
  /\ outcome (Retrain.load_feedback
                (final (Api.submit_feedback example_env request unknown_label_disk)))
     = Ok [(PStr "text A", PStr "Politics"); (PStr "great match", PStr "Sports")].
Proof.
  intros request.
  assert (Hok : is_ok (outcome (Api.submit_feedback example_env request unknown_label_disk))
                = true) by (vm_compute; reflexivity).
  assert (Hbefore : outcome (Retrain.load_feedback unknown_label_disk)
                    = Ok [(PStr "text A", PStr "Politics")]) by (vm_compute; reflexivity).
  split; [exact Hok|]. split; [exact Hbefore|].
  by rewrite (submitted_feedback_is_loaded example_env request unknown_label_disk _ Hok Hbefore).
Defined.

(** A request whose write fails after the file was opened: the store that
    held one entry is left empty, and the request ends in [OSError]. *)
Example submit_feedback_torn_write :
  let request := {| Api.text := "great match"; Api.model_prediction := "World";
                    Api.human_label := "Sports" |} in
  let r := Api.submit_feedback example_env_torn_feedback request unknown_label_disk in
  outcome r = Raise OSError
  /\ feedback_dir unknown_label_disk !! "feedback.json" <> Some (Text "")
  /\ feedback_dir (final r) !! "feedback.json" = Some (Text "")
  /\ is_ok (outcome (Retrain.load_feedback (final r))) = false.
Proof. vm_compute. repeat split; congruence. Qed.

Lemma feedback_samples_of_kept entries samples :
  Retrain.feedback_samples_of entries = Ok samples ->
  Forall (fun s => Py.truthy s.1 = true /\ s.2 <> PNone) samples
  /\ (length samples <= length entries)%nat
  /\ Forall (fun entry => is_dict entry = true) entries.
Proof.
  revert samples. induction entries as [|entry rest IH]; intros samples.
  - intros [= <-]. by repeat split.
  - destruct entry; try done. cbn [Retrain.feedback_samples_of].
    destruct (Retrain.feedback_samples_of rest) as [rs|e]; [|done].
    destruct (IH rs eq_refl) as (Hall & Hlen & Hdict).
    destruct (Py.truthy _ && Py.is_not_None _) eqn:Hkeep; intros [= <-].
    + apply andb_true_iff in Hkeep as [Ht Hl]. split; [|split].
      * apply Forall_cons. split; [|done]. split; [done|]. cbn. intros Heq.
        by rewrite Heq in Hl.
      * cbn. lia.
      * by apply Forall_cons.
    + split; [done|]. split; [cbn; lia|]. by apply Forall_cons.
Qed.

(** X11. [load_feedback] only reads. Without a feedback file it returns no
    sample. From a file that holds a list it returns, when it returns, at
    most one sample per entry, every entry is a dictionary, and every sample
    has a text that is truthy and a human label that is not [None]: an entry
    with an empty or missing text, or a missing or null label, is skipped. *)
Theorem load_feedback_keeps_labelled_texts (w : World) :
  final (Retrain.load_feedback w) = w
  /\ trace (Retrain.load_feedback w) = []
  /\ (feedback_dir w !! "feedback.json" = None -> outcome (Retrain.load_feedback w) = Ok [])
  /\ (forall entries samples,
      feedback_dir w !! "feedback.json" = Some (Json (PList entries)) ->
      outcome (Retrain.load_feedback w) = Ok samples ->
      Forall (fun s => Py.truthy s.1 = true /\ s.2 <> PNone) samples
      /\ (length samples <= length entries)%nat
      /\ Forall (fun entry => is_dict entry = true) entries)
  /\ (forall entries d,
      feedback_dir w !! "feedback.json" = Some (Json (PList (PDict d :: entries))) ->
      Py.truthy (Py.dict_get d "text" (PStr "")) = false
      \/ Py.dict_get d "human_label" PNone = PNone ->
      outcome (Retrain.load_feedback w)
      = Retrain.feedback_samples_of entries).
Proof.
  rewrite load_feedback_run. split; [done|]. split; [done|]. split; [|split].
  - intros H. cbn. by rewrite H.
  - intros entries samples Hfile. cbn. rewrite Hfile. cbn [Retrain.iterate_feedback].
    apply feedback_samples_of_kept.
  - intros entries d Hfile Hskip. cbn. rewrite Hfile.
    cbn [Retrain.iterate_feedback Retrain.feedback_samples_of].
    destruct (Retrain.feedback_samples_of entries) as [rs|e]; [|done].
    destruct Hskip as [-> | ->]; [done|]. cbn. by rewrite andb_false_r.
Qed.

(** ** Loading and serving a model *)

Ltac unfold_load_model :=
  unfold Api.load_model; unfold_io; unfold_monad;
  unfold Api.set_current_model, Api.set_current_vectorizer, Api.set_current_version,
    Api.set_label_names.

Lemma load_model_Ok_inv version s :
  outcome (Api.load_model version s) = Ok tt ->
  exists n model vectorizer,
    (version = Some n
     \/ version = None /\ Api.get_current_model_version (Api.disk s) = Ok (Some n))
    /\ models_dir (Api.disk s) !! model_file n = Some (Joblib model)
    /\ models_dir (Api.disk s) !! vectorizer_file n = Some (Joblib vectorizer)
    /\ (models_dir (Api.disk s) !! "label_names.json" = None
        \/ exists j, models_dir (Api.disk s) !! "label_names.json" = Some (Json j))
    /\ final (Api.load_model version s)
       = loaded (Api.disk s) n model vectorizer (label_names_of (models_dir (Api.disk s))).
Proof.
  unfold loaded, label_names_of. unfold_load_model. cbn.
  run_cases; intros _; eexists _, _, _;
    (split; [first [by left | by right]|]);
    (split; [eassumption|]); (split; [eassumption|]);
    (split; [first [by left | right; by eexists]|]); reflexivity.
Qed.

Lemma load_model_disk version s :
  Api.disk (final (Api.load_model version s)) = Api.disk s
  /\ writes (trace (Api.load_model version s)) = [].
Proof. unfold_load_model. cbn. by run_cases. Qed.

Lemma load_model_complete version n s model vectorizer :
  version = Some n
  \/ version = None /\ Api.get_current_model_version (Api.disk s) = Ok (Some n) ->
  models_dir (Api.disk s) !! model_file n = Some (Joblib model) ->
  models_dir (Api.disk s) !! vectorizer_file n = Some (Joblib vectorizer) ->
  models_dir (Api.disk s) !! "label_names.json" = None
  \/ (exists j, models_dir (Api.disk s) !! "label_names.json" = Some (Json j)) ->
  Api.load_model version s
  = (Ok tt,
     loaded (Api.disk s) n model vectorizer (label_names_of (models_dir (Api.disk s))),
     [EvLoadModel; EvJoblibLoad Models (model_file n);
      EvJoblibLoad Models (vectorizer_file n)]).
Proof.
  intros Hversion Hmodel Hvectorizer Hlabels.
  unfold loaded, label_names_of. unfold_load_model.
  destruct Hversion as [-> | [-> Hv]]; cbn; rewrite ?Hv; cbn;
    rewrite Hmodel; cbn; rewrite ?Hmodel, ?Hvectorizer; cbn;
    rewrite ?Hvectorizer; cbn;
    (destruct Hlabels as [Hl | [j Hl]]; rewrite Hl; cbn; rewrite ?Hl; reflexivity).
Qed.

(** X12. [load_model]: when the classifier and the vectorizer of the
    version asked for (or, without one, of the version the serving layer
    resolves) are on the disk, the call succeeds and sets the four globals
    together: the two artifacts of that version, its number, and the label
    names of [label_names.json], or the four default names when that file
    is missing. It reads the two artifacts in this order and changes no
    file. *)
Theorem load_model_loads_version (version : option Z) (n : Z) (s : Api.State)
    (model vectorizer : artifact)
    (Hversion : version = Some n
                \/ version = None
                   /\ Api.get_current_model_version (Api.disk s) = Ok (Some n))
    (Hmodel : models_dir (Api.disk s) !! model_file n = Some (Joblib model))
    (Hvectorizer : models_dir (Api.disk s) !! vectorizer_file n = Some (Joblib vectorizer))
    (Hlabels : models_dir (Api.disk s) !! "label_names.json" = None
               \/ exists j, models_dir (Api.disk s) !! "label_names.json" = Some (Json j)) :
  Api.load_model version s
  = (Ok tt,
     loaded (Api.disk s) n model vectorizer (label_names_of (models_dir (Api.disk s))),
     [EvLoadModel; EvJoblibLoad Models (model_file n);
      EvJoblibLoad Models (vectorizer_file n)])
  /\ (models_dir (Api.disk s) !! "label_names.json" = None ->
      Api.label_names (final (Api.load_model version s))
      = PList (map PStr default_label_names)).
Proof.
  pose proof (load_model_complete version n s model vectorizer Hversion Hmodel Hvectorizer
                Hlabels) as H.
  split; [exact H|]. intros Hnone. rewrite H. cbn. unfold label_names_of. by rewrite Hnone.
Qed.

Lemma load_model_loads_version_witness :
  models_dir baseline_disk !! model_file 1 = Some (Joblib (Artifact 1))
  /\ models_dir baseline_disk !! vectorizer_file 1 = Some (Joblib (Artifact 2))
  /\ Api.load_model None (Api.initial baseline_disk)
     = (Ok tt,
        loaded baseline_disk 1 (Artifact 1) (Artifact 2) (PList (map PStr default_label_names)),
        [EvLoadModel; EvJoblibLoad Models "model_v1.joblib";
         EvJoblibLoad Models "vectorizer_v1.joblib"]).
Proof.
  assert (Hm : models_dir baseline_disk !! model_file 1 = Some (Joblib (Artifact 1)))
    by reflexivity.
  assert (Hv : models_dir baseline_disk !! vectorizer_file 1 = Some (Joblib (Artifact 2)))
    by reflexivity.
  split; [exact Hm|]. split; [exact Hv|].
  refine (proj1 (load_model_loads_version None 1 (Api.initial baseline_disk)
                   (Artifact 1) (Artifact 2) _ Hm Hv _)).
  - right. split; reflexivity.
  - left. reflexivity.
Defined.

(** X13. The failures of [load_model]. Without a registered version it
    raises [ValueError], for a version whose classifier file is missing
    [FileNotFoundError], both before any global is set. When the classifier
    is there and the vectorizer is not, the call raises after it has
    replaced the global classifier: the classifier of the new version is
    then held next to the vectorizer, the version number and the label
    names that were loaded before. *)
Theorem load_model_failures (n : Z) (s : Api.State) (model : artifact)
    (Hmodel : models_dir (Api.disk s) !! model_file n = Some (Joblib model))
    (Hvectorizer : models_dir (Api.disk s) !! vectorizer_file n = None) :
  Api.load_model (Some n) s
  = (Raise FileNotFoundError,
     {| Api.disk := Api.disk s; Api.current_model := Some model;
        Api.current_vectorizer := Api.current_vectorizer s;
        Api.current_version := Api.current_version s;
        Api.label_names := Api.label_names s |},
     [EvLoadModel; EvJoblibLoad Models (model_file n);
      EvJoblibLoad Models (vectorizer_file n)])
  /\ (forall n', models_dir (Api.disk s) !! model_file n' = None ->
      Api.load_model (Some n') s = (Raise FileNotFoundError, s, [EvLoadModel]))
  /\ (Api.get_current_model_version (Api.disk s) = Ok None ->
      Api.load_model None s = (Raise ValueError, s, [EvLoadModel])).
Proof.
  split; [|split].
  - unfold_load_model. cbn. rewrite Hmodel. cbn. rewrite Hmodel. cbn.
    by rewrite Hvectorizer.
  - intros n' Hnone. unfold_load_model. cbn. by rewrite Hnone.
  - intros Hnone. unfold_load_model. cbn. by rewrite Hnone.
Qed.

Lemma load_model_failures_witness :
  let w := {| models_dir := <[model_file 3 := Joblib (Artifact 5)]> (models_dir baseline_disk);
              feedback_dir := ∅; metrics_dir := ∅ |} in
  let s3 := loaded w 1 (Artifact 1) (Artifact 2) PNone in
  models_dir w !! model_file 3 = Some (Joblib (Artifact 5))
  /\ models_dir w !! vectorizer_file 3 = None
  /\ Api.current_model (final (Api.load_model (Some 3) s3)) = Some (Artifact 5)
  /\ Api.current_vectorizer (final (Api.load_model (Some 3) s3)) = Some (Artifact 2)
  /\ Api.current_version (final (Api.load_model (Some 3) s3)) = Some 1.
Proof.
  intros w s3.
  assert (Hm : models_dir (Api.disk s3) !! model_file 3 = Some (Joblib (Artifact 5)))
    by reflexivity.
  assert (Hv : models_dir (Api.disk s3) !! vectorizer_file 3 = None) by reflexivity.
  split; [exact Hm|]. split; [exact Hv|].
  destruct (load_model_failures 3 s3 (Artifact 5) Hm Hv) as [H _].
  rewrite H. by repeat split.
Defined.

(** ** Label names and label ids *)

Lemma list_index_nonneg l i v :
  0 <= i -> l !! Z.to_nat i = Some v -> Api.list_index l i = Ok v.
Proof.
  intros Hi Hv. unfold Api.list_index.
  pose proof (lookup_lt_Some _ _ _ Hv) as Hlt.
  destruct (Z.ltb_spec i 0); [lia|].
  destruct (Z.leb_spec 0 i); [|lia].
  destruct (Z.ltb_spec i (Z.of_nat (length l))); [|lia].
  cbn [andb]. by rewrite Hv.
Qed.

Lemma list_index_negative l i v :
  i < 0 -> l !! Z.to_nat (i + Z.of_nat (length l)) = Some v -> 0 <= i + Z.of_nat (length l) ->
  Api.list_index l i = Ok v.
Proof.
  intros Hi Hv Hge. unfold Api.list_index.
  pose proof (lookup_lt_Some _ _ _ Hv) as Hlt.
  destruct (Z.ltb_spec i 0); [|lia].
  destruct (Z.leb_spec 0 (i + Z.of_nat (length l))); [|lia].
  destruct (Z.ltb_spec (i + Z.of_nat (length l)) (Z.of_nat (length l))); [|lia].
  cbn [andb]. by rewrite Hv.
Qed.

Lemma list_index_below l i :
  i < - Z.of_nat (length l) -> Api.list_index l i = Raise IndexError.
Proof.
  intros Hi. unfold Api.list_index.
  destruct (Z.ltb_spec i 0); [|lia].
  destruct (Z.leb_spec 0 (i + Z.of_nat (length l))); [lia|]. done.
Qed.

Lemma get_label_name_list l label_id :
  l <> [] ->
  Api.get_label_name (PList l) label_id
  = if label_id <? Z.of_nat (length l) then Api.list_index l label_id
    else Ok (PStr ("Label_" ++ PyStr.str_of_int label_id)).
Proof. intros Hl. unfold Api.get_label_name. by destruct l. Qed.

(** X14. [get_label_name] on a list of label names that is not empty: an
    id within the list gives the name at that position, an id at or above
    its length the placeholder [Label_<id>]; a negative id is not given the
    placeholder: it counts from the end of the list, and below minus the
    length it raises [IndexError]. Without label names every id gives the
    placeholder. *)
Theorem get_label_name_positions (l : list pyval) (label_id : Z) (Hnonempty : l <> []) :
  let len := Z.of_nat (length l) in
  (0 <= label_id < len ->
   exists v, l !! Z.to_nat label_id = Some v /\ Api.get_label_name (PList l) label_id = Ok v)
  /\ (len <= label_id ->
      Api.get_label_name (PList l) label_id
      = Ok (PStr ("Label_" ++ PyStr.str_of_int label_id)))
  /\ (- len <= label_id < 0 ->
      exists v, l !! Z.to_nat (len + label_id) = Some v
                /\ Api.get_label_name (PList l) label_id = Ok v)
  /\ (label_id < - len -> Api.get_label_name (PList l) label_id = Raise IndexError)
  /\ Api.get_label_name PNone label_id = Ok (PStr ("Label_" ++ PyStr.str_of_int label_id))
  /\ Api.get_label_name (PList []) label_id
     = Ok (PStr ("Label_" ++ PyStr.str_of_int label_id)).
Proof.
  intros len. rewrite (get_label_name_list l label_id Hnonempty). fold len.
  split; [|split; [|split; [|split; [|done]]]].
  - intros [H0 Hlt]. destruct (l !! Z.to_nat label_id) as [v|] eqn:Hv.
    + exists v. split; [done|]. destruct (Z.ltb_spec label_id len); [|lia].
      by apply list_index_nonneg.
    + apply lookup_ge_None in Hv. lia.
  - intros Hge. by destruct (Z.ltb_spec label_id len); [lia|].
  - intros [Hge Hlt]. destruct (l !! Z.to_nat (len + label_id)) as [v|] eqn:Hv.
    + exists v. split; [done|]. destruct (Z.ltb_spec label_id len); [|lia].
      apply list_index_negative; [done| |lia]. by rewrite Z.add_comm.
    + apply lookup_ge_None in Hv. lia.
  - intros Hlt. destruct (Z.ltb_spec label_id len); [|lia]. by apply list_index_below.
Qed.

Lemma get_label_name_positions_witness :
  map PStr default_label_names <> []
  /\ Api.get_label_name (PList (map PStr default_label_names)) 4 = Ok (PStr "Label_4")
  /\ Api.get_label_name (PList (map PStr default_label_names)) (-1) = Ok (PStr "Sci/Tech")
  /\ Api.get_label_name (PList (map PStr default_label_names)) (-5) = Raise IndexError.
Proof.
  assert (Hne : map PStr default_label_names <> []) by discriminate.
  destruct (get_label_name_positions (map PStr default_label_names) 4 Hne) as (_ & H4 & _).
  destruct (get_label_name_positions (map PStr default_label_names) (-1) Hne)
    as (_ & _ & H1 & _).
  destruct (get_label_name_positions (map PStr default_label_names) (-5) Hne)
    as (_ & _ & _ & H5 & _).
  split; [exact Hne|]. split; [apply H4; cbn; lia|]. split; [|apply H5; cbn; lia].
  destruct H1 as (v & Hv & ->); [cbn; lia|]. cbn in Hv. by injection Hv as <-.
Defined.

Lemma equals_str_true name v : Api.equals_str name v = true <-> v = PStr name.
Proof.
  destruct v; cbn; try (split; [discriminate|discriminate]).
  destruct (String.eqb_spec s name) as [->|Hne]; split; try done.
  intros [= H]. by destruct Hne.
Qed.

Lemma get_label_id_list l name :
  Api.get_label_id (PList l) name
  = Ok (fmap (fun x => Z.of_nat x.1) (list_find (fun v => Api.equals_str name v = true) l)).
Proof.
  unfold Api.get_label_id. destruct l as [|v l]; [done|].
  change (Py.truthy (PList (v :: l))) with true. cbn iota.
  by destruct (list_find _ (v :: l)) as [[i x]|].
Qed.

(** X15. For a list of distinct label names, [get_label_id] inverts
    [get_label_name]: the name at position [i] has the id [i], and the id
    that [get_label_id] gives for a name is a position at which
    [get_label_name] gives that name back; a name that is not in the list
    has the id [None]. *)
Theorem label_id_inverts_label_name (names : list string) (Hdistinct : NoDup names) :
  (forall i name, names !! i = Some name ->
     Api.get_label_name (PList (map PStr names)) (Z.of_nat i) = Ok (PStr name)
     /\ Api.get_label_id (PList (map PStr names)) name = Ok (Some (Z.of_nat i)))
  /\ (forall name i, Api.get_label_id (PList (map PStr names)) name = Ok (Some i) ->
      Api.get_label_name (PList (map PStr names)) i = Ok (PStr name))
  /\ (forall name, name ∉ names -> Api.get_label_id (PList (map PStr names)) name = Ok None).
Proof.
  assert (Hfound : forall name j x,
            list_find (fun v => Api.equals_str name v = true) (map PStr names) = Some (j, x) ->
            names !! j = Some name /\ x = PStr name).
  { intros name j x Hfind. apply list_find_Some in Hfind as (Hj & Hx & _).
    apply equals_str_true in Hx. subst x. split; [|done].
    rewrite lookup_map in Hj. destruct (names !! j) as [y|]; [|done].
    cbn in Hj. by injection Hj as ->. }
  assert (Hname : forall i name, names !! i = Some name ->
            Api.get_label_name (PList (map PStr names)) (Z.of_nat i) = Ok (PStr name)).
  { intros i name Hi.
    assert (Hi' : map PStr names !! Z.to_nat (Z.of_nat i) = Some (PStr name)).
    { rewrite Nat2Z.id, lookup_map. by rewrite Hi. }
    rewrite get_label_name_list by (intros Hnil; by rewrite Hnil in Hi').
    pose proof (lookup_lt_Some _ _ _ Hi') as Hlt.
    destruct (Z.ltb_spec (Z.of_nat i) (Z.of_nat (length (map PStr names)))); [|lia].
    apply list_index_nonneg; [lia|done]. }
  split; [|split].
  - intros i name Hi. split; [by apply Hname|].
    rewrite get_label_id_list.
    destruct (list_find _ (map PStr names)) as [[j x]|] eqn:Hfind.
    + apply Hfound in Hfind as [Hj _]. cbn.
      by rewrite (NoDup_lookup _ _ _ _ Hdistinct Hj Hi).
    + apply list_find_None in Hfind. exfalso.
      eapply (proj1 (Forall_lookup _ _) Hfind i (PStr name)).
      * rewrite lookup_map. by rewrite Hi.
      * by apply equals_str_true.
  - intros name i. rewrite get_label_id_list.
    destruct (list_find _ (map PStr names)) as [[j x]|] eqn:Hfind; [|done].
    cbn. intros [= <-]. apply Hfound in Hfind as [Hj _]. by apply Hname.
  - intros name Hnot. rewrite get_label_id_list.
    destruct (list_find _ (map PStr names)) as [[j x]|] eqn:Hfind; [|done].
    apply Hfound in Hfind as [Hj _]. exfalso. apply Hnot.
    by apply list_elem_of_lookup_2 in Hj.
Qed.

Lemma label_id_inverts_label_name_witness :
  NoDup default_label_names
  /\ Api.get_label_name (PList (map PStr default_label_names)) 2 = Ok (PStr "Business")
  /\ Api.get_label_id (PList (map PStr default_label_names)) "Business" = Ok (Some 2)
  /\ Api.get_label_id (PList (map PStr default_label_names)) "Politics" = Ok None.
Proof.
  assert (Hd : NoDup default_label_names) by (apply (bool_decide_unpack _); by vm_compute).
  destruct (label_id_inverts_label_name default_label_names Hd) as (H1 & _ & H3).
  split; [exact Hd|].
  destruct (H1 2%nat "Business" eq_refl) as [Hn Hi].
  split; [exact Hn|]. split; [exact Hi|].
  apply H3. apply (bool_decide_unpack _). by vm_compute.
Defined.

Lemma predict_loaded env request s m v :
  Api.current_model s = Some m -> Api.current_vectorizer s = Some v ->
  Api.predict env request s
  = if Api.blank (Api.request_text request)
    then (Raise (HTTPException 400 "Text cannot be empty"), s, [])
    else
      (match infer env m v (Api.request_text request) with
       | Ok (prediction_id, confidence) =>
           match Api.get_label_name (Api.label_names s) prediction_id with
           | Ok (PStr name) =>
               Ok {| Api.prediction := name;
                     Api.confidence := confidence;
                     Api.model_version :=
                       "v" ++ match Api.current_version s with
                              | Some n => PyStr.str_of_int n
                              | None => "None"
                              end |}
           | _ => Raise (HTTPException 500 "Prediction error")
           end
       | Raise _ => Raise (HTTPException 500 "Prediction error")
       end, s, [EvInfer (Api.request_text request)]).
Proof.
  intros Hm Hv. unfold Api.predict. unfold_monad. cbn. rewrite Hm, Hv. cbn.
  destruct (Api.blank _); [done|]. cbn. rewrite Hm, Hv. cbn.
  destruct (infer env m v _) as [[i c]|e]; cbn; [|done].
  destruct (Api.get_label_name _ _) as [[]|e]; by cbn.
Qed.

Lemma predict_unloaded env request s :
  Api.current_model s = None \/ Api.current_vectorizer s = None ->
  Api.predict env request s
  = match Api.load_model None s with
    | (Ok _, s1, t1) =>
        match Api.predict env request s1 with (r, s2, t2) => (r, s2, t1 ++ t2) end
    | (Raise _, s1, t1) => (Raise (HTTPException 500 "Model not available"), s1, t1)
    end.
Proof.
  intros Hnone.
  destruct (Api.load_model None s) as [[[[]|e] s1] t1] eqn:Hload.
  - assert (Hout : outcome (Api.load_model None s) = Ok tt) by (by rewrite Hload).
    apply load_model_Ok_inv in Hout as (n & m & v & _ & _ & _ & _ & Hfinal).
    rewrite Hload in Hfinal. cbn in Hfinal. subst s1.
    rewrite (predict_loaded env request (loaded _ _ _ _ _) m v) by done.
    unfold Api.predict at 1. rewrite bind_run. unfold get at 1. cbn iota beta.
    rewrite bind_run.
    assert (Hmatch : match Api.current_model s, Api.current_vectorizer s with
                     | Some _, Some _ => mret tt
                     | _, _ => try_except (Api.load_model None)
                                 (fun _ => raise (HTTPException 500 "Model not available"))
                     end
                     = try_except (Api.load_model None)
                         (fun _ => raise (HTTPException 500 "Model not available"))).
    { destruct Hnone as [-> | ->]; [done|]. by destruct (Api.current_model s). }
    rewrite Hmatch, try_except_run, Hload.
    destruct (Api.blank _); [done|].
    unfold_monad. cbn.
    destruct (infer env m v _) as [[i c]|e]; cbn; [|done].
    destruct (Api.get_label_name _ _) as [[]|e]; by cbn.
  - unfold Api.predict at 1. rewrite bind_run. unfold get at 1. cbn iota beta.
    rewrite bind_run.
    assert (Hmatch : match Api.current_model s, Api.current_vectorizer s with
                     | Some _, Some _ => mret tt
                     | _, _ => try_except (Api.load_model None)
                                 (fun _ => raise (HTTPException 500 "Model not available"))
                     end
                     = try_except (Api.load_model None)
                         (fun _ => raise (HTTPException 500 "Model not available"))).
    { destruct Hnone as [-> | ->]; [done|]. by destruct (Api.current_model s). }
    rewrite Hmatch, try_except_run, Hload. unfold raise. by rewrite app_nil_r.
Qed.

Lemma predict_loaded_props env request s m v :
  Api.current_model s = Some m -> Api.current_vectorizer s = Some v ->
  let r := Api.predict env request s in
  final r = s
  /\ (EvLoadModel ∉ trace r)
  /\ writes (trace r) = []
  /\ (forall e, outcome r = Raise e ->
      e = HTTPException 400 "Text cannot be empty"
      \/ e = HTTPException 500 "Prediction error").
Proof.
  intros Hm Hv r. subst r. rewrite (predict_loaded env request s m v Hm Hv).
  destruct (Api.blank _).
  - split; [done|]. split; [apply not_elem_of_nil|]. split; [done|].
    intros e [= <-]. by left.
  - split; [done|]. split; [|split; [done|]].
    + intros Hin. apply list_elem_of_singleton in Hin. discriminate.
    + intros e. unfold outcome. cbn.
      destruct (infer env m v _) as [[i c]|e']; [|intros [= <-]; by right].
      destruct (Api.get_label_name _ _) as [[]|e']; intros [= <-]; by right.
Qed.

(** X16. [predict] never changes a file and never writes, and the only
    errors it raises are the three HTTP errors of its text: status 500
    [Model not available], status 400 [Text cannot be empty] and status 500
    [Prediction error]; whatever fails while the model is loaded or while it
    infers is answered with one of them. *)
Theorem predict_only_http_errors (env : Env) (request : Api.PredictRequest) (s : Api.State) :
  let r := Api.predict env request s in
  Api.disk (final r) = Api.disk s
  /\ writes (trace r) = []
  /\ (forall e, outcome r = Raise e ->
      e = HTTPException 500 "Model not available"
      \/ e = HTTPException 400 "Text cannot be empty"
      \/ e = HTTPException 500 "Prediction error").
Proof.
  intros r. subst r.
  destruct (Api.current_model s) as [m|] eqn:Hm;
    [destruct (Api.current_vectorizer s) as [v|] eqn:Hv|].
  - destruct (predict_loaded_props env request s m v Hm Hv) as (Hf & _ & Hw & He).
    rewrite Hf. split; [done|]. split; [done|]. intros e H. right. by apply He.
  - rewrite predict_unloaded by (by right).
    destruct (load_model_disk None s) as [Hd Hw].
    destruct (Api.load_model None s) as [[[[]|e0] s1] t1] eqn:Hload.
    + assert (Hout : outcome (Api.load_model None s) = Ok tt) by (by rewrite Hload).
      apply load_model_Ok_inv in Hout as (n & m' & v' & _ & _ & _ & _ & Hfinal).
      rewrite Hload in Hfinal. cbn in Hfinal, Hd, Hw.
      destruct (predict_loaded_props env request s1 m' v') as (Hf & _ & Hw' & He);
        [by subst s1|by subst s1|].
      destruct (Api.predict env request s1) as [[r s2] t2]. cbn in *.
      split; [by rewrite Hf|]. split.
      * unfold writes in *. by rewrite filter_app, Hw, Hw'.
      * intros e H. right. by apply He.
    + cbn in *. split; [done|]. split; [done|]. intros e [= <-]. by left.
  - rewrite predict_unloaded by (by left).
    destruct (load_model_disk None s) as [Hd Hw].
    destruct (Api.load_model None s) as [[[[]|e0] s1] t1] eqn:Hload.
    + assert (Hout : outcome (Api.load_model None s) = Ok tt) by (by rewrite Hload).
      apply load_model_Ok_inv in Hout as (n & m' & v' & _ & _ & _ & _ & Hfinal).
      rewrite Hload in Hfinal. cbn in Hfinal, Hd, Hw.
      destruct (predict_loaded_props env request s1 m' v') as (Hf & _ & Hw' & He);
        [by subst s1|by subst s1|].
      destruct (Api.predict env request s1) as [[r s2] t2]. cbn in *.
      split; [by rewrite Hf|]. split.
      * unfold writes in *. by rewrite filter_app, Hw, Hw'.
      * intros e H. right. by apply He.
    + cbn in *. split; [done|]. split; [done|]. intros e [= <-]. by left.
Qed.

Lemma predict_final_loaded env request s :
  outcome (Api.predict env request s) <> Raise (HTTPException 500 "Model not available") ->
  is_Some (Api.current_model (final (Api.predict env request s)))
  /\ is_Some (Api.current_vectorizer (final (Api.predict env request s))).
Proof.
  intros Hne.
  assert (Hloaded : forall s' m v, Api.current_model s' = Some m ->
            Api.current_vectorizer s' = Some v ->
            is_Some (Api.current_model (final (Api.predict env request s')))
            /\ is_Some (Api.current_vectorizer (final (Api.predict env request s')))).
  { intros s' m v Hm Hv.
    destruct (predict_loaded_props env request s' m v Hm Hv) as (-> & _).
    rewrite Hm, Hv. split; by eexists. }
  assert (Hunloaded : Api.current_model s = None \/ Api.current_vectorizer s = None ->
            is_Some (Api.current_model (final (Api.predict env request s)))
            /\ is_Some (Api.current_vectorizer (final (Api.predict env request s)))).
  { intros Hnone. rewrite (predict_unloaded env request s Hnone) in Hne |- *.
    destruct (Api.load_model None s) as [[[[]|e0] s1] t1] eqn:Hload; [|done].
    assert (Hout : outcome (Api.load_model None s) = Ok tt) by (by rewrite Hload).
    apply load_model_Ok_inv in Hout as (n & m' & v' & _ & _ & _ & _ & Hfinal).
    rewrite Hload in Hfinal. cbn in Hfinal.
    specialize (Hloaded s1 m' v').
    destruct (Api.predict env request s1) as [[r s2] t2]. cbn in *.
    apply Hloaded; by subst s1. }
  destruct (Api.current_model s) as [m|] eqn:Hm;
    [destruct (Api.current_vectorizer s) as [v|] eqn:Hv|]; eauto.
Qed.

(** X17. The model is loaded at most once: after a [predict] call that is
    not answered with [Model not available], the classifier and the
    vectorizer are held in the globals, and a later [predict] call does not
    enter [load_model] and leaves the globals as they are. *)
Theorem predict_loads_once (env : Env) (request request' : Api.PredictRequest)
    (s : Api.State)
    (Havailable : outcome (Api.predict env request s)
                  <> Raise (HTTPException 500 "Model not available")) :
  let s1 := final (Api.predict env request s) in
  is_Some (Api.current_model s1)
  /\ is_Some (Api.current_vectorizer s1)
  /\ (EvLoadModel ∉ trace (Api.predict env request' s1))
  /\ final (Api.predict env request' s1) = s1.
Proof.
  intros s1. destruct (predict_final_loaded env request s Havailable) as [[m Hm] [v Hv]].
  fold s1 in Hm, Hv.
  destruct (predict_loaded_props env request' s1 m v Hm Hv) as (Hf & Hl & _).
  split; [by eexists|]. split; [by eexists|]. by split.
Qed.

Lemma predict_loads_once_witness :
  let request := {| Api.request_text := "a goal in the last minute" |} in
  let s1 := final (Api.predict example_env request (Api.initial baseline_disk)) in
  outcome (Api.predict example_env request (Api.initial baseline_disk))
  <> Raise (HTTPException 500 "Model not available")
  /\ head (trace (Api.predict example_env request (Api.initial baseline_disk)))
     = Some EvLoadModel
  /\ EvLoadModel ∉ trace (Api.predict example_env request s1).
Proof.
  intros request s1.
  assert (H : outcome (Api.predict example_env request (Api.initial baseline_disk))
              <> Raise (HTTPException 500 "Model not available"))
    by (vm_compute; discriminate).
  split; [exact H|]. split; [reflexivity|].
  exact (proj1 (proj2 (proj2 (predict_loads_once example_env request request
                                (Api.initial baseline_disk) H)))).
Defined.

(** X18. A request with a text that is not blank, to a process that holds a
    loaded model whose label names are a list: when the classifier predicts
    a class id within the list and the name at that position is a string,
    the answer is that name, the probability of the class, and the loaded
    version written [v<number>]; one inference is made and the globals stay
    as they are. *)
Theorem predict_answers (env : Env) (request : Api.PredictRequest) (w : World) (n : Z)
    (model vectorizer : artifact) (names : list pyval)
    (prediction_id : Z) (confidence : pyfloat) (name : string)
    (Htext : Api.blank (Api.request_text request) = false)
    (Hinfer : infer env model vectorizer (Api.request_text request)
              = Ok (prediction_id, confidence))
    (Hid : 0 <= prediction_id)
    (Hname : names !! Z.to_nat prediction_id = Some (PStr name)) :
  let s := loaded w n model vectorizer (PList names) in
  Api.predict env request s
  = (Ok {| Api.prediction := name; Api.confidence := confidence;
           Api.model_version := "v" ++ PyStr.str_of_int n |},
     s, [EvInfer (Api.request_text request)]).
Proof.
  intros s. rewrite (predict_loaded env request s model vectorizer) by done.
  rewrite Htext, Hinfer. cbn [Api.label_names Api.current_version s loaded].
  assert (Hget : Api.get_label_name (PList names) prediction_id = Ok (PStr name)).
  { rewrite get_label_name_list by (intros Hnil; by rewrite Hnil in Hname).
    pose proof (lookup_lt_Some _ _ _ Hname) as Hlt.
    destruct (Z.ltb_spec prediction_id (Z.of_nat (length names))); [|lia].
    by apply list_index_nonneg. }
  by rewrite Hget.
Qed.

Lemma predict_answers_witness :
  let request := {| Api.request_text := "a goal in the last minute" |} in
  Api.blank (Api.request_text request) = false
  /\ Api.predict example_env request
       (loaded baseline_disk 1 (Artifact 1) (Artifact 2) (PList (map PStr default_label_names)))
     = (Ok {| Api.prediction := "Sports"; Api.confidence := FFinite (1 # 2);
              Api.model_version := "v1" |},
        loaded baseline_disk 1 (Artifact 1) (Artifact 2) (PList (map PStr default_label_names)),
        [EvInfer "a goal in the last minute"]).
Proof.
  intros request. split; [reflexivity|].
  apply (predict_answers example_env request baseline_disk 1 (Artifact 1) (Artifact 2)
           (map PStr default_label_names) 1 (FFinite (1 # 2)) "Sports");
    [reflexivity | reflexivity | lia | reflexivity].
Defined.

(** ** Start-up and health *)

(** X19. [startup_event] never raises: a failure of [load_model] is
    swallowed, and the globals and the log are those that the [load_model]
    call left. It changes no file. *)
Theorem startup_never_fails (s : Api.State) :
  let r := Api.startup_event s in
  outcome r = Ok tt
  /\ final r = final (Api.load_model None s)
  /\ trace r = trace (Api.load_model None s)
  /\ Api.disk (final r) = Api.disk s
  /\ writes (trace r) = [].
Proof.
  intros r. subst r. unfold Api.startup_event. rewrite try_except_run.
  destruct (load_model_disk None s) as [Hd Hw].
  destruct (Api.load_model None s) as [[[[]|e] s1] t1]; cbn in *;
    rewrite ?app_nil_r; by repeat split.
Qed.

(** X20. [health_check] after a [load_model] call that succeeded reports a
    loaded model and the loaded version as [v<number>], except for the
    version number 0, which it reports as [None]; for a process that has
    loaded nothing it reports no model and the version [None]. It changes
    nothing. *)
Theorem health_check_reports (version : option Z) (s : Api.State)
    (Hok : is_ok (outcome (Api.load_model version s)) = true) :
  let s1 := final (Api.load_model version s) in
  (exists n,
      Api.current_version s1 = Some n
      /\ Api.health_check s1
         = (Ok (PDict [("status", PStr "healthy");
                       ("model_loaded", PBool true);
                       ("current_version",
                        if n =? 0 then PNone else PStr ("v" ++ PyStr.str_of_int n))]),
            s1, []))
  /\ (forall w,
      Api.health_check (Api.initial w)
      = (Ok (PDict [("status", PStr "healthy");
                    ("model_loaded", PBool false);
                    ("current_version", PNone)]),
         Api.initial w, [])).
Proof.
  intros s1. split; [|done].
  assert (Hout : outcome (Api.load_model version s) = Ok tt).
  { by destruct (outcome (Api.load_model version s)) as [[]|]. }
  apply load_model_Ok_inv in Hout as (n & m & v & _ & _ & _ & _ & Hfinal).
  fold s1 in Hfinal. rewrite Hfinal. exists n. split; [done|].
  unfold Api.health_check, loaded. unfold_monad. cbn.
  by destruct (n =? 0).
Qed.

Lemma health_check_reports_witness :
  is_ok (outcome (Api.load_model None (Api.initial baseline_disk))) = true
  /\ outcome (Api.health_check (final (Api.load_model None (Api.initial baseline_disk))))
     = Ok (PDict [("status", PStr "healthy");
                  ("model_loaded", PBool true);
                  ("current_version", PStr "v1")]).
Proof.
  assert (Hok : is_ok (outcome (Api.load_model None (Api.initial baseline_disk))) = true)
    by (vm_compute; reflexivity).
  split; [exact Hok|].
  destruct (health_check_reports None (Api.initial baseline_disk) Hok) as [(n & Hn & H) _].
  rewrite H. vm_compute in Hn. injection Hn as <-. reflexivity.
Defined.

(** ** Baseline training and the model helpers *)

Ltac unfold_baseline :=
  unfold Baseline.main, Baseline.load_ag_news, Baseline.train_baseline_model,
    Baseline.save_model; unfold_io; unfold_monad.

Lemma baseline_main_Ok_inv env w :
  is_ok (outcome (Baseline.main env w)) = true ->
  exists corpus model vectorizer metrics,
    load_dataset env = Ok corpus
    /\ fit_vectorizer env (map PStr (train_texts corpus)) = Ok vectorizer
    /\ fit_classifier env vectorizer (map PStr (train_texts corpus))
         (map PInt (train_labels corpus)) = Ok model
    /\ final (Baseline.main env w) = baseline_trained w model vectorizer metrics
    /\ writes (trace (Baseline.main env w)) = baseline_events.
Proof.
  unfold baseline_trained, baseline_events. unfold_baseline. cbn.
  run_cases; intros _; eexists _, _, _, _; repeat split; try eassumption; reflexivity.
Qed.

Lemma baseline_main_frame env w :
  let r := Baseline.main env w in
  feedback_dir (final r) = feedback_dir w
  /\ writes (trace r) `prefix_of` baseline_events
  /\ (forall name, name <> model_file 1 -> name <> vectorizer_file 1 ->
      name <> "label_names.json" -> models_dir (final r) !! name = models_dir w !! name)
  /\ (forall name, name <> metrics_file 1 ->
      metrics_dir (final r) !! name = metrics_dir w !! name).
Proof.
  unfold baseline_events. unfold_baseline. cbn.
  run_cases; (split; [reflexivity|]); (split; [|split; intros name; intros;
    by rewrite ?lookup_insert_ne]);
    first [ by apply prefix_nil
          | by eexists [_; _; _]
          | by eexists [_; _]
          | by eexists [_]
          | by eexists [] ].
Qed.

(** X21. Baseline training never promotes and never touches the feedback:
    whatever its outcome, [current_version.txt] and the feedback store are
    what they were, its writes are an initial part of the sequence
    classifier of version 1, vectorizer of version 1, metrics of version 1,
    label names, and no other file of the models and the metrics is
    changed. *)
Theorem baseline_never_promotes (env : Env) (w : World) :
  let r := Baseline.main env w in
  models_dir (final r) !! pointer_file = models_dir w !! pointer_file
  /\ feedback_dir (final r) = feedback_dir w
  /\ writes (trace r) `prefix_of` baseline_events
  /\ (forall name, name <> model_file 1 -> name <> vectorizer_file 1 ->
      name <> "label_names.json" -> models_dir (final r) !! name = models_dir w !! name)
  /\ (forall name, name <> metrics_file 1 ->
      metrics_dir (final r) !! name = metrics_dir w !! name)
  /\ (is_ok (outcome r) = true -> writes (trace r) = baseline_events).
Proof.
  intros r. destruct (baseline_main_frame env w) as (Hf & Hp & Hm & Hx). fold r in Hf, Hp, Hm, Hx.
  split; [|split; [done|split; [done|split; [done|split; [done|]]]]].
  - apply Hm; [apply not_eq_sym, model_file_not_pointer
              |apply not_eq_sym, vectorizer_file_not_pointer|done].
  - intros Hok. by destruct (baseline_main_Ok_inv env w Hok) as (? & ? & ? & ? & _ & _ & _ & _ & ?).
Qed.

Lemma load_model_and_vectorizer_run version w :
  Model.load_model_and_vectorizer version w
  = match models_dir w !! model_file version with
    | None => (Raise FileNotFoundError, w, [])
    | Some (Joblib model) =>
        (match models_dir w !! vectorizer_file version with
         | None => Raise FileNotFoundError
         | Some (Joblib vectorizer) => Ok (model, vectorizer)
         | Some _ => Raise UnpicklingError
         end, w,
         [EvJoblibLoad Models (model_file version);
          EvJoblibLoad Models (vectorizer_file version)])
    | Some _ => (Raise UnpicklingError, w, [EvJoblibLoad Models (model_file version)])
    end.
Proof.
  unfold Model.load_model_and_vectorizer. unfold_io. unfold_monad. cbn.
  destruct (models_dir w !! model_file version) as [[a|s|j]|] eqn:Hm; cbn;
    rewrite ?Hm; try reflexivity.
  by destruct (models_dir w !! vectorizer_file version) as [[a'|s'|j']|].
Qed.

(** X22. A classifier and a vectorizer that [save_model] registered under a
    version are what [load_model_and_vectorizer] returns for that version;
    for a version whose classifier file is missing it raises
    [FileNotFoundError], and it changes nothing. *)
Theorem saved_model_is_loaded (env : Env) (model vectorizer : artifact) (version : Z)
    (w : World)
    (Hmodel : writable env Models (model_file version) = true)
    (Hvectorizer : writable env Models (vectorizer_file version) = true) :
  let w' := final (Baseline.save_model env model vectorizer version w) in
  Model.load_model_and_vectorizer version w'
  = (Ok (model, vectorizer), w',
     [EvJoblibLoad Models (model_file version); EvJoblibLoad Models (vectorizer_file version)])
  /\ (forall v', v' <> version ->
      Model.load_model_and_vectorizer v' w'
      = (outcome (Model.load_model_and_vectorizer v' w), w',
         trace (Model.load_model_and_vectorizer v' w)))
  /\ (forall v', models_dir w' !! model_file v' = None ->
      Model.load_model_and_vectorizer v' w' = (Raise FileNotFoundError, w', [])).
Proof.
  intros w'.
  assert (Hw' : w' = {| models_dir := <[vectorizer_file version := Joblib vectorizer]>
                                        (<[model_file version := Joblib model]> (models_dir w));
                        feedback_dir := feedback_dir w; metrics_dir := metrics_dir w |}).
  { subst w'. unfold Baseline.save_model. unfold_io. unfold_monad. cbn.
    by rewrite Hmodel, Hvectorizer. }
  split; [|split].
  - assert (H1 : models_dir w' !! model_file version = Some (Joblib model)).
    { rewrite Hw'. cbn. rewrite lookup_insert_ne by apply not_eq_sym, model_file_not_vectorizer.
      by rewrite lookup_insert_eq. }
    assert (H2 : models_dir w' !! vectorizer_file version = Some (Joblib vectorizer)).
    { rewrite Hw'. cbn. by rewrite lookup_insert_eq. }
    rewrite load_model_and_vectorizer_run. by rewrite H1, H2.
  - intros v' Hv'. rewrite !load_model_and_vectorizer_run.
    assert (H1 : models_dir w' !! model_file v' = models_dir w !! model_file v').
    { rewrite Hw'. cbn. rewrite lookup_insert_ne by apply not_eq_sym, model_file_not_vectorizer.
      rewrite lookup_insert_ne; [done|]. intros H. by apply model_file_inj in H. }
    assert (H2 : models_dir w' !! vectorizer_file v' = models_dir w !! vectorizer_file v').
    { rewrite Hw'. cbn.
      rewrite lookup_insert_ne by (intros H; by apply vectorizer_file_inj in H).
      rewrite lookup_insert_ne; [done|]. apply model_file_not_vectorizer. }
    rewrite H1, H2.
    destruct (models_dir w !! model_file v') as [[a|s|j]|]; try done.
  - intros v' Hnone. rewrite load_model_and_vectorizer_run. by rewrite Hnone.
Qed.

Lemma saved_model_is_loaded_witness :
  writable example_env Models (model_file 2) = true
  /\ writable example_env Models (vectorizer_file 2) = true
  /\ outcome (Model.load_model_and_vectorizer 2
                (final (Baseline.save_model example_env (Artifact 7) (Artifact 8) 2
                          baseline_disk)))
     = Ok (Artifact 7, Artifact 8)
  /\ outcome (Model.load_model_and_vectorizer 1
                (final (Baseline.save_model example_env (Artifact 7) (Artifact 8) 2
                          baseline_disk)))
     = Ok (Artifact 1, Artifact 2).
Proof.
  split; [reflexivity|]. split; [reflexivity|].
  destruct (saved_model_is_loaded example_env (Artifact 7) (Artifact 8) 2 baseline_disk
              eq_refl eq_refl) as (H1 & H2 & _).
  split; [by rewrite H1|]. by rewrite (H2 1) by done.
Defined.

Lemma load_label_names_run w :
  Model.load_label_names w
  = (match models_dir w !! "label_names.json" with
     | None => Ok (PList (map PStr default_label_names))
     | Some (Json j) => Ok j
     | Some _ => Raise JSONDecodeError
     end, w, []).
Proof.
  unfold Model.load_label_names. unfold_io. unfold_monad. cbn.
  destruct (models_dir w !! "label_names.json") as [[a|s|j]|] eqn:H; cbn;
    rewrite ?H; reflexivity.
Qed.

(** X23. After a baseline training that succeeds on an empty disk, the
    serving layer loads version 1: the classifier and the vectorizer that the
    training fitted on the corpus, with the four label names of the corpus;
    the model helpers return the same artifacts and label names, the
    retraining pipeline resolves version 1, and there is no pointer file. *)
Theorem baseline_is_served (env : Env)
    (Hok : is_ok (outcome (Baseline.main env empty_world)) = true) :
  let w := final (Baseline.main env empty_world) in
  exists corpus model vectorizer,
    load_dataset env = Ok corpus
    /\ fit_vectorizer env (map PStr (train_texts corpus)) = Ok vectorizer
    /\ fit_classifier env vectorizer (map PStr (train_texts corpus))
         (map PInt (train_labels corpus)) = Ok model
    /\ Api.load_model None (Api.initial w)
       = (Ok tt, loaded w 1 model vectorizer (PList (map PStr default_label_names)),
          [EvLoadModel; EvJoblibLoad Models (model_file 1);
           EvJoblibLoad Models (vectorizer_file 1)])
    /\ outcome (Model.load_model_and_vectorizer 1 w) = Ok (model, vectorizer)
    /\ outcome (Model.load_label_names w) = Ok (PList (map PStr default_label_names))
    /\ Retrain.get_current_model_version w = 1
    /\ models_dir w !! pointer_file = None.
Proof.
  intros w.
  destruct (baseline_main_Ok_inv env empty_world Hok)
    as (corpus & model & vectorizer & metrics & Hc & Hv & Hm & Hfinal & _).
  fold w in Hfinal. exists corpus, model, vectorizer.
  split; [done|]. split; [done|]. split; [done|].
  assert (Hmodel : models_dir w !! model_file 1 = Some (Joblib model)) by (by rewrite Hfinal).
  assert (Hvec : models_dir w !! vectorizer_file 1 = Some (Joblib vectorizer))
    by (by rewrite Hfinal).
  assert (Hlabels : models_dir w !! "label_names.json"
                    = Some (Json (PList (map PStr default_label_names))))
    by (by rewrite Hfinal).
  assert (Hpointer : models_dir w !! pointer_file = None) by (by rewrite Hfinal).
  assert (Hversion : Api.get_current_model_version w = Ok (Some 1)).
  { by destruct (baseline_main_registers_version_1 env Hok) as [H _]. }
  split; [|split; [|split; [|split]]].
  - rewrite (load_model_complete None 1 (Api.initial w) model vectorizer); try done.
    + unfold label_names_of. cbn [Api.disk Api.initial]. by rewrite Hlabels.
    + by right.
    + right. by eexists.
  - rewrite load_model_and_vectorizer_run. by rewrite Hmodel, Hvec.
  - rewrite load_label_names_run. by rewrite Hlabels.
  - rewrite api_version_without_pointer in Hversion by done.
    injection Hversion as Hmax. unfold Retrain.get_current_model_version. by rewrite Hmax.
  - done.
Qed.

Lemma baseline_is_served_witness :
  is_ok (outcome (Baseline.main example_env empty_world)) = true
  /\ outcome (Api.load_model None
                (Api.initial (final (Baseline.main example_env empty_world)))) = Ok tt
  /\ outcome (Model.load_model_and_vectorizer 1 (final (Baseline.main example_env empty_world)))
     = Ok (Artifact 10, Artifact 11).
Proof.
  assert (Hok : is_ok (outcome (Baseline.main example_env empty_world)) = true)
    by (vm_compute; reflexivity).
  split; [exact Hok|].
  destruct (baseline_is_served example_env Hok)
    as (corpus & model & vectorizer & Hc & Hv & Hm & Hload & Hboth & _).
  split; [by rewrite Hload|].
  rewrite Hboth. cbn in Hc. injection Hc as <-. cbn in Hv, Hm.
  injection Hv as <-. by injection Hm as <-.
Defined.

(** ** Combining with unusual weights *)

Lemma trunc_nonpos q : (q <= 0)%Q -> Py.trunc q <= 0.
Proof.
  unfold Qle, Py.trunc. cbn. rewrite Z.mul_1_r. intros Hq.
  assert (H : 0 <= Z.quot (- Qnum q) (Z.pos (Qden q))) by (apply Z.quot_pos; lia).
  rewrite Z.quot_opp_l in H by lia. lia.
Qed.

(** X24. [combine_datasets] with a weight that is not a positive number.
    A weight whose integer part is zero or negative (a negative integer, a
    float that is not positive) adds no row: the result is what [np.array]
    makes of the original texts and of the original labels, which for texts
    and labels that are integer ids or strings are the original texts and
    the original labels, as numpy unifies them. A weight that has no integer
    part makes the call raise, whatever the samples, also when there is no
    feedback at all: [ValueError] for [nan], [OverflowError] for an
    infinity, [TypeError] for [None]. When the call returns, the weight has
    an integer part and the two results are what [np.array] makes of the
    original rows followed by the repeated feedback rows; for texts and
    labels that are integer ids or strings the original texts come first and
    in their order, and the texts and the labels have grown by the same
    number of rows. *)
Theorem combine_datasets_unusual_weights (env : Env)
    (original_texts original_labels : list pyval)
    (feedback_samples : list (pyval * pyval)) :
  let originals :=
    texts ← Np.array env original_texts;
    labels ← Np.array env original_labels;
    Ok (texts, labels) in
  (forall n, n <= 0 ->
     Retrain.combine_datasets env original_texts original_labels feedback_samples (PInt n)
     = originals)
  /\ (forall q, (q <= 0)%Q ->
      Retrain.combine_datasets env original_texts original_labels feedback_samples
        (PFloat (FFinite q))
      = originals)
  /\ (forallb is_text original_texts = true -> forallb is_label original_labels = true ->
      originals = Ok (original_texts, Np.unify original_labels)
      /\ length (Np.unify original_labels) = length original_labels)
  /\ Retrain.combine_datasets env original_texts original_labels feedback_samples
       (PFloat FNaN)
     = Raise ValueError
  /\ Retrain.combine_datasets env original_texts original_labels feedback_samples
       (PFloat FInf)
     = Raise OverflowError
  /\ Retrain.combine_datasets env original_texts original_labels feedback_samples
       (PFloat FNegInf)
     = Raise OverflowError
  /\ Retrain.combine_datasets env original_texts original_labels feedback_samples PNone
     = Raise TypeError
  /\ (forall weight texts labels,
      Retrain.combine_datasets env original_texts original_labels feedback_samples weight
      = Ok (texts, labels) ->
      exists n,
        Py.int weight = Ok n
        /\ Np.array env (original_texts ++ repeated_texts (Z.to_nat n) feedback_samples)
           = Ok texts
        /\ Np.array env (original_labels ++ repeated_labels (Z.to_nat n) feedback_samples)
           = Ok labels
        /\ (forallb is_text (original_texts ++ feedback_samples.*1) = true ->
            forallb is_label (original_labels ++ feedback_samples.*2) = true ->
            original_texts `prefix_of` texts
            /\ (length texts - length original_texts
                = length labels - length original_labels)%nat)).
Proof.
  intros originals.
  assert (Hzero : forall weight n, Py.int weight = Ok n -> n <= 0 ->
            Retrain.combine_datasets env original_texts original_labels feedback_samples
              weight
            = originals).
  { intros weight n Hint Hn. rewrite (combine_datasets_int _ _ _ _ _ _ Hint).
    replace (Z.to_nat n) with 0%nat by lia.
    by rewrite repeated_texts_0, repeated_labels_0, !app_nil_r. }
  split_and!; try done.
  - intros n Hn. by apply (Hzero _ n).
  - intros q Hq. apply (Hzero _ (Py.trunc q)); [done|]. by apply trunc_nonpos.
  - intros Ht Hl. subst originals.
    rewrite (array_texts env original_texts Ht), (array_labels env original_labels Hl).
    split; [done|]. apply length_unify.
  - intros weight texts labels H.
    destruct (Py.int weight) as [n|e] eqn:Hint;
      [|by rewrite (combine_datasets_raises _ _ _ _ _ _ Hint) in H].
    exists n. split; [done|].
    pose proof H as H'. rewrite (combine_datasets_int _ _ _ _ _ _ Hint) in H'.
    destruct (Np.array env (original_texts ++ _)) as [a|] eqn:Ha; [|done].
    destruct (Np.array env (original_labels ++ _)) as [b|] eqn:Hb; [|done].
    cbn in H'. injection H' as -> ->. split; [done|]. split; [done|].
    intros Ht Hl.
    rewrite (combine_datasets_returns _ _ _ _ _ _ Hint Ht Hl) in H.
    injection H as <- <-. split; [by eexists|].
    rewrite length_unify, !length_app, length_repeated_texts, length_repeated_labels. lia.
Qed.

(** ** Bounds of the per-class metrics *)

Lemma count_samples_le_length p y_true y_pred :
  Metrics.count_samples p y_true y_pred <= Z.of_nat (length y_true).
Proof.
  revert y_pred. induction y_true as [|t ts IH]; intros [|x xs].
  - by rewrite count_samples_nil_l.
  - by rewrite count_samples_nil_l.
  - rewrite count_samples_nil_r. lia.
  - rewrite count_samples_cons. specialize (IH xs). unfold indicator. cbn [length].
    destruct (p _ _); lia.
Qed.

Lemma prf_divide_bounds n d : 0 <= n <= d -> (0 <= Metrics.prf_divide n d <= 1)%Q.
Proof.
  intros [H0 Hd]. unfold Metrics.prf_divide.
  destruct (Z.eqb_spec d 0) as [->|Hne]; [done|].
  unfold Qle. cbn. rewrite Z2Pos.id by lia. lia.
Qed.

Lemma fill_per_class_values items ps rs fs ss acc per_class :
  Metrics.fill_per_class items ps rs fs ss acc = Ok per_class ->
  forall label c, per_class !! label = Some c ->
    acc !! label = Some c
    \/ exists i, (i, label) ∈ items
         /\ ps !! i = Some (Metrics.precision c) /\ rs !! i = Some (Metrics.recall c)
         /\ fs !! i = Some (Metrics.f1 c) /\ ss !! i = Some (Metrics.support c).
Proof.
  revert acc. induction items as [|[i label0] rest IH]; intros acc.
  - intros [= <-] label c H. by left.
  - cbn [Metrics.fill_per_class]. unfold Metrics.at_index.
    destruct (ps !! i) as [p|] eqn:Hp; [|done].
    destruct (rs !! i) as [r|] eqn:Hr; [|done].
    destruct (fs !! i) as [f|] eqn:Hf; [|done].
    destruct (ss !! i) as [s|] eqn:Hs; [|done]. cbn.
    intros Hfill label c Hc.
    destruct (IH _ Hfill label c Hc) as [Hacc|(j & Hj & H)].
    + destruct (decide (label = label0)) as [->|Hne].
      * rewrite lookup_insert_eq in Hacc. injection Hacc as <-. right. exists i.
        split; [apply elem_of_cons; by left|done].
      * rewrite lookup_insert_ne in Hacc by done. by left.
    + right. exists j. split; [apply elem_of_cons; by right|done].
Qed.

(** X25. Every per-class entry of the record that [calculate_metrics]
    returns belongs to a label of the schema, and its values are within
    their ranges: precision, recall and F1 lie between 0 and 1, and the
    support between 0 and the number of samples. *)
Theorem calculate_metrics_scores_bounded (env : Env) (y_true y_pred : list Z)
    (names : list string) (m : Metrics.MetricsRecord)
    (Hm : Metrics.calculate_metrics env y_true y_pred names = Ok m) :
  forall label c, Metrics.per_class m !! label = Some c ->
    label ∈ names
    /\ (0 <= Metrics.precision c <= 1)%Q
    /\ (0 <= Metrics.recall c <= 1)%Q
    /\ (0 <= Metrics.f1 c <= 1)%Q
    /\ 0 <= Metrics.support c <= Z.of_nat (length y_true).
Proof.
  intros label c Hc.
  destruct (calculate_metrics_Ok _ _ _ _ _ Hm) as (ps & rs & fs & ss & Hprfs & _ & Hfill & _).
  apply precision_recall_fscore_support_Ok in Hprfs as (-> & -> & -> & ->).
  destruct (fill_per_class_values _ _ _ _ _ _ _ Hfill label c Hc)
    as [Hempty|(i & Hi & Hp & Hr & Hf & Hs)]; [by rewrite lookup_empty in Hempty|].
  split.
  { apply elem_of_enumerate in Hi. by apply list_elem_of_lookup_2 in Hi. }
  rewrite lookup_map in Hp. rewrite lookup_map in Hr.
  rewrite lookup_map in Hf. rewrite lookup_map in Hs.
  destruct (map Z.of_nat (seq 0 (length names)) !! i) as [k|]; [|done].
  cbn in Hp, Hr, Hf, Hs.
  injection Hp as <-. injection Hr as <-. injection Hf as <-. injection Hs as <-.
  set (tp := Metrics.count_samples (fun t p => (t =? k) && (p =? k)) y_true y_pred).
  set (pred_sum := Metrics.count_samples (fun _ p => p =? k) y_true y_pred).
  set (true_sum := Metrics.count_samples (fun t _ => t =? k) y_true y_pred).
  assert (H0 : 0 <= tp) by apply count_samples_nonneg.
  assert (H1 : tp <= pred_sum).
  { apply count_samples_le. intros t x H. by apply andb_true_iff in H as [_ H]. }
  assert (H2 : tp <= true_sum).
  { apply count_samples_le. intros t x H. by apply andb_true_iff in H as [H _]. }
  split; [apply prf_divide_bounds; lia|].
  split; [apply prf_divide_bounds; lia|].
  split; [apply prf_divide_bounds; lia|].
  split; [apply count_samples_nonneg|apply count_samples_le_length].
Qed.

Lemma calculate_metrics_scores_bounded_witness :
  exists m c,
    Metrics.calculate_metrics example_env [0; 1; 1; 3] [0; 1; 2; 3] default_label_names = Ok m
    /\ Metrics.per_class m !! "Sports" = Some c
    /\ (0 <= Metrics.recall c <= 1)%Q
    /\ 0 <= Metrics.support c <= 4.
Proof.
  assert (Hm : exists m, Metrics.calculate_metrics example_env [0; 1; 1; 3] [0; 1; 2; 3]
                           default_label_names = Ok m
                         /\ is_Some (Metrics.per_class m !! "Sports")).
  { eexists. split; [vm_compute; reflexivity|]. vm_compute. by eexists. }
  destruct Hm as (m & Hm & [c Hc]). exists m, c. split; [exact Hm|]. split; [exact Hc|].
  destruct (calculate_metrics_scores_bounded example_env _ _ _ m Hm "Sports" c Hc)
    as (_ & _ & Hr & _ & Hs).
  split; [exact Hr|exact Hs].
Defined.

Lemma forallb_false {A} (f : A -> bool) l :
  forallb f l = false -> exists x, x ∈ l /\ f x = false.
Proof.
  induction l as [|a l IH]; [done|]. cbn.
  destruct (f a) eqn:Ha.
  - intros H. destruct (IH H) as (x & Hx & Hfx). exists x. split; [|done].
    apply elem_of_cons. by right.
  - intros _. exists a. split; [apply elem_of_cons; by left|done].
Qed.

Lemma in_schema_range n t : t ∈ map Z.of_nat (seq 0 n) <-> in_schema n t = true.
Proof.
  unfold in_schema. rewrite andb_true_iff, Z.leb_le, Z.ltb_lt.
  rewrite list_elem_of_In, in_map_iff. split.
  - intros (k & <- & Hk%in_seq). lia.
  - intros [H0 H1]. exists (Z.to_nat t). split; [lia|]. apply in_seq. lia.
Qed.

(** X26. When [calculate_metrics] returns and when it raises: it returns a
    record exactly when the three scores of the library are computed, the
    true and the predicted labels have the same length, the schema is not
    empty, and, unless there is no sample, some true label is a class id of
    the schema. *)
Theorem calculate_metrics_defined (env : Env) (y_true y_pred : list Z) (names : list string) :
  is_ok (Metrics.calculate_metrics env y_true y_pred names) = true
  <-> is_ok (accuracy_score env y_true y_pred) = true
      /\ is_ok (f1_score env Macro y_true y_pred) = true
      /\ is_ok (f1_score env Weighted y_true y_pred) = true
      /\ length y_true = length y_pred
      /\ names <> []
      /\ (y_true = [] \/ exists t, t ∈ y_true /\ in_schema (length names) t = true).
Proof.
  split.
  - intros Hok.
    destruct (Metrics.calculate_metrics env y_true y_pred names) as [m|] eqn:Hm; [|done].
    destruct (calculate_metrics_Ok _ _ _ _ _ Hm) as (ps & rs & fs & ss & _ & Hcm & _).
    unfold Metrics.calculate_metrics in Hm.
    destruct (accuracy_score env y_true y_pred) as [acc|]; [|done].
    destruct (f1_score env Macro y_true y_pred) as [fm|]; [|done].
    destruct (f1_score env Weighted y_true y_pred) as [fw|]; [|done].
    split; [done|]. split; [done|]. split; [done|].
    unfold Metrics.confusion_matrix in Hcm.
    destruct (Nat.eqb_spec (length y_true) (length y_pred)) as [Hlen|]; [|done].
    cbn [negb] in Hcm. split; [done|].
    case_bool_decide as Hlabels; [done|].
    split; [intros ->; by apply Hlabels|].
    case_bool_decide as Htrue; [by left|]. right.
    destruct (forallb _ y_true) eqn:Hall; [done|].
    apply forallb_false in Hall as (t & Ht & Hin). exists t. split; [done|].
    apply negb_false_iff, bool_decide_eq_true in Hin. by apply in_schema_range.
  - intros (Hacc & Hfm & Hfw & Hlen & Hnames & Htrue).
    destruct (accuracy_score env y_true y_pred) as [acc|] eqn:Ha; [|done].
    destruct (f1_score env Macro y_true y_pred) as [fm|] eqn:Hm; [|done].
    destruct (f1_score env Weighted y_true y_pred) as [fw|] eqn:Hw; [|done].
    destruct (calculate_metrics_returns env y_true y_pred names acc fm fw) as [m ->]; done.
Qed.

(** ** The pointer and an unregistered version *)

(** X27. The serving layer follows the pointer file without checking that
    the version it names is registered: when [current_version.txt] names a
    version whose classifier file is missing, the version endpoint still
    reports that version, [load_model] raises [FileNotFoundError] before it
    sets a global, and [predict] answers with status 500 [Model not
    available], also when classifiers of other versions are on the disk. *)
Theorem pointer_to_unregistered_version (env : Env) (request : Api.PredictRequest)
    (w : World) (v : Z)
    (Hpointer : models_dir w !! pointer_file = Some (Text (PyStr.str_of_int v)))
    (Hmissing : models_dir w !! model_file v = None) :
  Api.get_model_version w
  = (Ok (PDict [("version", PStr ("v" ++ PyStr.str_of_int v)); ("version_number", PInt v)]),
     w, [])
  /\ Api.load_model None (Api.initial w) = (Raise FileNotFoundError, Api.initial w, [EvLoadModel])
  /\ Api.predict env request (Api.initial w)
     = (Raise (HTTPException 500 "Model not available"), Api.initial w, [EvLoadModel]).
Proof.
  pose proof (api_version_of_pointer w v Hpointer) as Hv.
  assert (Hload : Api.load_model None (Api.initial w)
                  = (Raise FileNotFoundError, Api.initial w, [EvLoadModel])).
  { unfold_load_model. cbn. rewrite Hv. cbn. by rewrite Hmissing. }
  split; [|split].
  - rewrite get_model_version_run. by rewrite Hv.
  - done.
  - rewrite predict_unloaded by (by left). by rewrite Hload.
Qed.

Lemma pointer_to_unregistered_version_witness :
  let w := {| models_dir := <[pointer_file := Text "7"]> (models_dir baseline_disk);
              feedback_dir := ∅; metrics_dir := ∅ |} in
  models_dir w !! pointer_file = Some (Text (PyStr.str_of_int 7))
  /\ models_dir w !! model_file 7 = None
  /\ is_Some (models_dir w !! model_file 1)
  /\ outcome (Api.predict example_env {| Api.request_text := "hello" |} (Api.initial w))
     = Raise (HTTPException 500 "Model not available").
Proof.
  intros w.
  assert (Hp : models_dir w !! pointer_file = Some (Text (PyStr.str_of_int 7))) by reflexivity.
  assert (Hm : models_dir w !! model_file 7 = None) by reflexivity.
  split; [exact Hp|]. split; [exact Hm|]. split; [by eexists|].
  destruct (pointer_to_unregistered_version example_env {| Api.request_text := "hello" |}
              w 7 Hp Hm) as (_ & _ & H).
  by rewrite H.
Defined.

(** ** A complete retraining run *)

Lemma report_saved_baseline metrics cur w :
  (metrics_dir w !! metrics_file 1 = None
   \/ exists b, metrics_dir w !! metrics_file 1 = Some (Json (Metrics.to_json b))) ->
  Retrain.report metrics cur w = (Ok tt, w, []).
Proof.
  intros Hb. unfold Retrain.report.
  destruct (1 <=? cur); [|done].
  rewrite bind_run, load_metrics_run.
  destruct Hb as [-> | [b ->]]; [done|].
  change (Py.truthy (Metrics.to_json b)) with true. cbn iota.
  unfold Retrain.improvement.
  destruct (subscript_to_json b) as (Ha & Hm & _).
  unfold_monad. by rewrite Ha, Hm.
Qed.

(** X28. When a retraining run succeeds: if the stages before the commit
    produce a classifier, the four files of the commit can be written, and
    the metrics of version 1 are either absent or those that [save_metrics]
    stored, then the run returns, its disk is the disk of the complete
    commit of the next version, and its log is the log of the stages
    followed by the four writes of the commit. *)
Theorem retraining_succeeds (env : Env) (feedback_weight : pyval) (w : World)
    (model vectorizer : artifact) (metrics : Metrics.MetricsRecord)
    (Hstages : outcome (stages_before_commit env feedback_weight w)
               = Ok (Some (Retrain.get_current_model_version w, (model, vectorizer, metrics))))
    (Hwritable :
       let next_version := Retrain.get_current_model_version w + 1 in
       writable env Models (model_file next_version) = true
       /\ writable env Models (vectorizer_file next_version) = true
       /\ writable env Metrics (metrics_file next_version) = true
       /\ writable env Models pointer_file = true)
    (Hbaseline : metrics_dir w !! metrics_file 1 = None
                 \/ exists b, metrics_dir w !! metrics_file 1
                              = Some (Json (Metrics.to_json b))) :
  let next_version := Retrain.get_current_model_version w + 1 in
  Retrain.main env feedback_weight w
  = (Ok tt, committed w next_version model vectorizer metrics,
     trace (stages_before_commit env feedback_weight w) ++ commit_events next_version).
Proof.
  intros next_version. destruct Hwritable as (H1 & H2 & H3 & H4). fold next_version in H1, H2, H3.
  destruct (stages_before_commit_version _ _ _ _ _ Hstages) as [_ Hcur].
  destruct (stages_before_commit_read_only env feedback_weight w) as [Hfinal _].
  rewrite main_stages, bind_run.
  destruct (stages_before_commit env feedback_weight w) as [[r s] t] eqn:Hrun.
  cbn in Hstages, Hfinal. subst r s. cbn [trace snd].
  rewrite bind_run. fold next_version.
  rewrite (commit_complete _ _ _ _ _ _ H1 H2 H3 H4).
  rewrite report_saved_baseline.
  - by rewrite app_nil_r.
  - cbn [metrics_dir committed].
    rewrite lookup_insert_ne; [done|]. intros H. apply metrics_file_inj in H.
    subst next_version. lia.
Qed.

Lemma retraining_succeeds_witness :
  exists model vectorizer metrics,
    outcome (stages_before_commit example_env (PFloat (FFinite 1)) baseline_disk)
    = Ok (Some (Retrain.get_current_model_version baseline_disk, (model, vectorizer, metrics)))
    /\ metrics_dir baseline_disk !! metrics_file 1 = None
    /\ outcome (Retrain.main example_env (PFloat (FFinite 1)) baseline_disk) = Ok tt
    /\ final (Retrain.main example_env (PFloat (FFinite 1)) baseline_disk)
       = committed baseline_disk 2 model vectorizer metrics.
Proof.
  assert (Hs : exists model vectorizer metrics,
             outcome (stages_before_commit example_env (PFloat (FFinite 1)) baseline_disk)
             = Ok (Some (Retrain.get_current_model_version baseline_disk,
                         (model, vectorizer, metrics))))
    by (eexists _, _, _; vm_compute; reflexivity).
  destruct Hs as (model & vectorizer & metrics & Hs). exists model, vectorizer, metrics.
  split; [exact Hs|]. split; [reflexivity|].
  assert (H := retraining_succeeds example_env (PFloat (FFinite 1)) baseline_disk
                 model vectorizer metrics Hs
                 (conj eq_refl (conj eq_refl (conj eq_refl eq_refl)))
                 (or_introl eq_refl)).
  cbn zeta in H. rewrite H. split; reflexivity.
Defined.
